(** * Flogate: flood-relief coordination dashboard

    A shallow embedding of the server (shared schema, [DatabaseStorage],
    the Express routes) and of the flood-map component, with the properties
    of the written specification stated and settled against it.

    Conventions of the embedding:
    - SQL [NULL] is [None]; a nullable column has an [option] type;
    - PostgreSQL [integer] is a [Z] inside the 32-bit signed range, and an
      operation leaving that range raises an error, it does not wrap;
    - [timestamp] values are [Z] (milliseconds); [decimal] values are kept as
      the strings the driver hands back, and are not checked against the
      precision of their column;
    - [gen_random_uuid()], [now()] and [new Date()] are read from the
      environment and passed to the operation that uses them;
    - a route handler is the function Express calls once the
      [isAuthenticated] middleware has let the request through. *)

From Stdlib Require Import ZArith List String Ascii Bool Lia QArith DecimalString.
From Stdlib Require Import Permutation Sorted.
Import ListNotations.

Local Open Scope string_scope.
Local Open Scope Z_scope.

Set Implicit Arguments.
Set Warnings "-register-all".

(* ===================================================================== *)
(** * SQL values and operators *)
(* ===================================================================== *)

Module Sql.

(** Errors the database raises. *)
Inductive error : Type :=
| unique_violation
| foreign_key_violation
| numeric_value_out_of_range
| division_by_zero.

Inductive result (A : Type) : Type :=
| Ok (a : A)
| Err (e : error).
Arguments Ok {A} a.
Arguments Err {A} e.

Definition bind {A B} (r : result A) (k : A -> result B) : result B :=
  match r with
  | Ok a => k a
  | Err e => Err e
  end.

Definition int4_min : Z := - 2147483648.
Definition int4_max : Z := 2147483647.

Definition int4_ok (z : Z) : bool := (int4_min <=? z) && (z <=? int4_max).

Definition int4_ok_opt (z : option Z) : bool :=
  match z with
  | Some v => int4_ok v
  | None => true
  end.

(** [a + b] on [integer] operands: [NULL] is absorbing, overflow raises. *)
Definition int4_add (a b : option Z) : result (option Z) :=
  match a, b with
  | Some x, Some y =>
      if int4_ok (x + y) then Ok (Some (x + y))
      else Err numeric_value_out_of_range
  | _, _ => Ok None
  end.

(** [a = b] in three-valued logic. *)
Definition eq_int (a b : option Z) : option bool :=
  match a, b with
  | Some x, Some y => Some (x =? y)
  | _, _ => None
  end.

Definition eq_bool (a b : option bool) : option bool :=
  match a, b with
  | Some x, Some y => Some (Bool.eqb x y)
  | _, _ => None
  end.

(** [a >= b] on timestamps. *)
Definition gte (a b : option Z) : option bool :=
  match a, b with
  | Some x, Some y => Some (y <=? x)
  | _, _ => None
  end.

(** [and(p, q)]: false wins over unknown. *)
Definition and3 (p q : option bool) : option bool :=
  match p, q with
  | Some false, _ | _, Some false => Some false
  | Some true, Some true => Some true
  | _, _ => None
  end.

(** A [WHERE] clause keeps the rows on which the condition is true;
    false and unknown both drop the row. *)
Definition is_true (c : option bool) : bool :=
  match c with
  | Some true => true
  | _ => false
  end.

Definition where_ {A} (cond : A -> option bool) (rows : list A) : list A :=
  filter (fun r => is_true (cond r)) rows.

(** [count( * )]. *)
Definition count_star {A} (rows : list A) : Z := Z.of_nat (List.length rows).

(** [SUM(col)]: the sum of the non-null values, [NULL] when there is
    none (in particular over no row at all).  The sum is taken in [Z]:
    the [bigint] it has in PostgreSQL cannot overflow on fewer than 2^32
    [integer] values. *)
Fixpoint SUM (col : list (option Z)) : option Z :=
  match col with
  | [] => None
  | None :: rest => SUM rest
  | Some v :: rest =>
      match SUM rest with
      | Some s => Some (v + s)
      | None => Some v
      end
  end.

(** [ROUND(n / d, 0)] on [numeric]: the quotient rounded to the nearest
    integer, a tie going away from zero.  The quotient is taken exactly
    (PostgreSQL evaluates it to at least sixteen significant digits
    before [ROUND] is applied). *)
Definition round_div (n d : Z) : Z :=
  Z.sgn n * Z.sgn d * ((2 * Z.abs n + Z.abs d) / (2 * Z.abs d)).

(** [ROUND(a * 100.0 / b, 0)]: [NULL] as soon as one operand is, an error
    when the denominator is zero. *)
Definition round_percent (a b : option Z) : result (option Z) :=
  match a, b with
  | Some x, Some y =>
      if y =? 0 then Err division_by_zero
      else Ok (Some (round_div (x * 100) y))
  | _, _ => Ok None
  end.

(** [ORDER BY key DESC]: greatest key first, [NULL] keys before all
    others.  [desc_lt a b] says that key [a] comes strictly after key [b].
    Rows with equal keys keep their relative order here; SQL leaves that
    order open. *)
Definition desc_lt (a b : option Z) : bool :=
  match a, b with
  | None, _ => false
  | Some _, None => true
  | Some x, Some y => x <? y
  end.

Section OrderBy.
Variable A : Type.
Variable key : A -> option Z.

Fixpoint insert_desc (r : A) (sorted : list A) : list A :=
  match sorted with
  | [] => [r]
  | h :: t =>
      if desc_lt (key r) (key h)
      then h :: insert_desc r t
      else r :: h :: t
  end.

Fixpoint orderBy_desc (rows : list A) : list A :=
  match rows with
  | [] => []
  | r :: rest => insert_desc r (orderBy_desc rest)
  end.
End OrderBy.

End Sql.

Notation "x <- r ;; k" := (Sql.bind r (fun x => k))
  (at level 61, r at next level, right associativity).

(* ===================================================================== *)
(** * The shared schema: one record per table row *)
(* ===================================================================== *)

(** A column with [.notNull()] has a plain type, any other column an
    [option].  The field names are the property names of the Drizzle table
    objects. *)

Module users.
Record row : Type := {
  id : string;
  email : option string;
  firstName : option string;
  lastName : option string;
  profileImageUrl : option string;
  role : string;
  district : option string;
  organization : option string;
  createdAt : option Z;
  updatedAt : option Z
}.
End users.

Module floodZones.
Record row : Type := {
  id : string;
  name : string;
  district : string;
  latitude : string;
  longitude : string;
  riskLevel : string;
  radius : Z;
  waterLevel : option string;
  dangerMark : option string;
  isActive : option bool;
  lastUpdated : option Z;
  createdAt : option Z
}.
End floodZones.

Module affectedPopulation.
Record row : Type := {
  id : string;
  name : string;
  age : option Z;
  gender : option string;
  phoneNumber : option string;
  address : option string;
  latitude : option string;
  longitude : option string;
  floodZoneId : option string;
  evacuationStatus : string;
  medicalNeeds : option string;
  familyMembers : option Z;
  registeredBy : option string;
  createdAt : option Z;
  updatedAt : option Z
}.
End affectedPopulation.

Module resources.
Record row : Type := {
  id : string;
  name : string;
  type : string;
  unit : string;
  totalQuantity : Z;
  allocatedQuantity : option Z;
  distributedQuantity : option Z;
  priority : string;
  location : option string;
  expiryDate : option Z;
  createdAt : option Z;
  updatedAt : option Z
}.
End resources.

Module reliefDistribution.
Record row : Type := {
  id : string;
  resourceId : string;
  floodZoneId : option string;
  quantity : Z;
  distributedTo : option string;
  distributedBy : option string;
  distributionDate : option Z;
  recipientCount : option Z;
  notes : option string;
  status : option string;
  createdAt : option Z
}.
End reliefDistribution.

Module weatherAlerts.
Record row : Type := {
  id : string;
  type : string;
  severity : string;
  title : string;
  message : string;
  affectedArea : option string;
  validUntil : option Z;
  isActive : option bool;
  createdBy : option string;
  createdAt : option Z
}.
End weatherAlerts.

Module responseTeams.
Record row : Type := {
  id : string;
  name : string;
  type : string;
  status : string;
  currentLocation : option string;
  assignedZone : option string;
  memberCount : option Z;
  contactNumber : option string;
  leadOfficer : option string;
  createdAt : option Z;
  updatedAt : option Z
}.
End responseTeams.

(* ===================================================================== *)
(** * JavaScript values *)
(* ===================================================================== *)

(** The values a parsed JSON document is made of, together with
    [undefined], which a property access can produce.  Numbers are kept as
    rationals; an object is the list of its own properties. *)
Inductive JS : Type :=
| JUndefined
| JNull
| JBool (b : bool)
| JNum (q : Q)
| JStr (s : string)
| JArr (items : list JS)
| JObj (props : list (string * JS)).

(** A property that may be absent ([undefined]), [null], or hold a value:
    the type [T | null | undefined] of an optional, nullable field. *)
Inductive optional (A : Type) : Type :=
| undefined
| null
| value (a : A).
Arguments undefined {A}.
Arguments null {A}.
Arguments value {A} a.

(** What a column without default receives: [NULL] unless a value is given. *)
Definition to_column {A} (o : optional A) : option A :=
  match o with
  | value a => Some a
  | _ => None
  end.

(** What a column with a default receives: the default when the property
    is absent, [NULL] when it is [null]. *)
Definition with_default {A} (d : A) (o : optional A) : option A :=
  match o with
  | undefined => Some d
  | null => None
  | value a => Some a
  end.

Module activityLog.
Record row : Type := {
  id : string;
  type : string;
  description : string;
  entityType : option string;
  entityId : option string;
  performedBy : option string;
  location : option string;
  metadata : option JS;
  createdAt : option Z
}.
End activityLog.

(** ** The insert types ([z.infer] of the insert schemas) *)

Record InsertFloodZone : Type := {
  ifz_name : string;
  ifz_district : string;
  ifz_latitude : string;
  ifz_longitude : string;
  ifz_riskLevel : string;
  ifz_radius : Z;
  ifz_waterLevel : optional string;
  ifz_dangerMark : optional string;
  ifz_isActive : optional bool
}.

Record InsertAffectedPopulation : Type := {
  iap_name : string;
  iap_age : optional Z;
  iap_gender : optional string;
  iap_phoneNumber : optional string;
  iap_address : optional string;
  iap_latitude : optional string;
  iap_longitude : optional string;
  iap_floodZoneId : optional string;
  iap_evacuationStatus : string;
  iap_medicalNeeds : optional string;
  iap_familyMembers : optional Z;
  iap_registeredBy : optional string
}.

Record InsertResource : Type := {
  ir_name : string;
  ir_type : string;
  ir_unit : string;
  ir_totalQuantity : Z;
  ir_allocatedQuantity : optional Z;
  ir_distributedQuantity : optional Z;
  ir_priority : string;
  ir_location : optional string;
  ir_expiryDate : optional Z
}.

Record InsertReliefDistribution : Type := {
  ird_resourceId : string;
  ird_floodZoneId : optional string;
  ird_quantity : Z;
  ird_distributedTo : optional string;
  ird_distributedBy : optional string;
  ird_recipientCount : optional Z;
  ird_notes : optional string;
  ird_status : optional string
}.

Record InsertWeatherAlert : Type := {
  iwa_type : string;
  iwa_severity : string;
  iwa_title : string;
  iwa_message : string;
  iwa_affectedArea : optional string;
  iwa_validUntil : optional Z;
  iwa_isActive : optional bool;
  iwa_createdBy : optional string
}.

Record InsertResponseTeam : Type := {
  irt_name : string;
  irt_type : string;
  irt_status : string;
  irt_currentLocation : optional string;
  irt_assignedZone : optional string;
  irt_memberCount : optional Z;
  irt_contactNumber : optional string;
  irt_leadOfficer : optional string
}.

Record InsertActivityLog : Type := {
  ial_type : string;
  ial_description : string;
  ial_entityType : optional string;
  ial_entityId : optional string;
  ial_performedBy : optional string;
  ial_location : optional string;
  ial_metadata : optional JS
}.

(* ===================================================================== *)
(** * The database and [DatabaseStorage] *)
(* ===================================================================== *)

(** The eight tables [storage.ts] imports.  A table is the list of its rows
    in insertion order. *)
Record DB : Type := {
  t_users : list users.row;
  t_floodZones : list floodZones.row;
  t_affectedPopulation : list affectedPopulation.row;
  t_resources : list resources.row;
  t_reliefDistribution : list reliefDistribution.row;
  t_weatherAlerts : list weatherAlerts.row;
  t_responseTeams : list responseTeams.row;
  t_activityLog : list activityLog.row
}.

Definition emptyDB : DB :=
  {| t_users := []; t_floodZones := []; t_affectedPopulation := [];
     t_resources := []; t_reliefDistribution := []; t_weatherAlerts := [];
     t_responseTeams := []; t_activityLog := [] |}.

Module DatabaseStorage.
Import Sql.

(** *** Constraints checked by the database on a write *)

Definition has_id {A} (id_of : A -> string) (rows : list A) (i : string) : bool :=
  existsb (fun r => String.eqb (id_of r) i) rows.

(** Primary key: the new id must not be present yet. *)
Definition check_primary_key {A} (id_of : A -> string) (rows : list A)
    (i : string) : result unit :=
  if has_id id_of rows i then Err unique_violation else Ok tt.

(** Foreign key: a non-null reference must name an existing row. *)
Definition check_references {A} (id_of : A -> string) (rows : list A)
    (ref : option string) : result unit :=
  match ref with
  | None => Ok tt
  | Some i => if has_id id_of rows i then Ok tt else Err foreign_key_violation
  end.

(** An [integer] column refuses a value outside the 32-bit range. *)
Definition check_int4 (z : option Z) : result unit :=
  if int4_ok_opt z then Ok tt else Err numeric_value_out_of_range.

(** A storage method runs against the database and leaves it possibly
    changed, whether it returns or throws. *)
Definition method (A : Type) : Type := DB -> DB * result A.

(** One SQL statement: it takes effect as a whole or not at all. *)
Definition statement {A} (stmt : DB -> result (DB * A)) : method A :=
  fun db =>
    match stmt db with
    | Ok (db', a) => (db', Ok a)
    | Err e => (db, Err e)
    end.

(** *** Flood zones *)

Definition getFloodZones (db : DB) : list floodZones.row :=
  orderBy_desc floodZones.lastUpdated (t_floodZones db).

Definition getFloodZone (db : DB) (i : string) : option floodZones.row :=
  hd_error (where_ (fun r => Some (String.eqb (floodZones.id r) i)) (t_floodZones db)).

Definition createFloodZone (uuid : string) (now : Z) (zone : InsertFloodZone)
    : method floodZones.row :=
  statement (fun db =>
  let newZone :=
    {| floodZones.id := uuid;
       floodZones.name := ifz_name zone;
       floodZones.district := ifz_district zone;
       floodZones.latitude := ifz_latitude zone;
       floodZones.longitude := ifz_longitude zone;
       floodZones.riskLevel := ifz_riskLevel zone;
       floodZones.radius := ifz_radius zone;
       floodZones.waterLevel := to_column (ifz_waterLevel zone);
       floodZones.dangerMark := to_column (ifz_dangerMark zone);
       floodZones.isActive := with_default true (ifz_isActive zone);
       floodZones.lastUpdated := Some now;
       floodZones.createdAt := Some now |} in
  _ <- check_primary_key floodZones.id (t_floodZones db) uuid ;;
  _ <- check_int4 (Some (ifz_radius zone)) ;;
  Ok ({| t_users := t_users db;
         t_floodZones := t_floodZones db ++ [newZone];
         t_affectedPopulation := t_affectedPopulation db;
         t_resources := t_resources db;
         t_reliefDistribution := t_reliefDistribution db;
         t_weatherAlerts := t_weatherAlerts db;
         t_responseTeams := t_responseTeams db;
         t_activityLog := t_activityLog db |}, newZone)).

(** *** Affected population *)

Definition getAffectedPopulation (db : DB) (floodZoneId : option string)
    : list affectedPopulation.row :=
  match floodZoneId with
  | Some z =>
      if String.eqb z "" then
        orderBy_desc affectedPopulation.createdAt (t_affectedPopulation db)
      else
        orderBy_desc affectedPopulation.createdAt
          (where_ (fun r => option_map (fun f => String.eqb f z)
                              (affectedPopulation.floodZoneId r))
                  (t_affectedPopulation db))
  | None => orderBy_desc affectedPopulation.createdAt (t_affectedPopulation db)
  end.

Definition createAffectedPerson (uuid : string) (now : Z) (person : InsertAffectedPopulation)
    : method affectedPopulation.row :=
  statement (fun db =>
  let newPerson :=
    {| affectedPopulation.id := uuid;
       affectedPopulation.name := iap_name person;
       affectedPopulation.age := to_column (iap_age person);
       affectedPopulation.gender := to_column (iap_gender person);
       affectedPopulation.phoneNumber := to_column (iap_phoneNumber person);
       affectedPopulation.address := to_column (iap_address person);
       affectedPopulation.latitude := to_column (iap_latitude person);
       affectedPopulation.longitude := to_column (iap_longitude person);
       affectedPopulation.floodZoneId := to_column (iap_floodZoneId person);
       affectedPopulation.evacuationStatus := iap_evacuationStatus person;
       affectedPopulation.medicalNeeds := to_column (iap_medicalNeeds person);
       affectedPopulation.familyMembers := with_default 1 (iap_familyMembers person);
       affectedPopulation.registeredBy := to_column (iap_registeredBy person);
       affectedPopulation.createdAt := Some now;
       affectedPopulation.updatedAt := Some now |} in
  _ <- check_primary_key affectedPopulation.id (t_affectedPopulation db) uuid ;;
  _ <- check_int4 (affectedPopulation.age newPerson) ;;
  _ <- check_int4 (affectedPopulation.familyMembers newPerson) ;;
  _ <- check_references floodZones.id (t_floodZones db)
         (affectedPopulation.floodZoneId newPerson) ;;
  _ <- check_references users.id (t_users db)
         (affectedPopulation.registeredBy newPerson) ;;
  Ok ({| t_users := t_users db;
         t_floodZones := t_floodZones db;
         t_affectedPopulation := t_affectedPopulation db ++ [newPerson];
         t_resources := t_resources db;
         t_reliefDistribution := t_reliefDistribution db;
         t_weatherAlerts := t_weatherAlerts db;
         t_responseTeams := t_responseTeams db;
         t_activityLog := t_activityLog db |}, newPerson)).

(** *** Resources *)

Definition getResources (db : DB) : list resources.row :=
  orderBy_desc resources.updatedAt (t_resources db).

Definition getResource (db : DB) (i : string) : option resources.row :=
  hd_error (where_ (fun r => Some (String.eqb (resources.id r) i)) (t_resources db)).

Definition createResource (uuid : string) (now : Z) (resource : InsertResource)
    : method resources.row :=
  statement (fun db =>
  let newResource :=
    {| resources.id := uuid;
       resources.name := ir_name resource;
       resources.type := ir_type resource;
       resources.unit := ir_unit resource;
       resources.totalQuantity := ir_totalQuantity resource;
       resources.allocatedQuantity := with_default 0 (ir_allocatedQuantity resource);
       resources.distributedQuantity := with_default 0 (ir_distributedQuantity resource);
       resources.priority := ir_priority resource;
       resources.location := to_column (ir_location resource);
       resources.expiryDate := to_column (ir_expiryDate resource);
       resources.createdAt := Some now;
       resources.updatedAt := Some now |} in
  _ <- check_primary_key resources.id (t_resources db) uuid ;;
  _ <- check_int4 (Some (resources.totalQuantity newResource)) ;;
  _ <- check_int4 (resources.allocatedQuantity newResource) ;;
  _ <- check_int4 (resources.distributedQuantity newResource) ;;
  Ok ({| t_users := t_users db;
         t_floodZones := t_floodZones db;
         t_affectedPopulation := t_affectedPopulation db;
         t_resources := t_resources db ++ [newResource];
         t_reliefDistribution := t_reliefDistribution db;
         t_weatherAlerts := t_weatherAlerts db;
         t_responseTeams := t_responseTeams db;
         t_activityLog := t_activityLog db |}, newResource)).

(** *** Relief distribution *)

Definition getReliefDistributions (db : DB) (floodZoneId : option string)
    : list reliefDistribution.row :=
  match floodZoneId with
  | Some z =>
      if String.eqb z "" then
        orderBy_desc reliefDistribution.distributionDate (t_reliefDistribution db)
      else
        orderBy_desc reliefDistribution.distributionDate
          (where_ (fun r => option_map (fun f => String.eqb f z)
                              (reliefDistribution.floodZoneId r))
                  (t_reliefDistribution db))
  | None => orderBy_desc reliefDistribution.distributionDate (t_reliefDistribution db)
  end.

(** [db.insert(reliefDistribution).values(distribution).returning()] *)
Definition insert_reliefDistribution (uuid : string) (now : Z)
    (distribution : InsertReliefDistribution) : method reliefDistribution.row :=
  statement (fun db =>
  let newDistribution :=
    {| reliefDistribution.id := uuid;
       reliefDistribution.resourceId := ird_resourceId distribution;
       reliefDistribution.floodZoneId := to_column (ird_floodZoneId distribution);
       reliefDistribution.quantity := ird_quantity distribution;
       reliefDistribution.distributedTo := to_column (ird_distributedTo distribution);
       reliefDistribution.distributedBy := to_column (ird_distributedBy distribution);
       reliefDistribution.distributionDate := Some now;
       reliefDistribution.recipientCount := to_column (ird_recipientCount distribution);
       reliefDistribution.notes := to_column (ird_notes distribution);
       reliefDistribution.status := with_default "completed" (ird_status distribution);
       reliefDistribution.createdAt := Some now |} in
  _ <- check_primary_key reliefDistribution.id (t_reliefDistribution db) uuid ;;
  _ <- check_int4 (Some (ird_quantity distribution)) ;;
  _ <- check_int4 (reliefDistribution.recipientCount newDistribution) ;;
  _ <- check_references resources.id (t_resources db)
         (Some (ird_resourceId distribution)) ;;
  _ <- check_references floodZones.id (t_floodZones db)
         (reliefDistribution.floodZoneId newDistribution) ;;
  _ <- check_references users.id (t_users db)
         (reliefDistribution.distributedBy newDistribution) ;;
  Ok ({| t_users := t_users db;
         t_floodZones := t_floodZones db;
         t_affectedPopulation := t_affectedPopulation db;
         t_resources := t_resources db;
         t_reliefDistribution := t_reliefDistribution db ++ [newDistribution];
         t_weatherAlerts := t_weatherAlerts db;
         t_responseTeams := t_responseTeams db;
         t_activityLog := t_activityLog db |}, newDistribution)).

(** The [set] clause of the resource update, applied to one row:
    [distributed_quantity + quantity] and a new [updatedAt]. *)
Definition set_distributed (quantity : Z) (date : Z) (r : resources.row)
    : result resources.row :=
  dq <- int4_add (resources.distributedQuantity r) (Some quantity) ;;
  Ok {| resources.id := resources.id r;
        resources.name := resources.name r;
        resources.type := resources.type r;
        resources.unit := resources.unit r;
        resources.totalQuantity := resources.totalQuantity r;
        resources.allocatedQuantity := resources.allocatedQuantity r;
        resources.distributedQuantity := dq;
        resources.priority := resources.priority r;
        resources.location := resources.location r;
        resources.expiryDate := resources.expiryDate r;
        resources.createdAt := resources.createdAt r;
        resources.updatedAt := Some date |}.

Fixpoint update_where_id (resourceId : string)
    (set : resources.row -> result resources.row)
    (rows : list resources.row) : result (list resources.row) :=
  match rows with
  | [] => Ok []
  | r :: rest =>
      r' <- (if String.eqb (resources.id r) resourceId then set r else Ok r) ;;
      rest' <- update_where_id resourceId set rest ;;
      Ok (r' :: rest')
  end.

(** [db.update(resources).set({...}).where(eq(resources.id, resourceId))] *)
Definition update_resource_quantities (resourceId : string) (quantity : Z)
    (date : Z) : method unit :=
  statement (fun db =>
  rows <- update_where_id resourceId (set_distributed quantity date) (t_resources db) ;;
  Ok ({| t_users := t_users db;
         t_floodZones := t_floodZones db;
         t_affectedPopulation := t_affectedPopulation db;
         t_resources := rows;
         t_reliefDistribution := t_reliefDistribution db;
         t_weatherAlerts := t_weatherAlerts db;
         t_responseTeams := t_responseTeams db;
         t_activityLog := t_activityLog db |}, tt)).

(** The two statements run one after the other, outside any transaction:
    when the second throws, the row inserted by the first stays. *)
Definition createReliefDistribution (uuid : string) (now : Z) (date : Z)
    (distribution : InsertReliefDistribution) : method reliefDistribution.row :=
  fun db =>
    match insert_reliefDistribution uuid now distribution db with
    | (db1, Ok newDistribution) =>
        match update_resource_quantities (ird_resourceId distribution)
                (ird_quantity distribution) date db1 with
        | (db2, Ok _) => (db2, Ok newDistribution)
        | (db2, Err e) => (db2, Err e)
        end
    | (db1, Err e) => (db1, Err e)
    end.

(** *** Weather alerts *)

Definition getActiveWeatherAlerts (date : Z) (db : DB) : list weatherAlerts.row :=
  orderBy_desc weatherAlerts.createdAt
    (where_ (fun r => and3 (eq_bool (weatherAlerts.isActive r) (Some true))
                           (gte (weatherAlerts.validUntil r) (Some date)))
            (t_weatherAlerts db)).

Definition createWeatherAlert (uuid : string) (now : Z)
    (alert : InsertWeatherAlert) : method weatherAlerts.row :=
  statement (fun db =>
  let newAlert :=
    {| weatherAlerts.id := uuid;
       weatherAlerts.type := iwa_type alert;
       weatherAlerts.severity := iwa_severity alert;
       weatherAlerts.title := iwa_title alert;
       weatherAlerts.message := iwa_message alert;
       weatherAlerts.affectedArea := to_column (iwa_affectedArea alert);
       weatherAlerts.validUntil := to_column (iwa_validUntil alert);
       weatherAlerts.isActive := with_default true (iwa_isActive alert);
       weatherAlerts.createdBy := to_column (iwa_createdBy alert);
       weatherAlerts.createdAt := Some now |} in
  _ <- check_primary_key weatherAlerts.id (t_weatherAlerts db) uuid ;;
  _ <- check_references users.id (t_users db) (weatherAlerts.createdBy newAlert) ;;
  Ok ({| t_users := t_users db;
         t_floodZones := t_floodZones db;
         t_affectedPopulation := t_affectedPopulation db;
         t_resources := t_resources db;
         t_reliefDistribution := t_reliefDistribution db;
         t_weatherAlerts := t_weatherAlerts db ++ [newAlert];
         t_responseTeams := t_responseTeams db;
         t_activityLog := t_activityLog db |}, newAlert)).

(** The [set] clause of the deactivation: [isActive] becomes false. *)
Definition set_inactive (r : weatherAlerts.row) : weatherAlerts.row :=
  {| weatherAlerts.id := weatherAlerts.id r;
     weatherAlerts.type := weatherAlerts.type r;
     weatherAlerts.severity := weatherAlerts.severity r;
     weatherAlerts.title := weatherAlerts.title r;
     weatherAlerts.message := weatherAlerts.message r;
     weatherAlerts.affectedArea := weatherAlerts.affectedArea r;
     weatherAlerts.validUntil := weatherAlerts.validUntil r;
     weatherAlerts.isActive := Some false;
     weatherAlerts.createdBy := weatherAlerts.createdBy r;
     weatherAlerts.createdAt := weatherAlerts.createdAt r |}.

Definition deactivateWeatherAlert (i : string) : method unit :=
  statement (fun db =>
  Ok ({| t_users := t_users db;
         t_floodZones := t_floodZones db;
         t_affectedPopulation := t_affectedPopulation db;
         t_resources := t_resources db;
         t_reliefDistribution := t_reliefDistribution db;
         t_weatherAlerts :=
           map (fun r => if String.eqb (weatherAlerts.id r) i
                         then set_inactive r else r)
               (t_weatherAlerts db);
         t_responseTeams := t_responseTeams db;
         t_activityLog := t_activityLog db |}, tt)).

(** *** Response teams *)

Definition getResponseTeams (db : DB) : list responseTeams.row :=
  orderBy_desc responseTeams.updatedAt (t_responseTeams db).

Definition createResponseTeam (uuid : string) (now : Z)
    (team : InsertResponseTeam) : method responseTeams.row :=
  statement (fun db =>
  let newTeam :=
    {| responseTeams.id := uuid;
       responseTeams.name := irt_name team;
       responseTeams.type := irt_type team;
       responseTeams.status := irt_status team;
       responseTeams.currentLocation := to_column (irt_currentLocation team);
       responseTeams.assignedZone := to_column (irt_assignedZone team);
       responseTeams.memberCount := with_default 0 (irt_memberCount team);
       responseTeams.contactNumber := to_column (irt_contactNumber team);
       responseTeams.leadOfficer := to_column (irt_leadOfficer team);
       responseTeams.createdAt := Some now;
       responseTeams.updatedAt := Some now |} in
  _ <- check_primary_key responseTeams.id (t_responseTeams db) uuid ;;
  _ <- check_int4 (responseTeams.memberCount newTeam) ;;
  _ <- check_references floodZones.id (t_floodZones db)
         (responseTeams.assignedZone newTeam) ;;
  _ <- check_references users.id (t_users db) (responseTeams.leadOfficer newTeam) ;;
  Ok ({| t_users := t_users db;
         t_floodZones := t_floodZones db;
         t_affectedPopulation := t_affectedPopulation db;
         t_resources := t_resources db;
         t_reliefDistribution := t_reliefDistribution db;
         t_weatherAlerts := t_weatherAlerts db;
         t_responseTeams := t_responseTeams db ++ [newTeam];
         t_activityLog := t_activityLog db |}, newTeam)).

(** *** Activity log *)

Definition logActivity (uuid : string) (now : Z)
    (activity : InsertActivityLog) : method activityLog.row :=
  statement (fun db =>
  let newActivity :=
    {| activityLog.id := uuid;
       activityLog.type := ial_type activity;
       activityLog.description := ial_description activity;
       activityLog.entityType := to_column (ial_entityType activity);
       activityLog.entityId := to_column (ial_entityId activity);
       activityLog.performedBy := to_column (ial_performedBy activity);
       activityLog.location := to_column (ial_location activity);
       activityLog.metadata := to_column (ial_metadata activity);
       activityLog.createdAt := Some now |} in
  _ <- check_primary_key activityLog.id (t_activityLog db) uuid ;;
  _ <- check_references users.id (t_users db) (activityLog.performedBy newActivity) ;;
  Ok ({| t_users := t_users db;
         t_floodZones := t_floodZones db;
         t_affectedPopulation := t_affectedPopulation db;
         t_resources := t_resources db;
         t_reliefDistribution := t_reliefDistribution db;
         t_weatherAlerts := t_weatherAlerts db;
         t_responseTeams := t_responseTeams db;
         t_activityLog := t_activityLog db ++ [newActivity] |}, newActivity)).

(** *** Dashboard statistics *)

Record DashboardStats : Type := {
  activeZones : Z;
  affectedPeople : Z;
  reliefDistributed : option Z;
  responseTeams : Z
}.

(** The [CASE] expression over the aggregates of the resource table:
    [CASE WHEN SUM(total) = 0 THEN 0
          ELSE ROUND(SUM(distributed) * 100.0 / SUM(total), 0) END].
    The [WHEN] branch is taken only when its condition is true. *)
Definition relief_percentage (rows : list resources.row) : result (option Z) :=
  let sum_total := SUM (map (fun r => Some (resources.totalQuantity r)) rows) in
  let sum_distributed := SUM (map resources.distributedQuantity rows) in
  if is_true (eq_int sum_total (Some 0)) then Ok (Some 0)
  else round_percent sum_distributed sum_total.

Definition getDashboardStats (db : DB) : result DashboardStats :=
  let activeZonesCount :=
    count_star (where_ (fun r => eq_bool (floodZones.isActive r) (Some true))
                       (t_floodZones db)) in
  let affectedPeopleCount := count_star (t_affectedPopulation db) in
  reliefPercentage <- relief_percentage (t_resources db) ;;
  let responseTeamsCount := count_star (t_responseTeams db) in
  Ok {| activeZones := activeZonesCount;
        affectedPeople := affectedPeopleCount;
        reliefDistributed := reliefPercentage;
        responseTeams := responseTeamsCount |}.

End DatabaseStorage.

(* ===================================================================== *)
(** * The insert schemas *)
(* ===================================================================== *)

(** [createInsertSchema(table).omit({...})] gives an object schema with one
    entry per remaining column: the column's type decides what values are
    accepted, and the entry is required exactly when the column is
    [notNull] without a default; every other entry is optional and
    nullable.  Properties the schema does not name are dropped.

    A schema is written here as the parser it stands for: it takes the
    parsed JSON body and returns the typed insert value, or [None] where
    [parse] throws a [ZodError]. *)
Module Zod.

Fixpoint lookup (k : string) (props : list (string * JS)) : option JS :=
  match props with
  | [] => None
  | (k', v) :: rest => if String.eqb k' k then Some v else lookup k rest
  end.

(** [z.string()]: [varchar], [text] and [decimal] columns. *)
Definition z_string (v : JS) : option string :=
  match v with
  | JStr s => Some s
  | _ => None
  end.

(** [integer] columns: a number, and a whole one.  (A number with a
    fractional part is refused by the schema in recent releases of
    drizzle-zod and by the database in older ones; the request fails in
    both.  The 32-bit range is checked when the row is written.) *)
Definition z_integer (v : JS) : option Z :=
  match v with
  | JNum q =>
      if (Qnum q mod Zpos (Qden q)) =? 0
      then Some (Qnum q / Zpos (Qden q))
      else None
  | _ => None
  end.

(** [z.boolean()]. *)
Definition z_boolean (v : JS) : option bool :=
  match v with
  | JBool b => Some b
  | _ => None
  end.

(** [z.date()] accepts [Date] objects only; a JSON document has none. *)
Definition z_date (v : JS) : option Z := None.

(** A required entry: the property must be there and be accepted. *)
Definition required {A} (p : JS -> option A) (props : list (string * JS))
    (k : string) : option A :=
  match lookup k props with
  | Some v => p v
  | None => None
  end.

(** An optional, nullable entry. *)
Definition nullish {A} (p : JS -> option A) (props : list (string * JS))
    (k : string) : option (optional A) :=
  match lookup k props with
  | None | Some JUndefined => Some undefined
  | Some JNull => Some null
  | Some v => option_map value (p v)
  end.

(** [z.object]: the input must be an object (an array is not one). *)
Definition as_object (body : JS) : option (list (string * JS)) :=
  match body with
  | JObj props => Some props
  | _ => None
  end.

Definition obind {A B} (o : option A) (k : A -> option B) : option B :=
  match o with
  | Some a => k a
  | None => None
  end.

Notation "x <~ o ;; k" := (obind o (fun x => k))
  (at level 61, o at next level, right associativity).

Definition insertFloodZoneSchema (body : JS) : option InsertFloodZone :=
  o <~ as_object body ;;
  name <~ required z_string o "name" ;;
  district <~ required z_string o "district" ;;
  latitude <~ required z_string o "latitude" ;;
  longitude <~ required z_string o "longitude" ;;
  riskLevel <~ required z_string o "riskLevel" ;;
  radius <~ required z_integer o "radius" ;;
  waterLevel <~ nullish z_string o "waterLevel" ;;
  dangerMark <~ nullish z_string o "dangerMark" ;;
  isActive <~ nullish z_boolean o "isActive" ;;
  Some {| ifz_name := name; ifz_district := district;
          ifz_latitude := latitude; ifz_longitude := longitude;
          ifz_riskLevel := riskLevel; ifz_radius := radius;
          ifz_waterLevel := waterLevel; ifz_dangerMark := dangerMark;
          ifz_isActive := isActive |}.

Definition insertAffectedPopulationSchema (body : JS)
    : option InsertAffectedPopulation :=
  o <~ as_object body ;;
  name <~ required z_string o "name" ;;
  age <~ nullish z_integer o "age" ;;
  gender <~ nullish z_string o "gender" ;;
  phoneNumber <~ nullish z_string o "phoneNumber" ;;
  address <~ nullish z_string o "address" ;;
  latitude <~ nullish z_string o "latitude" ;;
  longitude <~ nullish z_string o "longitude" ;;
  floodZoneId <~ nullish z_string o "floodZoneId" ;;
  evacuationStatus <~ required z_string o "evacuationStatus" ;;
  medicalNeeds <~ nullish z_string o "medicalNeeds" ;;
  familyMembers <~ nullish z_integer o "familyMembers" ;;
  registeredBy <~ nullish z_string o "registeredBy" ;;
  Some {| iap_name := name; iap_age := age; iap_gender := gender;
          iap_phoneNumber := phoneNumber; iap_address := address;
          iap_latitude := latitude; iap_longitude := longitude;
          iap_floodZoneId := floodZoneId;
          iap_evacuationStatus := evacuationStatus;
          iap_medicalNeeds := medicalNeeds;
          iap_familyMembers := familyMembers;
          iap_registeredBy := registeredBy |}.

Definition insertResourceSchema (body : JS) : option InsertResource :=
  o <~ as_object body ;;
  name <~ required z_string o "name" ;;
  type <~ required z_string o "type" ;;
  unit <~ required z_string o "unit" ;;
  totalQuantity <~ required z_integer o "totalQuantity" ;;
  allocatedQuantity <~ nullish z_integer o "allocatedQuantity" ;;
  distributedQuantity <~ nullish z_integer o "distributedQuantity" ;;
  priority <~ required z_string o "priority" ;;
  location <~ nullish z_string o "location" ;;
  expiryDate <~ nullish z_date o "expiryDate" ;;
  Some {| ir_name := name; ir_type := type; ir_unit := unit;
          ir_totalQuantity := totalQuantity;
          ir_allocatedQuantity := allocatedQuantity;
          ir_distributedQuantity := distributedQuantity;
          ir_priority := priority; ir_location := location;
          ir_expiryDate := expiryDate |}.

Definition insertReliefDistributionSchema (body : JS)
    : option InsertReliefDistribution :=
  o <~ as_object body ;;
  resourceId <~ required z_string o "resourceId" ;;
  floodZoneId <~ nullish z_string o "floodZoneId" ;;
  quantity <~ required z_integer o "quantity" ;;
  distributedTo <~ nullish z_string o "distributedTo" ;;
  distributedBy <~ nullish z_string o "distributedBy" ;;
  recipientCount <~ nullish z_integer o "recipientCount" ;;
  notes <~ nullish z_string o "notes" ;;
  status <~ nullish z_string o "status" ;;
  Some {| ird_resourceId := resourceId; ird_floodZoneId := floodZoneId;
          ird_quantity := quantity; ird_distributedTo := distributedTo;
          ird_distributedBy := distributedBy;
          ird_recipientCount := recipientCount;
          ird_notes := notes; ird_status := status |}.

Definition insertWeatherAlertSchema (body : JS) : option InsertWeatherAlert :=
  o <~ as_object body ;;
  type <~ required z_string o "type" ;;
  severity <~ required z_string o "severity" ;;
  title <~ required z_string o "title" ;;
  message <~ required z_string o "message" ;;
  affectedArea <~ nullish z_string o "affectedArea" ;;
  validUntil <~ nullish z_date o "validUntil" ;;
  isActive <~ nullish z_boolean o "isActive" ;;
  createdBy <~ nullish z_string o "createdBy" ;;
  Some {| iwa_type := type; iwa_severity := severity; iwa_title := title;
          iwa_message := message; iwa_affectedArea := affectedArea;
          iwa_validUntil := validUntil; iwa_isActive := isActive;
          iwa_createdBy := createdBy |}.

Definition insertResponseTeamSchema (body : JS) : option InsertResponseTeam :=
  o <~ as_object body ;;
  name <~ required z_string o "name" ;;
  type <~ required z_string o "type" ;;
  status <~ required z_string o "status" ;;
  currentLocation <~ nullish z_string o "currentLocation" ;;
  assignedZone <~ nullish z_string o "assignedZone" ;;
  memberCount <~ nullish z_integer o "memberCount" ;;
  contactNumber <~ nullish z_string o "contactNumber" ;;
  leadOfficer <~ nullish z_string o "leadOfficer" ;;
  Some {| irt_name := name; irt_type := type; irt_status := status;
          irt_currentLocation := currentLocation;
          irt_assignedZone := assignedZone; irt_memberCount := memberCount;
          irt_contactNumber := contactNumber; irt_leadOfficer := leadOfficer |}.

(** [{ ...body, key: v }]: the own properties of [body] with [key] set.
    The bodies reaching a route are objects or arrays; the index
    properties an array would contribute are named by no schema. *)
Fixpoint remove_key (k : string) (props : list (string * JS)) : list (string * JS) :=
  match props with
  | [] => []
  | (k', v) :: rest =>
      if String.eqb k' k then remove_key k rest else (k', v) :: remove_key k rest
  end.

Definition spread_with (body : JS) (k : string) (v : JS) : JS :=
  match body with
  | JObj props => JObj (remove_key k props ++ [(k, v)])
  | _ => JObj [(k, v)]
  end.

End Zod.

(* ===================================================================== *)
(** * The Express routes *)
(* ===================================================================== *)

Module Routes.

Definition DashboardStats := DatabaseStorage.DashboardStats.

(** What a handler can see thrown. *)
Inductive exception : Type :=
| ZodError
| TypeError
| SyntaxError
| Error (message : string)
| DatabaseError (e : Sql.error)
| NetworkError.

(** The response of [fetch]: [json] is [None] when the body is not JSON
    and [response.json()] rejects. *)
Record FetchResponse : Type := {
  ok : bool;
  fetch_status : Z;
  json : option JS
}.

(** The argument of [upsertUser]. *)
Record UpsertUser : Type := {
  uu_id : option string;
  uu_email : optional string;
  uu_firstName : optional string;
  uu_lastName : optional string;
  uu_profileImageUrl : optional string;
  uu_role : option string;
  uu_district : optional string;
  uu_organization : optional string
}.

(** The number [parseInt(s) || d] of a query parameter [s], which may be
    missing.  [parseInt] is not evaluated: the number is named by its
    arguments. *)
Inductive number : Type :=
| parseInt_or (s : option string) (d : Z).

(** What a handler awaits: the methods of [IStorage], with the type of
    the value each promise resolves to, and [fetch].  The [updates] of the
    update methods are the request body as it came, so a JSON value. *)
Inductive call : Type -> Type :=
| getUser (id : string) : call (option users.row)
| upsertUser (user : UpsertUser) : call users.row
| getFloodZones : call (list floodZones.row)
| getFloodZone (id : string) : call (option floodZones.row)
| createFloodZone (zone : InsertFloodZone) : call floodZones.row
| updateFloodZone (id : string) (zone : JS) : call (option floodZones.row)
| getAffectedPopulation (floodZoneId : option string)
    : call (list affectedPopulation.row)
| createAffectedPerson (person : InsertAffectedPopulation)
    : call affectedPopulation.row
| updateAffectedPerson (id : string) (updates : JS)
    : call (option affectedPopulation.row)
| getResources : call (list resources.row)
| getResource (id : string) : call (option resources.row)
| createResource (resource : InsertResource) : call resources.row
| updateResource (id : string) (updates : JS) : call (option resources.row)
| getReliefDistributions (floodZoneId : option string)
    : call (list reliefDistribution.row)
| createReliefDistribution (distribution : InsertReliefDistribution)
    : call reliefDistribution.row
| getActiveWeatherAlerts : call (list weatherAlerts.row)
| createWeatherAlert (alert : InsertWeatherAlert) : call weatherAlerts.row
| deactivateWeatherAlert (id : string) : call unit
| getResponseTeams : call (list responseTeams.row)
| createResponseTeam (team : InsertResponseTeam) : call responseTeams.row
| updateResponseTeam (id : string) (updates : JS)
    : call (option responseTeams.row)
| getRecentActivities (limit : number) : call (list activityLog.row)
| logActivity (activity : InsertActivityLog) : call activityLog.row
| getDashboardStats : call DashboardStats
| fetch (url : string) : call FetchResponse.

(** An asynchronous computation: it returns, throws, or awaits a call and
    goes on with what the promise settles to, a value or a rejection. *)
Inductive Prog (A : Type) : Type :=
| Return (a : A)
| Throw (e : exception)
| Await {X : Type} (c : call X) (k : exception + X -> Prog A).
Arguments Return {A} a.
Arguments Throw {A} e.
Arguments Await {A X} c k.

Fixpoint bind {A B} (p : Prog A) (f : A -> Prog B) : Prog B :=
  match p with
  | Return a => f a
  | Throw e => Throw e
  | Await c k => Await c (fun r => bind (k r) f)
  end.

(** [await c]: a rejection is thrown at the [await]. *)
Definition await {X} (c : call X) : Prog X :=
  Await c (fun r => match r with
                    | inr x => Return x
                    | inl e => Throw e
                    end).

(** [try { p } catch (error) { handler }] *)
Fixpoint try_catch {A} (p : Prog A) (handler : exception -> A) : Prog A :=
  match p with
  | Return a => Return a
  | Throw e => Return (handler e)
  | Await c k => Await c (fun r => try_catch (k r) handler)
  end.

(** [schema.parse(data)] *)
Definition parse {A} (schema : JS -> option A) (data : JS) : Prog A :=
  match schema data with
  | Some a => Return a
  | None => Throw ZodError
  end.

(** ** Running a computation against the outside world *)

(** The world answers each call and may change doing so. *)
Definition oracle (W : Type) : Type :=
  forall X, call X -> W -> W * (exception + X).

Inductive event : Type :=
| Called {X : Type} (c : call X).

(** The final world, the calls made in order, and the outcome. *)
Fixpoint run {W A} (o : oracle W) (p : Prog A) (w : W)
    : W * list event * (exception + A) :=
  match p with
  | Return a => (w, [], inr a)
  | Throw e => (w, [], inl e)
  | Await c k =>
      let '(w1, r) := o _ c w in
      let '(w2, calls, out) := run o (k r) w1 in
      (w2, Called c :: calls, out)
  end.

Definition outcome {W A} (x : W * list event * (exception + A)) : exception + A :=
  snd x.

Definition calls {W A} (x : W * list event * (exception + A)) : list event :=
  snd (fst x).

Definition is_fetch (e : event) : bool :=
  match e with
  | Called (fetch _) => true
  | Called _ => false
  end.

(** The URLs fetched, in order. *)
Fixpoint fetched (evs : list event) : list string :=
  match evs with
  | [] => []
  | Called (fetch url) :: rest => url :: fetched rest
  | Called _ :: rest => fetched rest
  end.

(** ** Requests and responses *)

Notation "x <<- p ;; k" := (bind p (fun x => k))
  (at level 61, p at next level, right associativity).

Inductive Method : Type := GET | POST | PATCH | DELETE.

(** The parts of a request the handlers read.  [sub] is
    [req.user.claims.sub], which the [isAuthenticated] middleware has
    established before a handler runs. *)
Record Request : Type := {
  params : string -> string;
  query : string -> option string;
  body : JS;
  sub : string
}.

(** [process.env] *)
Record ProcessEnv : Type := {
  OPENWEATHER_API_KEY : option string
}.

(** What [res.json] is given. *)
Inductive Payload : Type :=
| message (m : string)
| success
| json_user (u : option users.row)
| json_stats (s : DashboardStats)
| json_zones (l : list floodZones.row)
| json_zone (z : floodZones.row)
| json_population (l : list affectedPopulation.row)
| json_person (p : affectedPopulation.row)
| json_resources (l : list resources.row)
| json_resource (r : resources.row)
| json_distributions (l : list reliefDistribution.row)
| json_distribution (d : reliefDistribution.row)
| json_alerts (l : list weatherAlerts.row)
| json_alert (a : weatherAlerts.row)
| json_teams (l : list responseTeams.row)
| json_team (t : responseTeams.row)
| json_activities (l : list activityLog.row)
| json_value (v : JS).

Record Response : Type := {
  status : Z;
  payload : Payload
}.

(** [res.json(x)] answers with status 200. *)
Definition res_json (x : Payload) : Prog Response :=
  Return {| status := 200; payload := x |}.

(** [res.status(n).json({ message: m })] *)
Definition res_status_message (n : Z) (m : string) : Prog Response :=
  Return {| status := n; payload := message m |}.

(** ** JavaScript expressions used by the handlers *)

(** [o || d] on a string that may be [null]. *)
Definition or_else (o : option string) (d : string) : string :=
  match o with
  | Some s => if String.eqb s "" then d else s
  | None => d
  end.

(** A nullable string inside a template literal. *)
Definition in_template (o : option string) : string :=
  match o with
  | Some s => s
  | None => "null"
  end.

(** An integer inside a template literal. *)
Definition number_in_template (z : Z) : string :=
  NilZero.string_of_int (Z.to_int z).

(** [v.k] for one of the property names the weather route reads: a
    [TypeError] on [undefined] and [null], the own property of an object,
    [undefined] on anything else (no array, string, number or boolean has
    a property of these names). *)
Definition get (v : JS) (k : string) : Prog JS :=
  match v with
  | JUndefined | JNull => Throw TypeError
  | JObj props =>
      Return (match Zod.lookup k props with
              | Some x => x
              | None => JUndefined
              end)
  | _ => Return JUndefined
  end.

(** [v[0]] *)
Definition get0 (v : JS) : Prog JS :=
  match v with
  | JUndefined | JNull => Throw TypeError
  | JObj props =>
      Return (match Zod.lookup "0" props with
              | Some x => x
              | None => JUndefined
              end)
  | JArr items => Return (hd JUndefined items)
  | JStr (String c _) => Return (JStr (String c EmptyString))
  | _ => Return JUndefined
  end.

Definition defined (v : JS) : bool :=
  match v with
  | JUndefined => false
  | _ => true
  end.

(** An object literal as [res.json] serialises it: a property whose
    value is [undefined] is left out. *)
Definition object_literal (props : list (string * JS)) : JS :=
  JObj (filter (fun kv => defined (snd kv)) props).

(** ** The handlers

    Every handler of [registerRoutes] has the shape
    [try { ... } catch (error) { res.status(500).json({ message }) }].
    A route is kept as its method, its path, the [try] block and the
    message of the [catch] block. *)

Record Route : Type := {
  method : Method;
  path : string;
  try_block : ProcessEnv -> Request -> Prog Response;
  catch_message : string
}.

Definition handle (r : Route) (env : ProcessEnv) (req : Request) : Prog Response :=
  try_catch (try_block r env req)
    (fun _ => {| status := 500; payload := message (catch_message r) |}).

(** An activity with only [type] and [description] set; the handlers fill
    in the rest. *)
Definition activity (type description : string) (entityType entityId : string)
    (performedBy : string) (location : optional string)
    (metadata : optional JS) : InsertActivityLog :=
  {| ial_type := type;
     ial_description := description;
     ial_entityType := value entityType;
     ial_entityId := value entityId;
     ial_performedBy := value performedBy;
     ial_location := location;
     ial_metadata := metadata |}.

Definition get_auth_user (env : ProcessEnv) (req : Request) : Prog Response :=
  let userId := sub req in
  user <<- await (getUser userId) ;;
  res_json (json_user user).

Definition get_dashboard_stats (env : ProcessEnv) (req : Request) : Prog Response :=
  stats <<- await getDashboardStats ;;
  res_json (json_stats stats).

Definition get_flood_zones (env : ProcessEnv) (req : Request) : Prog Response :=
  zones <<- await getFloodZones ;;
  res_json (json_zones zones).

Definition post_flood_zones (env : ProcessEnv) (req : Request) : Prog Response :=
  zoneData <<- parse Zod.insertFloodZoneSchema (body req) ;;
  zone <<- await (createFloodZone zoneData) ;;
  _ <<- await (logActivity
         (activity "zone_creation"
            ("Created flood zone: " ++ floodZones.name zone)
            "flood_zone" (floodZones.id zone) (sub req)
            (value (floodZones.district zone)) undefined)) ;;
  res_json (json_zone zone).

Definition patch_flood_zones (env : ProcessEnv) (req : Request) : Prog Response :=
  let id := params req "id" in
  let updates := body req in
  zone <<- await (updateFloodZone id updates) ;;
  match zone with
  | None => res_status_message 404 "Flood zone not found"
  | Some zone =>
      _ <<- await (logActivity
             (activity "zone_update"
                ("Updated flood zone: " ++ floodZones.name zone)
                "flood_zone" (floodZones.id zone) (sub req)
                (value (floodZones.district zone)) (value updates))) ;;
      res_json (json_zone zone)
  end.

Definition get_population (env : ProcessEnv) (req : Request) : Prog Response :=
  let floodZoneId := query req "floodZoneId" in
  population <<- await (getAffectedPopulation floodZoneId) ;;
  res_json (json_population population).

Definition post_population (env : ProcessEnv) (req : Request) : Prog Response :=
  personData <<- parse Zod.insertAffectedPopulationSchema
                  (Zod.spread_with (body req) "registeredBy" (JStr (sub req))) ;;
  person <<- await (createAffectedPerson personData) ;;
  _ <<- await (logActivity
         (activity "population_registration"
            ("Registered affected person: " ++ affectedPopulation.name person)
            "population" (affectedPopulation.id person) (sub req)
            (value (or_else (affectedPopulation.address person) "Unknown"))
            undefined)) ;;
  res_json (json_person person).

Definition patch_population (env : ProcessEnv) (req : Request) : Prog Response :=
  let id := params req "id" in
  let updates := body req in
  person <<- await (updateAffectedPerson id updates) ;;
  match person with
  | None => res_status_message 404 "Person not found"
  | Some person =>
      _ <<- await (logActivity
             (activity "population_update"
                ("Updated affected person: " ++ affectedPopulation.name person)
                "population" (affectedPopulation.id person) (sub req)
                undefined (value updates))) ;;
      res_json (json_person person)
  end.

Definition get_resources (env : ProcessEnv) (req : Request) : Prog Response :=
  resources <<- await getResources ;;
  res_json (json_resources resources).

Definition post_resources (env : ProcessEnv) (req : Request) : Prog Response :=
  resourceData <<- parse Zod.insertResourceSchema (body req) ;;
  resource <<- await (createResource resourceData) ;;
  _ <<- await (logActivity
         (activity "resource_creation"
            ("Added resource: " ++ resources.name resource ++ " ("
               ++ number_in_template (resources.totalQuantity resource)
               ++ " " ++ resources.unit resource ++ ")")
            "resource" (resources.id resource) (sub req)
            (value (or_else (resources.location resource) "Central Store"))
            undefined)) ;;
  res_json (json_resource resource).

Definition patch_resources (env : ProcessEnv) (req : Request) : Prog Response :=
  let id := params req "id" in
  let updates := body req in
  resource <<- await (updateResource id updates) ;;
  match resource with
  | None => res_status_message 404 "Resource not found"
  | Some resource =>
      _ <<- await (logActivity
             (activity "resource_update"
                ("Updated resource: " ++ resources.name resource)
                "resource" (resources.id resource) (sub req)
                undefined (value updates))) ;;
      res_json (json_resource resource)
  end.

Definition get_relief_distribution (env : ProcessEnv) (req : Request)
    : Prog Response :=
  let floodZoneId := query req "floodZoneId" in
  distributions <<- await (getReliefDistributions floodZoneId) ;;
  res_json (json_distributions distributions).

Definition post_relief_distribution (env : ProcessEnv) (req : Request)
    : Prog Response :=
  distributionData <<- parse Zod.insertReliefDistributionSchema
                        (Zod.spread_with (body req) "distributedBy" (JStr (sub req))) ;;
  distribution <<- await (createReliefDistribution distributionData) ;;
  _ <<- await (logActivity
         (activity "relief_distribution"
            ("Distributed relief: "
               ++ number_in_template (reliefDistribution.quantity distribution)
               ++ " units to "
               ++ in_template (reliefDistribution.distributedTo distribution))
            "distribution" (reliefDistribution.id distribution) (sub req)
            (value (or_else (reliefDistribution.distributedTo distribution) "Unknown"))
            undefined)) ;;
  res_json (json_distribution distribution).

Definition get_weather_alerts (env : ProcessEnv) (req : Request) : Prog Response :=
  alerts <<- await getActiveWeatherAlerts ;;
  res_json (json_alerts alerts).

Definition post_weather_alerts (env : ProcessEnv) (req : Request) : Prog Response :=
  alertData <<- parse Zod.insertWeatherAlertSchema
                 (Zod.spread_with (body req) "createdBy" (JStr (sub req))) ;;
  alert <<- await (createWeatherAlert alertData) ;;
  _ <<- await (logActivity
         (activity "alert_creation"
            ("Created " ++ weatherAlerts.severity alert ++ " alert: "
               ++ weatherAlerts.title alert)
            "alert" (weatherAlerts.id alert) (sub req)
            (value (or_else (weatherAlerts.affectedArea alert) "Unknown"))
            undefined)) ;;
  res_json (json_alert alert).

Definition delete_weather_alerts (env : ProcessEnv) (req : Request) : Prog Response :=
  let id := params req "id" in
  _ <<- await (deactivateWeatherAlert id) ;;
  _ <<- await (logActivity
         (activity "alert_deactivation" "Deactivated weather alert"
            "alert" id (sub req) undefined undefined)) ;;
  res_json success.

Definition get_response_teams (env : ProcessEnv) (req : Request) : Prog Response :=
  teams <<- await getResponseTeams ;;
  res_json (json_teams teams).

Definition post_response_teams (env : ProcessEnv) (req : Request) : Prog Response :=
  teamData <<- parse Zod.insertResponseTeamSchema
                (Zod.spread_with (body req) "leadOfficer" (JStr (sub req))) ;;
  team <<- await (createResponseTeam teamData) ;;
  _ <<- await (logActivity
         (activity "team_creation"
            ("Created response team: " ++ responseTeams.name team)
            "team" (responseTeams.id team) (sub req)
            (value (or_else (responseTeams.currentLocation team) "Base"))
            undefined)) ;;
  res_json (json_team team).

Definition patch_response_teams (env : ProcessEnv) (req : Request) : Prog Response :=
  let id := params req "id" in
  let updates := body req in
  team <<- await (updateResponseTeam id updates) ;;
  match team with
  | None => res_status_message 404 "Response team not found"
  | Some team =>
      _ <<- await (logActivity
             (activity "team_update"
                ("Updated response team: " ++ responseTeams.name team)
                "team" (responseTeams.id team) (sub req)
                undefined (value updates))) ;;
      res_json (json_team team)
  end.

Definition get_activities (env : ProcessEnv) (req : Request) : Prog Response :=
  let limit := parseInt_or (query req "limit") 20 in
  activities <<- await (getRecentActivities limit) ;;
  res_json (json_activities activities).

Definition weather_url (location apiKey : string) : string :=
  "https://api.openweathermap.org/data/2.5/weather?q=" ++ location
    ++ "&appid=" ++ apiKey ++ "&units=metric".

(** The object the weather route answers with, read off the document
    OpenWeatherMap returned. *)
Definition reshape (weatherData : JS) : Prog JS :=
  main <<- get weatherData "main" ;;
  temp <<- get main "temp" ;;
  main <<- get weatherData "main" ;;
  humidity <<- get main "humidity" ;;
  weather <<- get weatherData "weather" ;;
  weather0 <<- get0 weather ;;
  description <<- get weather0 "description" ;;
  wind <<- get weatherData "wind" ;;
  speed <<- get wind "speed" ;;
  main <<- get weatherData "main" ;;
  pressure <<- get main "pressure" ;;
  Return (object_literal
            [("temperature", temp);
             ("humidity", humidity);
             ("description", description);
             ("windSpeed", speed);
             ("pressure", pressure)]).

(** The part of the weather handler that follows the [fetch]. *)
Definition weather_answer (weatherResponse : FetchResponse) : Prog Response :=
  if negb (ok weatherResponse) then
    Throw (Error ("Weather API returned "
                    ++ number_in_template (fetch_status weatherResponse)))
  else
    weatherData <<- match json weatherResponse with
                    | Some v => Return v
                    | None => Throw SyntaxError
                    end ;;
    answer <<- reshape weatherData ;;
    res_json (json_value answer).

Definition get_weather (env : ProcessEnv) (req : Request) : Prog Response :=
  let location := params req "location" in
  match OPENWEATHER_API_KEY env with
  | None => res_status_message 500 "Weather API key not configured"
  | Some apiKey =>
      if String.eqb apiKey "" then
        res_status_message 500 "Weather API key not configured"
      else
        weatherResponse <<- await (fetch (weather_url location apiKey)) ;;
        weather_answer weatherResponse
  end.

Definition patch_flood_zones_route : Route :=
  {| method := PATCH; path := "/api/flood-zones/:id";
     try_block := patch_flood_zones;
     catch_message := "Failed to update flood zone" |}.

Definition get_weather_route : Route :=
  {| method := GET; path := "/api/weather/:location";
     try_block := get_weather;
     catch_message := "Failed to fetch weather data" |}.

(** The routes in the order [registerRoutes] installs them. *)
Definition registerRoutes : list Route :=
  [ {| method := GET; path := "/api/auth/user";
       try_block := get_auth_user;
       catch_message := "Failed to fetch user" |};
    {| method := GET; path := "/api/dashboard/stats";
       try_block := get_dashboard_stats;
       catch_message := "Failed to fetch dashboard statistics" |};
    {| method := GET; path := "/api/flood-zones";
       try_block := get_flood_zones;
       catch_message := "Failed to fetch flood zones" |};
    {| method := POST; path := "/api/flood-zones";
       try_block := post_flood_zones;
       catch_message := "Failed to create flood zone" |};
    patch_flood_zones_route;
    {| method := GET; path := "/api/population";
       try_block := get_population;
       catch_message := "Failed to fetch affected population" |};
    {| method := POST; path := "/api/population";
       try_block := post_population;
       catch_message := "Failed to register affected person" |};
    {| method := PATCH; path := "/api/population/:id";
       try_block := patch_population;
       catch_message := "Failed to update affected person" |};
    {| method := GET; path := "/api/resources";
       try_block := get_resources;
       catch_message := "Failed to fetch resources" |};
    {| method := POST; path := "/api/resources";
       try_block := post_resources;
       catch_message := "Failed to create resource" |};
    {| method := PATCH; path := "/api/resources/:id";
       try_block := patch_resources;
       catch_message := "Failed to update resource" |};
    {| method := GET; path := "/api/relief-distribution";
       try_block := get_relief_distribution;
       catch_message := "Failed to fetch relief distributions" |};
    {| method := POST; path := "/api/relief-distribution";
       try_block := post_relief_distribution;
       catch_message := "Failed to create relief distribution" |};
    {| method := GET; path := "/api/weather-alerts";
       try_block := get_weather_alerts;
       catch_message := "Failed to fetch weather alerts" |};
    {| method := POST; path := "/api/weather-alerts";
       try_block := post_weather_alerts;
       catch_message := "Failed to create weather alert" |};
    {| method := DELETE; path := "/api/weather-alerts/:id";
       try_block := delete_weather_alerts;
       catch_message := "Failed to deactivate weather alert" |};
    {| method := GET; path := "/api/response-teams";
       try_block := get_response_teams;
       catch_message := "Failed to fetch response teams" |};
    {| method := POST; path := "/api/response-teams";
       try_block := post_response_teams;
       catch_message := "Failed to create response team" |};
    {| method := PATCH; path := "/api/response-teams/:id";
       try_block := patch_response_teams;
       catch_message := "Failed to update response team" |};
    {| method := GET; path := "/api/activities";
       try_block := get_activities;
       catch_message := "Failed to fetch activities" |};
    get_weather_route ].

End Routes.

(* ===================================================================== *)
(** * The flood map of the client *)
(* ===================================================================== *)

(** [FloodMap] of [flood-map.tsx] and the components [Map] and
    [MapCircle] of [ui/map.tsx] it renders, with the effects the two
    register and the order in which React 18 runs them: after a render is
    committed, first the cleanups that are due, then the effects that are
    due, those of the children before that of their parent; an effect is
    due when the component is new or one of its dependencies is not
    [Object.is] the one of the last run. *)
Module Client.

(** A JavaScript number as the component obtains it.  [parseFloat] is not
    evaluated: the number it returns is named by its argument. *)
Inductive number : Type :=
| parseFloat (s : string)
| integer (z : Z)
| literal (q : Q).

Definition getRiskColor (riskLevel : string) : string :=
  if String.eqb riskLevel "high" then "#dc2626"
  else if String.eqb riskLevel "medium" then "#ea580c"
  else if String.eqb riskLevel "low" then "#16a34a"
  else "#6b7280".

(** An array literal makes a new object each time it is evaluated, and
    React compares the dependencies of an effect with [Object.is], which
    for objects is identity.  An array is therefore kept with its
    identity: the number of arrays the renders made before it. *)
Record LatLng : Type := {
  identity : nat;
  items : number * number
}.

(** The props of a [MapCircle] element, with its key (the popup text is
    left out). *)
Record MapCircleProps : Type := {
  key : string;
  center : LatLng;
  radius : number;
  color : option string;
  fillColor : option string;
  fillOpacity : option number
}.

(** What [FloodMap] returns: the loading skeleton, or the [Map] with its
    props [center] and [zoom] and its [MapCircle] children.  No
    [onMapReady] is passed. *)
Inductive Element : Type :=
| Skeleton
| Map (center : LatLng) (zoom : number) (children : list MapCircleProps).

(** [floodZones.map((zone) => <MapCircle ... />)]: the [center] of each
    circle is an array literal, the first of them the array [next]. *)
Fixpoint MapCircles (next : nat) (floodZones : list floodZones.row)
    : list MapCircleProps :=
  match floodZones with
  | [] => []
  | zone :: rest =>
      {| key := floodZones.id zone;
         center := {| identity := next;
                      items := (parseFloat (floodZones.latitude zone),
                                parseFloat (floodZones.longitude zone)) |};
         radius := integer (floodZones.radius zone);
         color := Some (getRiskColor (floodZones.riskLevel zone));
         fillColor := Some (getRiskColor (floodZones.riskLevel zone));
         fillOpacity := Some (literal (3 # 10)) |}
      :: MapCircles (S next) rest
  end.

(** One render of [FloodMap], given what [useQuery] returns; [next] counts
    the arrays made so far, and the render returns the new count.
    [defaultCenter] is an array literal in the body of the component. *)
Definition FloodMap (next : nat) (isLoading : bool)
    (data : option (list floodZones.row)) : Element * nat :=
  let floodZones := match data with
                    | Some l => l
                    | None => []
                    end in
  if isLoading then (Skeleton, next)
  else
    let defaultCenter := {| identity := next;
                            items := (literal (94981 # 10000),
                                      literal (763388 # 10000)) |} in
    (Map defaultCenter (integer 10) (MapCircles (S next) floodZones),
     (S next + List.length floodZones)%nat).

(** ** Leaflet *)

(** A Leaflet circle. *)
Record Circle : Type := {
  c_center : number * number;
  c_radius : number;
  c_color : string;
  c_fillColor : string;
  c_fillOpacity : number
}.

(** A Leaflet map: the circles added to it, each with the number that
    tells the circle objects apart, and whether the map was removed. *)
Record LeafletMap : Type := {
  layers : list (nat * Circle);
  removed : bool
}.

(** The page: the Leaflet maps made so far (a map is known by its place
    in the list), the number of circles made so far, and the module
    variable [globalMapInstance] of [ui/map.tsx], which is [null] when
    the module is loaded. *)
Record Window : Type := {
  maps : list LeafletMap;
  circles_made : nat;
  globalMapInstance : option nat
}.

(** The map [h] changed by [f]. *)
Fixpoint on_map (h : nat) (f : LeafletMap -> LeafletMap) (l : list LeafletMap)
    : list LeafletMap :=
  match l, h with
  | [], _ => []
  | m :: rest, O => f m :: rest
  | m :: rest, S h' => m :: on_map h' f rest
  end.

(** [fillColor || color] *)
Definition fill_or (fillColor : option string) (color : string) : string :=
  match fillColor with
  | Some f => if String.eqb f "" then color else f
  | None => color
  end.

(** A prop with a default value. *)
Definition default_to {A} (d : A) (o : option A) : A :=
  match o with
  | Some a => a
  | None => d
  end.

(** ** The effects *)

(** The effect of [MapCircle].  It returns at once while
    [globalMapInstance] is [null]; else it adds the circle to that map
    and returns the cleanup, kept here as the circle the cleanup removes
    (the map it is on and its number). *)
Definition MapCircle (props : MapCircleProps) (w : Window)
    : Window * option (nat * nat) :=
  let color := default_to "#3388ff" (color props) in
  let fillOpacity := default_to (literal (3 # 10)) (fillOpacity props) in
  match globalMapInstance w with
  | None => (w, None)
  | Some h =>
      let circle := {| c_center := items (center props);
                       c_radius := radius props;
                       c_color := color;
                       c_fillColor := fill_or (fillColor props) color;
                       c_fillOpacity := fillOpacity |} in
      ({| maps := on_map h (fun m => {| layers := layers m ++ [(circles_made w, circle)];
                                         removed := removed m |})
                         (maps w);
          circles_made := S (circles_made w);
          globalMapInstance := globalMapInstance w |},
       Some (h, circles_made w))
  end.

(** The cleanup of [MapCircle]: [circle.remove()]. *)
Definition MapCircle_cleanup (cleanup : option (nat * nat)) (w : Window) : Window :=
  match cleanup with
  | None => w
  | Some (h, circle) =>
      {| maps := on_map h (fun m => {| layers := filter (fun l => negb (Nat.eqb (fst l) circle))
                                                         (layers m);
                                         removed := removed m |})
                         (maps w);
         circles_made := circles_made w;
         globalMapInstance := globalMapInstance w |}
  end.

(** The effect of [Map]: it makes a Leaflet map in the [div] the
    component rendered, and sets [globalMapInstance] and
    [mapInstanceRef.current] to it.  The value returned with the window
    is [mapInstanceRef.current]. *)
Definition Map_effect (w : Window) : Window * option nat :=
  let map := List.length (maps w) in
  ({| maps := (maps w ++ [ {| layers := []; removed := false |} ])%list;
      circles_made := circles_made w;
      globalMapInstance := Some map |},
   Some map).

(** The cleanup of [Map]: the map is removed, with its layers, and both
    [mapInstanceRef.current] and [globalMapInstance] are set to [null]. *)
Definition Map_cleanup (mapInstanceRef : option nat) (w : Window) : Window :=
  match mapInstanceRef with
  | Some h =>
      {| maps := on_map h (fun m => {| layers := []; removed := true |}) (maps w);
         circles_made := circles_made w;
         globalMapInstance := None |}
  | None => w
  end.

(** ** React *)

(** What React keeps of a mounted [MapCircle]: its key, the props of the
    render whose effect ran last (the dependencies are among them) and
    the cleanup that effect returned. *)
Record CircleInstance : Type := {
  instance_key : string;
  last : MapCircleProps;
  cleanup : option (nat * nat)
}.

(** What React keeps of a mounted [Map]: the ref and the dependencies
    [center] and [zoom] of the effect that ran last. *)
Record MapInstance : Type := {
  mapInstanceRef : option nat;
  last_center : LatLng;
  last_zoom : number
}.

(** What is mounted: nothing of the map while the skeleton shows, else
    the [Map] and its children. *)
Inductive Tree : Type :=
| NoMap
| Mounted (m : MapInstance) (children : list CircleInstance).

Fixpoint find_key {A} (key_of : A -> string) (k : string) (l : list A) : option A :=
  match l with
  | [] => None
  | a :: rest => if String.eqb (key_of a) k then Some a else find_key key_of k rest
  end.

Section React.

(** [Object.is] on two numbers, and on the dependencies of a [MapCircle]
    other than [center] (numbers and strings: [radius], [color],
    [fillColor], [fillOpacity], [popup]).  They are compared by value;
    the values are not computed here. *)
Variable same_number : number -> number -> bool.
Variable same_primitives : MapCircleProps -> MapCircleProps -> bool.

Definition same_object (a b : LatLng) : bool :=
  Nat.eqb (identity a) (identity b).

(** React runs an effect again when one of its dependencies is not the
    one of the last run: [[center, radius, color, fillColor, fillOpacity,
    popup]] for a circle, [[center, zoom, onMapReady]] for the map. *)
Definition circle_changed (old new : MapCircleProps) : bool :=
  negb (same_object (center old) (center new)) || negb (same_primitives old new).

Definition map_changed (m : MapInstance) (center : LatLng) (zoom : number) : bool :=
  negb (same_object (last_center m) center) || negb (same_number (last_zoom m) zoom).

(** The cleanup of a child at a commit: when it is no longer rendered,
    or its dependencies changed. *)
Definition cleanup_child (children : list MapCircleProps) (w : Window)
    (c : CircleInstance) : Window :=
  match find_key key (instance_key c) children with
  | None => MapCircle_cleanup (cleanup c) w
  | Some props =>
      if circle_changed (last c) props then MapCircle_cleanup (cleanup c) w else w
  end.

(** The effect of a child at a commit: when it is new, or its
    dependencies changed. *)
Definition effect_child (old : list CircleInstance)
    (done : Window * list CircleInstance) (props : MapCircleProps)
    : Window * list CircleInstance :=
  let run :=
    let ran := MapCircle props (fst done) in
    (fst ran,
     (snd done ++ [ {| instance_key := key props; last := props;
                       cleanup := snd ran |} ])%list) in
  match find_key instance_key (key props) old with
  | None => run
  | Some c =>
      if circle_changed (last c) props then run
      else (fst done, (snd done ++ [c])%list)
  end.

(** A commit.  React first runs the cleanups that are due, then the
    effects that are due, those of the children before that of their
    parent.  When the [Map] is taken away its cleanup runs, then those
    of its children. *)
Definition commit (e : Element) (t : Tree) (w : Window) : Window * Tree :=
  match e, t with
  | Skeleton, NoMap => (w, NoMap)
  | Skeleton, Mounted m cs =>
      (fold_left (fun w c => MapCircle_cleanup (cleanup c) w) cs
                 (Map_cleanup (mapInstanceRef m) w),
       NoMap)
  | Map center zoom children, NoMap =>
      let circles := fold_left (effect_child []) children (w, []) in
      let made := Map_effect (fst circles) in
      (fst made,
       Mounted {| mapInstanceRef := snd made;
                  last_center := center; last_zoom := zoom |}
               (snd circles))
  | Map center zoom children, Mounted m cs =>
      let w1 := fold_left (cleanup_child children) cs w in
      let w2 := if map_changed m center zoom
                then Map_cleanup (mapInstanceRef m) w1 else w1 in
      let circles := fold_left (effect_child cs) children (w2, []) in
      if map_changed m center zoom then
        let made := Map_effect (fst circles) in
        (fst made,
         Mounted {| mapInstanceRef := snd made;
                    last_center := center; last_zoom := zoom |}
                 (snd circles))
      else (fst circles, Mounted m (snd circles))
  end.

(** The browser: the page, what is mounted, and the arrays made. *)
Record Browser : Type := {
  window : Window;
  mounted : Tree;
  arrays : nat
}.

(** [FloodMap] renders with what [useQuery] returns, and React commits. *)
Definition render (b : Browser) (query : bool * option (list floodZones.row))
    : Browser :=
  let rendered := FloodMap (arrays b) (fst query) (snd query) in
  let committed := commit (fst rendered) (mounted b) (window b) in
  {| window := fst committed; mounted := snd committed; arrays := snd rendered |}.

Definition renders (queries : list (bool * option (list floodZones.row)))
    (b : Browser) : Browser :=
  fold_left render queries b.

End React.

(** The page when the modules are loaded and nothing has rendered. *)
Definition loaded : Browser :=
  {| window := {| maps := []; circles_made := 0; globalMapInstance := None |};
     mounted := NoMap;
     arrays := 0 |}.

(** The circles on the map [globalMapInstance], none when it is [null]. *)
Definition drawn (w : Window) : list Circle :=
  match globalMapInstance w with
  | Some h =>
      match nth_error (maps w) h with
      | Some m => map snd (layers m)
      | None => []
      end
  | None => []
  end.

End Client.

(* ===================================================================== *)
(** * Sequences of storage calls *)
(* ===================================================================== *)

(** The writing methods of [DatabaseStorage] embedded above, each with the
    values it reads from the environment.  The methods left out
    ([upsertUser] and the four [update...] methods) write to the tables
    [users], [flood_zones], [affected_population], [resources] and
    [response_teams] only. *)
Module Session.

Inductive Call : Type :=
| createFloodZone (uuid : string) (now : Z) (zone : InsertFloodZone)
| createAffectedPerson (uuid : string) (now : Z) (person : InsertAffectedPopulation)
| createResource (uuid : string) (now : Z) (resource : InsertResource)
| createReliefDistribution (uuid : string) (now date : Z)
    (distribution : InsertReliefDistribution)
| createWeatherAlert (uuid : string) (now : Z) (alert : InsertWeatherAlert)
| deactivateWeatherAlert (id : string)
| createResponseTeam (uuid : string) (now : Z) (team : InsertResponseTeam)
| logActivity (uuid : string) (now : Z) (activity : InsertActivityLog).

(** The database after a call, whether the call returned or threw. *)
Definition step (db : DB) (c : Call) : DB :=
  match c with
  | createFloodZone uuid now zone =>
      fst (DatabaseStorage.createFloodZone uuid now zone db)
  | createAffectedPerson uuid now person =>
      fst (DatabaseStorage.createAffectedPerson uuid now person db)
  | createResource uuid now resource =>
      fst (DatabaseStorage.createResource uuid now resource db)
  | createReliefDistribution uuid now date distribution =>
      fst (DatabaseStorage.createReliefDistribution uuid now date distribution db)
  | createWeatherAlert uuid now alert =>
      fst (DatabaseStorage.createWeatherAlert uuid now alert db)
  | deactivateWeatherAlert id =>
      fst (DatabaseStorage.deactivateWeatherAlert id db)
  | createResponseTeam uuid now team =>
      fst (DatabaseStorage.createResponseTeam uuid now team db)
  | logActivity uuid now activity =>
      fst (DatabaseStorage.logActivity uuid now activity db)
  end.

Definition after (calls : list Call) (db : DB) : DB :=
  fold_left step calls db.

End Session.

(* ===================================================================== *)
(** * Vocabulary of the specification *)
(* ===================================================================== *)

Module Spec.

(** ** The REST surface *)

(** The eight tables of the data model (the session store apart). *)
Inductive Table : Type :=
| users | floodZones | affectedPopulation | resources
| reliefDistribution | weatherAlerts | responseTeams | activityLog.

Definition tables : list Table :=
  [users; floodZones; affectedPopulation; resources;
   reliefDistribution; weatherAlerts; responseTeams; activityLog].

(** The collection path under which the routes serve a table. *)
Definition endpoint (t : Table) : string :=
  match t with
  | users => "/api/auth/user"
  | floodZones => "/api/flood-zones"
  | affectedPopulation => "/api/population"
  | resources => "/api/resources"
  | reliefDistribution => "/api/relief-distribution"
  | weatherAlerts => "/api/weather-alerts"
  | responseTeams => "/api/response-teams"
  | activityLog => "/api/activities"
  end.

Definition method_eqb (a b : Routes.Method) : bool :=
  match a, b with
  | Routes.GET, Routes.GET | Routes.POST, Routes.POST
  | Routes.PATCH, Routes.PATCH | Routes.DELETE, Routes.DELETE => true
  | _, _ => false
  end.

Definition installed (m : Routes.Method) (p : string) : bool :=
  existsb (fun r => method_eqb (Routes.method r) m && String.eqb (Routes.path r) p)
          Routes.registerRoutes.

(** The list and create endpoints sit on the collection path, the update
    endpoint on the path of one row. *)
Definition has_list (t : Table) : bool := installed Routes.GET (endpoint t).
Definition has_create (t : Table) : bool := installed Routes.POST (endpoint t).
Definition has_update (t : Table) : bool :=
  installed Routes.PATCH (endpoint t ++ "/:id").

(** The methods installed under a table's path, in order of installation. *)
Definition methods_of (t : Table) : list Routes.Method :=
  map Routes.method
    (filter (fun r => String.eqb (Routes.path r) (endpoint t)
                      || String.eqb (Routes.path r) (endpoint t ++ "/:id"))
            Routes.registerRoutes).

(** ** Validation *)

(** The insert schemas the create endpoints parse with. *)
Inductive Schema : Type :=
| FloodZone | AffectedPopulation | Resource
| ReliefDistribution | WeatherAlert | ResponseTeam.

Definition is_some {A} (o : option A) : bool :=
  match o with
  | Some _ => true
  | None => false
  end.

Definition accepts (s : Schema) (body : JS) : bool :=
  match s with
  | FloodZone => is_some (Zod.insertFloodZoneSchema body)
  | AffectedPopulation => is_some (Zod.insertAffectedPopulationSchema body)
  | Resource => is_some (Zod.insertResourceSchema body)
  | ReliefDistribution => is_some (Zod.insertReliefDistributionSchema body)
  | WeatherAlert => is_some (Zod.insertWeatherAlertSchema body)
  | ResponseTeam => is_some (Zod.insertResponseTeamSchema body)
  end.

(** The columns that are [notNull] and have no default, the generated
    ones ([id], timestamps) apart. *)
Definition required_fields (s : Schema) : list string :=
  match s with
  | FloodZone => ["name"; "district"; "latitude"; "longitude"; "riskLevel"; "radius"]
  | AffectedPopulation => ["name"; "evacuationStatus"]
  | Resource => ["name"; "type"; "unit"; "totalQuantity"; "priority"]
  | ReliefDistribution => ["resourceId"; "quantity"]
  | WeatherAlert => ["type"; "severity"; "title"; "message"]
  | ResponseTeam => ["name"; "type"; "status"]
  end.

(** The string columns whose comment in the schema lists the values
    meant for them: risk level, evacuation status, priority, alert
    severity, team status. *)
Definition enumerated_fields : list (Schema * string * list string) :=
  [ (FloodZone, "riskLevel", ["high"; "medium"; "low"]);
    (AffectedPopulation, "evacuationStatus",
       ["evacuated"; "sheltered"; "at_risk"; "safe"]);
    (Resource, "priority", ["high"; "medium"; "low"]);
    (WeatherAlert, "severity", ["high"; "medium"; "low"]);
    (ResponseTeam, "status", ["active"; "standby"; "unavailable"]) ].

(** The body with property [k] set to [v]. *)
Definition set_prop (k : string) (v : JS) (props : list (string * JS))
    : list (string * JS) :=
  (k, v) :: Zod.remove_key k props.

Definition string_in (s : string) (l : list string) : bool :=
  existsb (String.eqb s) l.

(** The schema each create endpoint parses with, and the property it
    sets from the signed-in user before parsing, if any. *)
Definition create_endpoints : list (string * Schema * option string) :=
  [ ("/api/flood-zones", FloodZone, None);
    ("/api/population", AffectedPopulation, Some "registeredBy");
    ("/api/resources", Resource, None);
    ("/api/relief-distribution", ReliefDistribution, Some "distributedBy");
    ("/api/weather-alerts", WeatherAlert, Some "createdBy");
    ("/api/response-teams", ResponseTeam, Some "leadOfficer") ].

Definition parsed (key : option string) (req : Routes.Request) : JS :=
  match key with
  | Some k => Zod.spread_with (Routes.body req) k (JStr (Routes.sub req))
  | None => Routes.body req
  end.

(** ** Responses *)

(** Every value the computation can return satisfies [P]. *)
Inductive Ends {A : Type} (P : A -> Prop) : Routes.Prog A -> Prop :=
| Ends_return : forall a, P a -> Ends P (Routes.Return a)
| Ends_throw : forall e, Ends P (Routes.Throw e)
| Ends_await : forall X (c : Routes.call X) k,
    (forall r, Ends P (k r)) -> Ends P (Routes.Await c k).

Definition failure (r : Routes.Route) : Routes.Response :=
  {| Routes.status := 500;
     Routes.payload := Routes.message (Routes.catch_message r) |}.

(** The statuses of a response the [try] block of route [r] sends. *)
Definition sent_by (r : Routes.Route) (res : Routes.Response) : Prop :=
  Routes.status res = 200
  \/ (Routes.status res = 404 /\ Routes.method r = Routes.PATCH)
  \/ (res = {| Routes.status := 500;
               Routes.payload := Routes.message "Weather API key not configured" |}
      /\ Routes.path r = "/api/weather/:location").

(** The [PATCH] routes: the path of each and the message it sends with
    status 404. *)
Definition update_routes : list (string * string) :=
  [ ("/api/flood-zones/:id", "Flood zone not found");
    ("/api/population/:id", "Person not found");
    ("/api/resources/:id", "Resource not found");
    ("/api/response-teams/:id", "Response team not found") ].

(** The update matches no row: the update method the [PATCH] route [r]
    awaits for this request resolves to [undefined]. *)
Definition finds_no_row {W : Type} (o : Routes.oracle W) (w : W)
    (r : Routes.Route) (req : Routes.Request) : Prop :=
  let id := Routes.params req "id" in
  let updates := Routes.body req in
  (Routes.path r = "/api/flood-zones/:id"
   /\ snd (o _ (Routes.updateFloodZone id updates) w) = inr None)
  \/ (Routes.path r = "/api/population/:id"
      /\ snd (o _ (Routes.updateAffectedPerson id updates) w) = inr None)
  \/ (Routes.path r = "/api/resources/:id"
      /\ snd (o _ (Routes.updateResource id updates) w) = inr None)
  \/ (Routes.path r = "/api/response-teams/:id"
      /\ snd (o _ (Routes.updateResponseTeam id updates) w) = inr None).

(** ** Weather *)

(** A computation that awaits nothing. *)
Definition Pure {A} (p : Routes.Prog A) : Prop :=
  (exists a, p = Routes.Return a) \/ (exists e, p = Routes.Throw e).

(** An answer with status 200 is an object with no other fields than
    the given ones. *)
Definition fields_among (names : list string) (res : Routes.Response) : Prop :=
  Routes.status res = 200 ->
  exists props,
    Routes.payload res = Routes.json_value (JObj props)
    /\ incl (map fst props) names.

(** [data] is a document of the shape OpenWeatherMap answers with,
    holding the five readings. *)
Definition weather_document (data t h d s p : JS) : Prop :=
  exists props main weather0 others wind,
    data = JObj props
    /\ Zod.lookup "main" props = Some (JObj main)
    /\ Zod.lookup "weather" props = Some (JArr (JObj weather0 :: others))
    /\ Zod.lookup "wind" props = Some (JObj wind)
    /\ Zod.lookup "temp" main = Some t
    /\ Zod.lookup "humidity" main = Some h
    /\ Zod.lookup "description" weather0 = Some d
    /\ Zod.lookup "speed" wind = Some s
    /\ Zod.lookup "pressure" main = Some p
    /\ Routes.defined t = true /\ Routes.defined h = true
    /\ Routes.defined d = true /\ Routes.defined s = true
    /\ Routes.defined p = true.

Definition weather_fields : list string :=
  ["temperature"; "humidity"; "description"; "windSpeed"; "pressure"].

(** ** The flood map *)

Inductive Colour : Type := red | orange | green | gray.

Definition colour_of_risk (riskLevel : string) : Colour :=
  if String.eqb riskLevel "high" then red
  else if String.eqb riskLevel "medium" then orange
  else if String.eqb riskLevel "low" then green
  else gray.

(** The shades the component uses. *)
Definition hex (c : Colour) : string :=
  match c with
  | red => "#dc2626"
  | orange => "#ea580c"
  | green => "#16a34a"
  | gray => "#6b7280"
  end.

(** The circle of a zone: at its stored coordinates, with its stored
    radius, in the colour of its risk level. *)
Definition circle_of (zone : floodZones.row) : Client.Circle :=
  {| Client.c_center := (Client.parseFloat (floodZones.latitude zone),
                         Client.parseFloat (floodZones.longitude zone));
     Client.c_radius := Client.integer (floodZones.radius zone);
     Client.c_color := hex (colour_of_risk (floodZones.riskLevel zone));
     Client.c_fillColor := hex (colour_of_risk (floodZones.riskLevel zone));
     Client.c_fillOpacity := Client.literal (3 # 10) |}.

(** ** Dashboard arithmetic *)

Definition active (z : floodZones.row) : bool :=
  match floodZones.isActive z with
  | Some true => true
  | _ => false
  end.

(** The sum of [totalQuantity] over the rows. *)
Definition total_of (rows : list resources.row) : Z :=
  fold_right (fun r acc => resources.totalQuantity r + acc) 0 rows.

(** The sum of [distributedQuantity] over the rows that have one. *)
Definition distributed_of (rows : list resources.row) : Z :=
  fold_right (fun r acc => match resources.distributedQuantity r with
                           | Some d => d + acc
                           | None => acc
                           end) 0 rows.

(** [p] is an integer nearest to the quotient [n / d]. *)
Definition nearest (p n d : Z) : Prop :=
  2 * Z.abs (n - p * d) <= Z.abs d.

(** ** Ordering *)

(** [a] is not strictly after [b] in descending order of [key]. *)
Definition desc_ok {A} (key : A -> option Z) (a b : A) : Prop :=
  Sql.desc_lt (key a) (key b) = false.

(** ** Weather alerts *)

(** An alert counts as current at [date] when it is flagged active and
    carries a [validUntil] that is not before [date]. *)
Definition current (date : Z) (a : weatherAlerts.row) : bool :=
  match weatherAlerts.isActive a, weatherAlerts.validUntil a with
  | Some true, Some t => date <=? t
  | _, _ => false
  end.

(** [a] may stand before [b] in descending order of creation time
    (rows without a creation time first). *)
Definition created_not_before (a b : weatherAlerts.row) : Prop :=
  match weatherAlerts.createdAt a, weatherAlerts.createdAt b with
  | None, _ => True
  | Some _, None => False
  | Some x, Some y => y <= x
  end.

(** The alert [i] exists and every row carrying that id is flagged
    inactive. *)
Definition retired (i : string) (db : DB) : Prop :=
  (exists a, In a (t_weatherAlerts db) /\ weatherAlerts.id a = i)
  /\ (forall a, In a (t_weatherAlerts db) -> weatherAlerts.id a = i ->
                weatherAlerts.isActive a = Some false).

(** ** Relief distribution *)

(** [r'] is [r] with [quantity] added to the distributed quantity and
    [updatedAt] set to [date]; every other column is the same. *)
Definition distributed_onto (quantity date : Z) (r r' : resources.row) : Prop :=
  resources.distributedQuantity r'
    = option_map (fun d => d + quantity) (resources.distributedQuantity r)
  /\ resources.updatedAt r' = Some date
  /\ resources.id r' = resources.id r
  /\ resources.name r' = resources.name r
  /\ resources.type r' = resources.type r
  /\ resources.unit r' = resources.unit r
  /\ resources.totalQuantity r' = resources.totalQuantity r
  /\ resources.allocatedQuantity r' = resources.allocatedQuantity r
  /\ resources.priority r' = resources.priority r
  /\ resources.location r' = resources.location r
  /\ resources.expiryDate r' = resources.expiryDate r
  /\ resources.createdAt r' = resources.createdAt r.

End Spec.

(* ===================================================================== *)
(** * Sample data *)
(* ===================================================================== *)

Module Sample.

Definition rice : InsertResource :=
  {| ir_name := "Rice"; ir_type := "food"; ir_unit := "packets";
     ir_totalQuantity := 10;
     ir_allocatedQuantity := undefined; ir_distributedQuantity := undefined;
     ir_priority := "high"; ir_location := undefined;
     ir_expiryDate := undefined |}.

(** Twenty packets of the resource ["r1"]. *)
Definition twenty : InsertReliefDistribution :=
  {| ird_resourceId := "r1"; ird_floodZoneId := undefined;
     ird_quantity := 20; ird_distributedTo := value "Shelter A";
     ird_distributedBy := undefined; ird_recipientCount := undefined;
     ird_notes := undefined; ird_status := undefined |}.

(** A resource whose distributed quantity is the largest [integer]. *)
Definition brimful : InsertResource :=
  {| ir_name := "Tarpaulin"; ir_type := "shelter"; ir_unit := "pieces";
     ir_totalQuantity := 2147483647;
     ir_allocatedQuantity := undefined;
     ir_distributedQuantity := value 2147483647;
     ir_priority := "low"; ir_location := undefined;
     ir_expiryDate := undefined |}.

Definition stocked : list Session.Call :=
  [ Session.createResource "r1" 1000 rice ].

Definition overdrawn : list Session.Call :=
  [ Session.createResource "r1" 1000 rice;
    Session.createReliefDistribution "d1" 2000 2001 twenty ].

Definition flood_warning (validUntil : optional Z) : InsertWeatherAlert :=
  {| iwa_type := "flood_warning"; iwa_severity := "high";
     iwa_title := "River rising"; iwa_message := "Move to higher ground";
     iwa_affectedArea := undefined; iwa_validUntil := validUntil;
     iwa_isActive := undefined; iwa_createdBy := undefined |}.

Definition alerted : list Session.Call :=
  [ Session.createWeatherAlert "a1" 100 (flood_warning (value 5000));
    Session.createWeatherAlert "a2" 200 (flood_warning (value 6000)) ].

(** A flood zone whose risk level is none of the three listed ones. *)
Definition extreme_zone : list (string * JS) :=
  [ ("name", JStr "Kuttanad");
    ("district", JStr "Alappuzha");
    ("latitude", JStr "9.4981");
    ("longitude", JStr "76.3388");
    ("riskLevel", JStr "extreme");
    ("radius", JNum (5000 # 1)) ].

(** A world in which no row has the id an update names: the update
    methods resolve to [undefined].  Nothing else is answered. *)
Definition no_such_row : Routes.oracle unit :=
  fun X c w =>
    match c in Routes.call X return unit * (Routes.exception + X) with
    | Routes.updateFloodZone _ _ => (w, inr None)
    | Routes.updateAffectedPerson _ _ => (w, inr None)
    | Routes.updateResource _ _ => (w, inr None)
    | Routes.updateResponseTeam _ _ => (w, inr None)
    | _ => (w, inl Routes.NetworkError)
    end.

Definition request (param : string) (body : JS) : Routes.Request :=
  {| Routes.params := fun _ => param;
     Routes.query := fun _ => None;
     Routes.body := body;
     Routes.sub := "user-1" |}.

Definition no_api_key : Routes.ProcessEnv :=
  {| Routes.OPENWEATHER_API_KEY := None |}.

Definition with_api_key : Routes.ProcessEnv :=
  {| Routes.OPENWEATHER_API_KEY := Some "k" |}.

(** What OpenWeatherMap may answer, and a world that answers it. *)
Definition alappuzha_weather : JS :=
  JObj [ ("weather", JArr [ JObj [ ("main", JStr "Rain");
                                   ("description", JStr "light rain") ] ]);
         ("main", JObj [ ("temp", JNum (59 # 2));
                         ("pressure", JNum (1008 # 1));
                         ("humidity", JNum (80 # 1)) ]);
         ("wind", JObj [ ("speed", JNum (18 # 5)) ]);
         ("name", JStr "Alappuzha") ].

Definition open_weather : Routes.oracle unit :=
  fun X c w =>
    match c in Routes.call X return unit * (Routes.exception + X) with
    | Routes.fetch _ =>
        (w, inr {| Routes.ok := true; Routes.fetch_status := 200;
                   Routes.json := Some alappuzha_weather |})
    | _ => (w, inl Routes.NetworkError)
    end.

(** A zone the map shows. *)
Definition kuttanad : floodZones.row :=
  {| floodZones.id := "z1"; floodZones.name := "Kuttanad";
     floodZones.district := "Alappuzha";
     floodZones.latitude := "9.4981"; floodZones.longitude := "76.3388";
     floodZones.riskLevel := "high"; floodZones.radius := 5000;
     floodZones.waterLevel := None; floodZones.dangerMark := None;
     floodZones.isActive := Some true;
     floodZones.lastUpdated := Some 10; floodZones.createdAt := Some 10 |}.

End Sample.

(* ===================================================================== *)
(** * The rest of [DatabaseStorage] *)
(* ===================================================================== *)

(** The methods of [storage.ts] not embedded above: [getUser], the four
    [update...] methods and [getRecentActivities].  An update takes a value
    of the type the method declares, [Partial<Insert...>]: it has the keys
    of the insert type and no other, a property of a [notNull] column is
    absent or holds a value of the column's type, a property of a nullable
    column may also be [null].  A property that is absent leaves its
    column as it is.  (The [PATCH] routes hand over the request body
    unchecked; a body with other keys, such as [id] or [createdAt], or
    with values of another type, is no value of this type and has no
    counterpart here.)  The text given for a [decimal] column is kept as
    it is given; whether PostgreSQL takes it for a number is not
    decided here. *)
Module StorageRest.
Import Sql.

Definition getUser (db : DB) (i : string) : option users.row :=
  hd_error (where_ (fun r => Some (String.eqb (users.id r) i)) (t_users db)).

(** [column = value] in a [set] clause, for a [notNull] column. *)
Definition assign {A} (update : option A) (old : A) : A :=
  match update with
  | Some v => v
  | None => old
  end.

(** The same for a nullable column. *)
Definition assign_nullable {A} (update : optional A) (old : option A) : option A :=
  match update with
  | undefined => old
  | null => None
  | value v => Some v
  end.

(** The [integer] a nullable property sends to the database, if any. *)
Definition sent {A} (update : optional A) : option A :=
  match update with
  | value v => Some v
  | _ => None
  end.

(** [UPDATE ... WHERE id = i RETURNING *] over the rows of one table: the
    rows with the id are rewritten by [set], which may refuse a row; the
    rewritten rows are returned. *)
Fixpoint update_rows {A} (id_of : A -> string) (i : string)
    (set : A -> result A) (rows : list A) : result (list A * list A) :=
  match rows with
  | [] => Ok ([], [])
  | r :: rest =>
      if String.eqb (id_of r) i then
        r' <- set r ;;
        out <- update_rows id_of i set rest ;;
        Ok (r' :: fst out, r' :: snd out)
      else
        out <- update_rows id_of i set rest ;;
        Ok (r :: fst out, snd out)
  end.

(** ** Flood zones *)

Record PartialInsertFloodZone : Type := {
  pfz_name : option string;
  pfz_district : option string;
  pfz_latitude : option string;
  pfz_longitude : option string;
  pfz_riskLevel : option string;
  pfz_radius : option Z;
  pfz_waterLevel : optional string;
  pfz_dangerMark : optional string;
  pfz_isActive : optional bool
}.

(** [{ ...zone, lastUpdated: new Date() }] *)
Definition set_floodZone (zone : PartialInsertFloodZone) (date : Z)
    (r : floodZones.row) : floodZones.row :=
  {| floodZones.id := floodZones.id r;
     floodZones.name := assign (pfz_name zone) (floodZones.name r);
     floodZones.district := assign (pfz_district zone) (floodZones.district r);
     floodZones.latitude := assign (pfz_latitude zone) (floodZones.latitude r);
     floodZones.longitude := assign (pfz_longitude zone) (floodZones.longitude r);
     floodZones.riskLevel := assign (pfz_riskLevel zone) (floodZones.riskLevel r);
     floodZones.radius := assign (pfz_radius zone) (floodZones.radius r);
     floodZones.waterLevel :=
       assign_nullable (pfz_waterLevel zone) (floodZones.waterLevel r);
     floodZones.dangerMark :=
       assign_nullable (pfz_dangerMark zone) (floodZones.dangerMark r);
     floodZones.isActive :=
       assign_nullable (pfz_isActive zone) (floodZones.isActive r);
     floodZones.lastUpdated := Some date;
     floodZones.createdAt := floodZones.createdAt r |}.

Definition updateFloodZone (i : string) (zone : PartialInsertFloodZone)
    (date : Z) : DatabaseStorage.method (option floodZones.row) :=
  DatabaseStorage.statement (fun db =>
  _ <- DatabaseStorage.check_int4 (pfz_radius zone) ;;
  out <- update_rows floodZones.id i (fun r => Ok (set_floodZone zone date r))
           (t_floodZones db) ;;
  Ok ({| t_users := t_users db;
         t_floodZones := fst out;
         t_affectedPopulation := t_affectedPopulation db;
         t_resources := t_resources db;
         t_reliefDistribution := t_reliefDistribution db;
         t_weatherAlerts := t_weatherAlerts db;
         t_responseTeams := t_responseTeams db;
         t_activityLog := t_activityLog db |}, hd_error (snd out))).

(** ** Affected population *)

Record PartialInsertAffectedPopulation : Type := {
  pap_name : option string;
  pap_age : optional Z;
  pap_gender : optional string;
  pap_phoneNumber : optional string;
  pap_address : optional string;
  pap_latitude : optional string;
  pap_longitude : optional string;
  pap_floodZoneId : optional string;
  pap_evacuationStatus : option string;
  pap_medicalNeeds : optional string;
  pap_familyMembers : optional Z;
  pap_registeredBy : optional string
}.

Definition set_person (updates : PartialInsertAffectedPopulation) (date : Z)
    (r : affectedPopulation.row) : affectedPopulation.row :=
  {| affectedPopulation.id := affectedPopulation.id r;
     affectedPopulation.name := assign (pap_name updates) (affectedPopulation.name r);
     affectedPopulation.age :=
       assign_nullable (pap_age updates) (affectedPopulation.age r);
     affectedPopulation.gender :=
       assign_nullable (pap_gender updates) (affectedPopulation.gender r);
     affectedPopulation.phoneNumber :=
       assign_nullable (pap_phoneNumber updates) (affectedPopulation.phoneNumber r);
     affectedPopulation.address :=
       assign_nullable (pap_address updates) (affectedPopulation.address r);
     affectedPopulation.latitude :=
       assign_nullable (pap_latitude updates) (affectedPopulation.latitude r);
     affectedPopulation.longitude :=
       assign_nullable (pap_longitude updates) (affectedPopulation.longitude r);
     affectedPopulation.floodZoneId :=
       assign_nullable (pap_floodZoneId updates) (affectedPopulation.floodZoneId r);
     affectedPopulation.evacuationStatus :=
       assign (pap_evacuationStatus updates) (affectedPopulation.evacuationStatus r);
     affectedPopulation.medicalNeeds :=
       assign_nullable (pap_medicalNeeds updates) (affectedPopulation.medicalNeeds r);
     affectedPopulation.familyMembers :=
       assign_nullable (pap_familyMembers updates) (affectedPopulation.familyMembers r);
     affectedPopulation.registeredBy :=
       assign_nullable (pap_registeredBy updates) (affectedPopulation.registeredBy r);
     affectedPopulation.createdAt := affectedPopulation.createdAt r;
     affectedPopulation.updatedAt := Some date |}.

(** A foreign key is checked on a rewritten row when its value changed. *)
Definition option_string_eqb (a b : option string) : bool :=
  match a, b with
  | Some x, Some y => String.eqb x y
  | None, None => true
  | _, _ => false
  end.

Definition check_changed_reference {A} (id_of : A -> string) (rows : list A)
    (old new : option string) : result unit :=
  if option_string_eqb old new then Ok tt
  else DatabaseStorage.check_references id_of rows new.

Definition updateAffectedPerson (i : string)
    (updates : PartialInsertAffectedPopulation) (date : Z)
    : DatabaseStorage.method (option affectedPopulation.row) :=
  DatabaseStorage.statement (fun db =>
  _ <- DatabaseStorage.check_int4 (sent (pap_age updates)) ;;
  _ <- DatabaseStorage.check_int4 (sent (pap_familyMembers updates)) ;;
  out <- update_rows affectedPopulation.id i
           (fun r =>
              let r' := set_person updates date r in
              _ <- check_changed_reference floodZones.id (t_floodZones db)
                     (affectedPopulation.floodZoneId r)
                     (affectedPopulation.floodZoneId r') ;;
              _ <- check_changed_reference users.id (t_users db)
                     (affectedPopulation.registeredBy r)
                     (affectedPopulation.registeredBy r') ;;
              Ok r')
           (t_affectedPopulation db) ;;
  Ok ({| t_users := t_users db;
         t_floodZones := t_floodZones db;
         t_affectedPopulation := fst out;
         t_resources := t_resources db;
         t_reliefDistribution := t_reliefDistribution db;
         t_weatherAlerts := t_weatherAlerts db;
         t_responseTeams := t_responseTeams db;
         t_activityLog := t_activityLog db |}, hd_error (snd out))).

(** ** Resources *)

Record PartialInsertResource : Type := {
  pr_name : option string;
  pr_type : option string;
  pr_unit : option string;
  pr_totalQuantity : option Z;
  pr_allocatedQuantity : optional Z;
  pr_distributedQuantity : optional Z;
  pr_priority : option string;
  pr_location : optional string;
  pr_expiryDate : optional Z
}.

Definition set_resource (updates : PartialInsertResource) (date : Z)
    (r : resources.row) : resources.row :=
  {| resources.id := resources.id r;
     resources.name := assign (pr_name updates) (resources.name r);
     resources.type := assign (pr_type updates) (resources.type r);
     resources.unit := assign (pr_unit updates) (resources.unit r);
     resources.totalQuantity :=
       assign (pr_totalQuantity updates) (resources.totalQuantity r);
     resources.allocatedQuantity :=
       assign_nullable (pr_allocatedQuantity updates) (resources.allocatedQuantity r);
     resources.distributedQuantity :=
       assign_nullable (pr_distributedQuantity updates)
         (resources.distributedQuantity r);
     resources.priority := assign (pr_priority updates) (resources.priority r);
     resources.location :=
       assign_nullable (pr_location updates) (resources.location r);
     resources.expiryDate :=
       assign_nullable (pr_expiryDate updates) (resources.expiryDate r);
     resources.createdAt := resources.createdAt r;
     resources.updatedAt := Some date |}.

Definition updateResource (i : string) (updates : PartialInsertResource)
    (date : Z) : DatabaseStorage.method (option resources.row) :=
  DatabaseStorage.statement (fun db =>
  _ <- DatabaseStorage.check_int4 (pr_totalQuantity updates) ;;
  _ <- DatabaseStorage.check_int4 (sent (pr_allocatedQuantity updates)) ;;
  _ <- DatabaseStorage.check_int4 (sent (pr_distributedQuantity updates)) ;;
  out <- update_rows resources.id i (fun r => Ok (set_resource updates date r))
           (t_resources db) ;;
  Ok ({| t_users := t_users db;
         t_floodZones := t_floodZones db;
         t_affectedPopulation := t_affectedPopulation db;
         t_resources := fst out;
         t_reliefDistribution := t_reliefDistribution db;
         t_weatherAlerts := t_weatherAlerts db;
         t_responseTeams := t_responseTeams db;
         t_activityLog := t_activityLog db |}, hd_error (snd out))).

(** ** Response teams *)

Record PartialInsertResponseTeam : Type := {
  prt_name : option string;
  prt_type : option string;
  prt_status : option string;
  prt_currentLocation : optional string;
  prt_assignedZone : optional string;
  prt_memberCount : optional Z;
  prt_contactNumber : optional string;
  prt_leadOfficer : optional string
}.

Definition set_team (updates : PartialInsertResponseTeam) (date : Z)
    (r : responseTeams.row) : responseTeams.row :=
  {| responseTeams.id := responseTeams.id r;
     responseTeams.name := assign (prt_name updates) (responseTeams.name r);
     responseTeams.type := assign (prt_type updates) (responseTeams.type r);
     responseTeams.status := assign (prt_status updates) (responseTeams.status r);
     responseTeams.currentLocation :=
       assign_nullable (prt_currentLocation updates) (responseTeams.currentLocation r);
     responseTeams.assignedZone :=
       assign_nullable (prt_assignedZone updates) (responseTeams.assignedZone r);
     responseTeams.memberCount :=
       assign_nullable (prt_memberCount updates) (responseTeams.memberCount r);
     responseTeams.contactNumber :=
       assign_nullable (prt_contactNumber updates) (responseTeams.contactNumber r);
     responseTeams.leadOfficer :=
       assign_nullable (prt_leadOfficer updates) (responseTeams.leadOfficer r);
     responseTeams.createdAt := responseTeams.createdAt r;
     responseTeams.updatedAt := Some date |}.

Definition updateResponseTeam (i : string) (updates : PartialInsertResponseTeam)
    (date : Z) : DatabaseStorage.method (option responseTeams.row) :=
  DatabaseStorage.statement (fun db =>
  _ <- DatabaseStorage.check_int4 (sent (prt_memberCount updates)) ;;
  out <- update_rows responseTeams.id i
           (fun r =>
              let r' := set_team updates date r in
              _ <- check_changed_reference floodZones.id (t_floodZones db)
                     (responseTeams.assignedZone r)
                     (responseTeams.assignedZone r') ;;
              _ <- check_changed_reference users.id (t_users db)
                     (responseTeams.leadOfficer r)
                     (responseTeams.leadOfficer r') ;;
              Ok r')
           (t_responseTeams db) ;;
  Ok ({| t_users := t_users db;
         t_floodZones := t_floodZones db;
         t_affectedPopulation := t_affectedPopulation db;
         t_resources := t_resources db;
         t_reliefDistribution := t_reliefDistribution db;
         t_weatherAlerts := t_weatherAlerts db;
         t_responseTeams := fst out;
         t_activityLog := t_activityLog db |}, hd_error (snd out))).

(** ** Activity log *)

Definition bigint_max : Z := 9223372036854775807.

(** [getRecentActivities(limit = 20)]: the newest [limit] entries.  The
    query builder writes the [LIMIT] clause for a number that is not
    negative and leaves it out otherwise, so a negative limit selects
    every entry.  [None] stands for the error the database raises on a
    [LIMIT] beyond [bigint]. *)
Definition getRecentActivities (limit : option Z) (db : DB)
    : option (list activityLog.row) :=
  let limit := match limit with
               | Some n => n
               | None => 20
               end in
  if limit <? 0 then
    Some (orderBy_desc activityLog.createdAt (t_activityLog db))
  else if bigint_max <? limit then None
  else Some (firstn (Z.to_nat limit)
               (orderBy_desc activityLog.createdAt (t_activityLog db))).

End StorageRest.

(* ===================================================================== *)
(** * Vocabulary for the updates *)
(* ===================================================================== *)

Module SpecRest.

(** A column after an update, in the words of the update: it holds the
    value of the property when the update has the property, and is as it
    was otherwise. *)
Definition takes {A} (update : option A) (old new : A) : Prop :=
  match update with
  | Some v => new = v
  | None => new = old
  end.

(** The same for a nullable column, which [null] empties. *)
Definition takes_nullable {A} (update : optional A) (old new : option A) : Prop :=
  match update with
  | undefined => new = old
  | null => new = None
  | value v => new = Some v
  end.

(** The update gives this column no value. *)
Definition gives_no_value {A} (update : optional A) : Prop :=
  match update with
  | value _ => False
  | _ => True
  end.

(** [r'] is the resource [r] after the update at [date]. *)
Definition resource_rewritten (updates : StorageRest.PartialInsertResource)
    (date : Z) (r r' : resources.row) : Prop :=
  resources.id r' = resources.id r
  /\ takes (StorageRest.pr_name updates) (resources.name r) (resources.name r')
  /\ takes (StorageRest.pr_type updates) (resources.type r) (resources.type r')
  /\ takes (StorageRest.pr_unit updates) (resources.unit r) (resources.unit r')
  /\ takes (StorageRest.pr_totalQuantity updates)
        (resources.totalQuantity r) (resources.totalQuantity r')
  /\ takes_nullable (StorageRest.pr_allocatedQuantity updates)
        (resources.allocatedQuantity r) (resources.allocatedQuantity r')
  /\ takes_nullable (StorageRest.pr_distributedQuantity updates)
        (resources.distributedQuantity r) (resources.distributedQuantity r')
  /\ takes (StorageRest.pr_priority updates)
        (resources.priority r) (resources.priority r')
  /\ takes_nullable (StorageRest.pr_location updates)
        (resources.location r) (resources.location r')
  /\ takes_nullable (StorageRest.pr_expiryDate updates)
        (resources.expiryDate r) (resources.expiryDate r')
  /\ resources.createdAt r' = resources.createdAt r
  /\ resources.updatedAt r' = Some date.

(** [z'] is the flood zone [z] after the update at [date]. *)
Definition zone_rewritten (zone : StorageRest.PartialInsertFloodZone)
    (date : Z) (z z' : floodZones.row) : Prop :=
  floodZones.id z' = floodZones.id z
  /\ takes (StorageRest.pfz_name zone) (floodZones.name z) (floodZones.name z')
  /\ takes (StorageRest.pfz_district zone)
        (floodZones.district z) (floodZones.district z')
  /\ takes (StorageRest.pfz_latitude zone)
        (floodZones.latitude z) (floodZones.latitude z')
  /\ takes (StorageRest.pfz_longitude zone)
        (floodZones.longitude z) (floodZones.longitude z')
  /\ takes (StorageRest.pfz_riskLevel zone)
        (floodZones.riskLevel z) (floodZones.riskLevel z')
  /\ takes (StorageRest.pfz_radius zone) (floodZones.radius z) (floodZones.radius z')
  /\ takes_nullable (StorageRest.pfz_waterLevel zone)
        (floodZones.waterLevel z) (floodZones.waterLevel z')
  /\ takes_nullable (StorageRest.pfz_dangerMark zone)
        (floodZones.dangerMark z) (floodZones.dangerMark z')
  /\ takes_nullable (StorageRest.pfz_isActive zone)
        (floodZones.isActive z) (floodZones.isActive z')
  /\ floodZones.lastUpdated z' = Some date
  /\ floodZones.createdAt z' = floodZones.createdAt z.

(** The update names no [decimal] column of a flood zone, of a person. *)
Definition no_decimal_of_zone (zone : StorageRest.PartialInsertFloodZone) : Prop :=
  StorageRest.pfz_latitude zone = None
  /\ StorageRest.pfz_longitude zone = None
  /\ gives_no_value (StorageRest.pfz_waterLevel zone)
  /\ gives_no_value (StorageRest.pfz_dangerMark zone).

Definition no_decimal_of_person
    (updates : StorageRest.PartialInsertAffectedPopulation) : Prop :=
  gives_no_value (StorageRest.pap_latitude updates)
  /\ gives_no_value (StorageRest.pap_longitude updates).

(** Whether the zone counts as active after the update, told from the
    flag it had and the [isActive] of the update. *)
Definition active_after (zone : StorageRest.PartialInsertFloodZone)
    (z : floodZones.row) : bool :=
  match StorageRest.pfz_isActive zone with
  | undefined => Spec.active z
  | null => false
  | value b => b
  end.

End SpecRest.

(* ===================================================================== *)
(** * Sequences of all the writing calls *)
(* ===================================================================== *)

(** The calls of [Session] and the four updates.  [upsertUser], the one
    writing method left, writes to the table [users] only. *)
Module Journal.

Inductive Call : Type :=
| earlier (c : Session.Call)
| updateFloodZone (id : string) (zone : StorageRest.PartialInsertFloodZone)
    (date : Z)
| updateAffectedPerson (id : string)
    (updates : StorageRest.PartialInsertAffectedPopulation) (date : Z)
| updateResource (id : string) (updates : StorageRest.PartialInsertResource)
    (date : Z)
| updateResponseTeam (id : string)
    (updates : StorageRest.PartialInsertResponseTeam) (date : Z).

Definition step (db : DB) (c : Call) : DB :=
  match c with
  | earlier c => Session.step db c
  | updateFloodZone id zone date =>
      fst (StorageRest.updateFloodZone id zone date db)
  | updateAffectedPerson id updates date =>
      fst (StorageRest.updateAffectedPerson id updates date db)
  | updateResource id updates date =>
      fst (StorageRest.updateResource id updates date db)
  | updateResponseTeam id updates date =>
      fst (StorageRest.updateResponseTeam id updates date db)
  end.

Definition after (calls : list Call) (db : DB) : DB :=
  fold_left step calls db.

End Journal.

(* ===================================================================== *)
(** * Invariants of the database *)
(* ===================================================================== *)

Module Invariant.

(** No two rows of a table share an id. *)
Definition unique {A} (id_of : A -> string) (rows : list A) : Prop :=
  NoDup (map id_of rows).

Definition unique_ids (db : DB) : Prop :=
  unique users.id (t_users db)
  /\ unique floodZones.id (t_floodZones db)
  /\ unique affectedPopulation.id (t_affectedPopulation db)
  /\ unique resources.id (t_resources db)
  /\ unique reliefDistribution.id (t_reliefDistribution db)
  /\ unique weatherAlerts.id (t_weatherAlerts db)
  /\ unique responseTeams.id (t_responseTeams db)
  /\ unique activityLog.id (t_activityLog db).

(** A reference is [NULL] or names a row of the table it points into. *)
Definition refers {A} (id_of : A -> string) (rows : list A)
    (ref : option string) : Prop :=
  match ref with
  | None => True
  | Some i => DatabaseStorage.has_id id_of rows i = true
  end.

Definition references_hold (db : DB) : Prop :=
  (forall p, In p (t_affectedPopulation db) ->
     refers floodZones.id (t_floodZones db) (affectedPopulation.floodZoneId p)
     /\ refers users.id (t_users db) (affectedPopulation.registeredBy p))
  /\ (forall d, In d (t_reliefDistribution db) ->
        refers resources.id (t_resources db) (Some (reliefDistribution.resourceId d))
        /\ refers floodZones.id (t_floodZones db) (reliefDistribution.floodZoneId d)
        /\ refers users.id (t_users db) (reliefDistribution.distributedBy d))
  /\ (forall a, In a (t_weatherAlerts db) ->
        refers users.id (t_users db) (weatherAlerts.createdBy a))
  /\ (forall t, In t (t_responseTeams db) ->
        refers floodZones.id (t_floodZones db) (responseTeams.assignedZone t)
        /\ refers users.id (t_users db) (responseTeams.leadOfficer t))
  /\ (forall l, In l (t_activityLog db) ->
        refers users.id (t_users db) (activityLog.performedBy l)).

(** ** The flood map *)

(** No map on the page has a circle. *)
Definition bare (w : Client.Window) : Prop :=
  Forall (fun m => Client.layers m = []) (Client.maps w).

(** The effect of a mounted circle drew nothing, and the array it
    compared was made before [bound] arrays were. *)
Definition quiet (bound : nat) (c : Client.CircleInstance) : Prop :=
  Client.cleanup c = None
  /\ (Client.identity (Client.center (Client.last c)) < bound)%nat.

(** What holds of the browser between two renders of [FloodMap]: no map
    has a circle; while no [Map] is mounted [globalMapInstance] is
    [null]; while one is mounted, [globalMapInstance] is its map, which
    is there and empty, and no circle effect has drawn. *)
Definition between_renders (b : Client.Browser) : Prop :=
  bare (Client.window b)
  /\ match Client.mounted b with
     | Client.NoMap => Client.globalMapInstance (Client.window b) = None
     | Client.Mounted m cs =>
         (Client.identity (Client.last_center m) < Client.arrays b)%nat
         /\ Client.globalMapInstance (Client.window b) = Client.mapInstanceRef m
         /\ (exists h,
               Client.mapInstanceRef m = Some h
               /\ nth_error (Client.maps (Client.window b)) h
                  = Some {| Client.layers := []; Client.removed := false |})
         /\ Forall (quiet (Client.arrays b)) cs
     end.


(** No resource has more distributed than it holds, nor a negative or
    missing distributed quantity. *)
Definition within_stock (rows : list resources.row) : Prop :=
  forall r, In r rows ->
    exists d, resources.distributedQuantity r = Some d
              /\ 0 <= d <= resources.totalQuantity r.

End Invariant.

(* ===================================================================== *)
(** * What a handler calls *)
(* ===================================================================== *)

Module Calls.
Import Routes.

(** Every run of [p] makes calls and ends in an outcome that [P] relates. *)
Fixpoint traced {A} (p : Prog A)
    (P : list event -> exception + A -> Prop) : Prop :=
  match p with
  | Return a => P [] (inr a)
  | Throw e => P [] (inl e)
  | Await c k => forall r, traced (k r) (fun tr out => P (Called c :: tr) out)
  end.

(** The calls that write to the database. *)
Definition writes (e : event) : bool :=
  match e with
  | Called c =>
      match c with
      | upsertUser _ | createFloodZone _ | updateFloodZone _ _
      | createAffectedPerson _ | updateAffectedPerson _ _
      | createResource _ | updateResource _ _
      | createReliefDistribution _ | createWeatherAlert _
      | deactivateWeatherAlert _ | createResponseTeam _
      | updateResponseTeam _ _ | logActivity _ => true
      | _ => false
      end
  end.

(** The activity a call logs, when the call is [logActivity]. *)
Definition logged (e : event) : option InsertActivityLog :=
  match e with
  | Called (logActivity a) => Some a
  | _ => None
  end.

(** The user a create call names as the author of the row. *)
Definition author (e : event) : option (optional string) :=
  match e with
  | Called (createAffectedPerson p) => Some (iap_registeredBy p)
  | Called (createReliefDistribution d) => Some (ird_distributedBy d)
  | Called (createWeatherAlert a) => Some (iwa_createdBy a)
  | Called (createResponseTeam t) => Some (irt_leadOfficer t)
  | _ => None
  end.

End Calls.

(* ===================================================================== *)
(** * The keys of the insert schemas *)
(* ===================================================================== *)

Module ZodRest.

(** The keys each insert schema reads: the columns of the table less the
    ones [omit] leaves out ([id] and the timestamps the database sets). *)
Definition fields (s : Spec.Schema) : list string :=
  match s with
  | Spec.FloodZone =>
      ["name"; "district"; "latitude"; "longitude"; "riskLevel"; "radius";
       "waterLevel"; "dangerMark"; "isActive"]
  | Spec.AffectedPopulation =>
      ["name"; "age"; "gender"; "phoneNumber"; "address"; "latitude";
       "longitude"; "floodZoneId"; "evacuationStatus"; "medicalNeeds";
       "familyMembers"; "registeredBy"]
  | Spec.Resource =>
      ["name"; "type"; "unit"; "totalQuantity"; "allocatedQuantity";
       "distributedQuantity"; "priority"; "location"; "expiryDate"]
  | Spec.ReliefDistribution =>
      ["resourceId"; "floodZoneId"; "quantity"; "distributedTo";
       "distributedBy"; "recipientCount"; "notes"; "status"]
  | Spec.WeatherAlert =>
      ["type"; "severity"; "title"; "message"; "affectedArea"; "validUntil";
       "isActive"; "createdBy"]
  | Spec.ResponseTeam =>
      ["name"; "type"; "status"; "currentLocation"; "assignedZone";
       "memberCount"; "contactNumber"; "leadOfficer"]
  end.

End ZodRest.

(* ===================================================================== *)
(** * The rest of the flood map, and the risk colours of the analytics page *)
(* ===================================================================== *)

Module ClientRest.

Definition getRiskBadgeVariant (riskLevel : string) : string :=
  if String.eqb riskLevel "high" then "destructive"
  else if String.eqb riskLevel "medium" then "secondary"
  else if String.eqb riskLevel "low" then "default"
  else "outline".

(** One line of the zone list laid over the map: name, badge variant,
    badge text. *)
Record OverlayLine : Type := {
  line_name : string;
  line_variant : string;
  line_text : string
}.

(** The overlay: nothing for an empty list, else the first five zones and,
    beyond five, the number announced as "+n more zones". *)
Definition overlay (floodZones : list floodZones.row)
    : option (list OverlayLine * option Z) :=
  let length := Z.of_nat (List.length floodZones) in
  if 0 <? length then
    Some (map (fun zone =>
                 {| line_name := floodZones.name zone;
                    line_variant := getRiskBadgeVariant (floodZones.riskLevel zone);
                    line_text := floodZones.riskLevel zone |})
              (firstn 5 floodZones),
          if 5 <? length then Some (length - 5) else None)
  else None.

(** The colour of a slice of the risk chart of the analytics page:
    [risk === 'high' ? '#dc2626' : risk === 'medium' ? '#ea580c' : '#16a34a'] *)
Definition risk_chart_color (risk : string) : string :=
  if String.eqb risk "high" then "#dc2626"
  else if String.eqb risk "medium" then "#ea580c"
  else "#16a34a".

(** [Header]: [alerts.filter(alert => alert.isActive).length], on the
    alerts fetched from [/api/weather-alerts]. *)
Definition activeAlertsCount (alerts : list weatherAlerts.row) : Z :=
  Z.of_nat (List.length
              (filter (fun alert =>
                         match weatherAlerts.isActive alert with
                         | Some true => true
                         | _ => false
                         end) alerts)).

(** [ActivitiesFeed]: the dot and the badge of an activity, by its type. *)
Definition getActivityColor (type : string) : string :=
  if String.eqb type "distribution" || String.eqb type "relief_distribution"
  then "bg-success"
  else if String.eqb type "registration" || String.eqb type "population_registration"
  then "bg-primary"
  else if String.eqb type "alert_creation" || String.eqb type "alert"
  then "bg-warning"
  else if String.eqb type "evacuation" then "bg-destructive"
  else "bg-muted-foreground".

Definition getActivityBadgeVariant (type : string) : string :=
  if String.eqb type "distribution" || String.eqb type "relief_distribution"
  then "default"
  else if String.eqb type "registration" || String.eqb type "population_registration"
  then "secondary"
  else if String.eqb type "alert_creation" || String.eqb type "alert"
  then "destructive"
  else if String.eqb type "evacuation" then "destructive"
  else "outline".

(** The population page: the rows shown under a status filter, and the
    counters of the statistic cards. *)
Definition filteredPopulation (statusFilter : string)
    (population : list affectedPopulation.row) : list affectedPopulation.row :=
  if String.eqb statusFilter "all" then population
  else filter (fun p => String.eqb (affectedPopulation.evacuationStatus p) statusFilter)
              population.

Definition with_status (status : string)
    (population : list affectedPopulation.row) : Z :=
  Z.of_nat (List.length
              (filter (fun p => String.eqb (affectedPopulation.evacuationStatus p) status)
                      population)).

Definition stats_total (population : list affectedPopulation.row) : Z :=
  Z.of_nat (List.length population).
Definition stats_evacuated := with_status "evacuated".
Definition stats_sheltered := with_status "sheltered".
Definition stats_atRisk := with_status "at_risk".
Definition stats_safe := with_status "safe".

End ClientRest.

(* ===================================================================== *)
(** * More sample data *)
(* ===================================================================== *)

Module SampleRest.

Definition kuttanad : InsertFloodZone :=
  {| ifz_name := "Kuttanad"; ifz_district := "Alappuzha";
     ifz_latitude := "9.4981"; ifz_longitude := "76.3388";
     ifz_riskLevel := "high"; ifz_radius := 5000;
     ifz_waterLevel := undefined; ifz_dangerMark := undefined;
     ifz_isActive := undefined |}.

(** The update that only switches a zone off. *)
Definition switch_off : StorageRest.PartialInsertFloodZone :=
  {| StorageRest.pfz_name := None; StorageRest.pfz_district := None;
     StorageRest.pfz_latitude := None; StorageRest.pfz_longitude := None;
     StorageRest.pfz_riskLevel := None; StorageRest.pfz_radius := None;
     StorageRest.pfz_waterLevel := undefined;
     StorageRest.pfz_dangerMark := undefined;
     StorageRest.pfz_isActive := value false |}.

(** A zone, a resource, a distribution of it in the zone, an update. *)
Definition in_the_zone : InsertReliefDistribution :=
  {| ird_resourceId := "r1"; ird_floodZoneId := value "z1";
     ird_quantity := 4; ird_distributedTo := undefined;
     ird_distributedBy := undefined; ird_recipientCount := value 12;
     ird_notes := undefined; ird_status := undefined |}.

Definition busy_day : list Journal.Call :=
  [ Journal.earlier (Session.createFloodZone "z1" 10 kuttanad);
    Journal.earlier (Session.createResource "r1" 20 Sample.rice);
    Journal.earlier (Session.createReliefDistribution "d1" 30 31 in_the_zone);
    Journal.updateFloodZone "z1" switch_off 40;
    Journal.earlier (Session.createResource "r1" 50 Sample.brimful) ].

(** A world in which deactivating an alert and writing the log go
    through.  Nothing else is answered. *)
Definition obliging : Routes.oracle unit :=
  fun X c w =>
    match c in Routes.call X return unit * (Routes.exception + X) with
    | Routes.deactivateWeatherAlert _ => (w, inr tt)
    | Routes.logActivity a =>
        (w, inr {| activityLog.id := "l1";
                   activityLog.type := ial_type a;
                   activityLog.description := ial_description a;
                   activityLog.entityType := to_column (ial_entityType a);
                   activityLog.entityId := to_column (ial_entityId a);
                   activityLog.performedBy := to_column (ial_performedBy a);
                   activityLog.location := to_column (ial_location a);
                   activityLog.metadata := to_column (ial_metadata a);
                   activityLog.createdAt := Some 100 |})
    | _ => (w, inl Routes.NetworkError)
    end.

End SampleRest.

(* ===================================================================== *)
(** * Properties *)
(* ===================================================================== *)

(** ** SQL aggregates *)

Lemma SUM_total : forall rows,
  Sql.SUM (map (fun r => Some (resources.totalQuantity r)) rows)
  = match rows with
    | [] => None
    | _ :: _ => Some (Spec.total_of rows)
    end.
Proof.
  induction rows as [|r rest IH]; [reflexivity|].
  simpl. rewrite IH. destruct rest; simpl; f_equal; lia.
Qed.

Lemma SUM_distributed_null : forall rows,
  (forall r, In r rows -> resources.distributedQuantity r = None) ->
  Sql.SUM (map resources.distributedQuantity rows) = None.
Proof.
  induction rows as [|r rest IH]; intros H; [reflexivity|].
  simpl. rewrite (H r (or_introl eq_refl)). apply IH.
  intros r' Hr'. apply H. now right.
Qed.

Lemma SUM_distributed : forall rows,
  (exists r, In r rows /\ resources.distributedQuantity r <> None) ->
  Sql.SUM (map resources.distributedQuantity rows) = Some (Spec.distributed_of rows).
Proof.
  induction rows as [|r rest IH]; intros (r0 & Hin & Hr0).
  - destruct Hin.
  - simpl. destruct (resources.distributedQuantity r) as [d|] eqn:Hd.
    + destruct (Sql.SUM (map resources.distributedQuantity rest)) as [s|] eqn:Hs.
      * assert (Hex : exists r1, In r1 rest /\ resources.distributedQuantity r1 <> None).
        { clear - Hs. induction rest as [|a rest IH]; [discriminate|].
          simpl in Hs. destruct (resources.distributedQuantity a) eqn:Ha.
          - exists a. split; [now left|congruence].
          - destruct (IH Hs) as (r1 & H1 & H2). exists r1. split; [now right|assumption]. }
        specialize (IH Hex). injection IH as ->. reflexivity.
      * f_equal.
        assert (Hz : Spec.distributed_of rest = 0).
        { clear - Hs. induction rest as [|a rest IH]; [reflexivity|].
          simpl in *. destruct (resources.distributedQuantity a).
          - destruct (Sql.SUM (map resources.distributedQuantity rest)); discriminate.
          - auto. }
        lia.
    + apply IH. destruct Hin as [<-|Hin]; [congruence|]. now exists r0.
Qed.

(** [ROUND] returns an integer nearest to the quotient. *)
Lemma round_div_nearest : forall n d,
  d <> 0 -> Spec.nearest (Sql.round_div n d) n d.
Proof.
  intros n d Hd. unfold Spec.nearest, Sql.round_div.
  assert (Hpos : 0 < 2 * Z.abs d) by lia.
  pose proof (Z.mul_div_le (2 * Z.abs n + Z.abs d) _ Hpos) as Hlo.
  pose proof (Z.mul_succ_div_gt (2 * Z.abs n + Z.abs d) _ Hpos) as Hhi.
  set (q := (2 * Z.abs n + Z.abs d) / (2 * Z.abs d)) in *.
  destruct (Z.lt_trichotomy n 0) as [Hn|[Hn|Hn]];
    destruct (Z.lt_trichotomy d 0) as [Hd'|[Hd'|Hd']]; try lia;
    try (rewrite (Z.sgn_neg n) by lia); try (rewrite (Z.sgn_pos n) by lia);
    try (rewrite (Z.sgn_neg d) by lia); try (rewrite (Z.sgn_pos d) by lia);
    try (subst n; simpl Z.sgn);
    try (rewrite (Z.abs_neq n) in * by lia); try (rewrite (Z.abs_eq n) in * by lia);
    try (rewrite (Z.abs_neq d) in * by lia); try (rewrite (Z.abs_eq d) in * by lia);
    lia.
Qed.

(** A tie is rounded away from zero. *)
Lemma round_div_tie : forall k,
  Sql.round_div (2 * k + 1) 2 = (if 0 <=? k then k + 1 else k).
Proof.
  intros k. unfold Sql.round_div.
  destruct (0 <=? k) eqn:Hk.
  - apply Z.leb_le in Hk. rewrite Z.sgn_pos by lia. simpl Z.sgn. simpl (Z.abs 2).
    rewrite Z.abs_eq by lia.
    replace (2 * (2 * k + 1) + 2) with ((k + 1) * (2 * 2)) by lia.
    rewrite Z.div_mul by lia. lia.
  - apply Z.leb_gt in Hk. rewrite Z.sgn_neg by lia. simpl Z.sgn. simpl (Z.abs 2).
    rewrite Z.abs_neq by lia.
    replace (2 * - (2 * k + 1) + 2) with ((- k) * (2 * 2)) by lia.
    rewrite Z.div_mul by lia. lia.
Qed.

(** The percentage query never divides by zero. *)
Lemma relief_percentage_total : forall rows,
  exists p, DatabaseStorage.relief_percentage rows = Sql.Ok p.
Proof.
  intros rows. unfold DatabaseStorage.relief_percentage.
  destruct (Sql.SUM (map (fun r => Some (resources.totalQuantity r)) rows)) as [t|];
    simpl.
  - destruct (t =? 0) eqn:Ht; simpl; [eauto|].
    destruct (Sql.SUM (map resources.distributedQuantity rows)); simpl.
    + rewrite Ht. eauto.
    + eauto.
  - destruct (Sql.SUM (map resources.distributedQuantity rows)); simpl; eauto.
Qed.

(** The percentage over a table with stock and some distributed quantity. *)
Lemma relief_percentage_ratio : forall rows,
  Spec.total_of rows <> 0 ->
  (exists r, In r rows /\ resources.distributedQuantity r <> None) ->
  DatabaseStorage.relief_percentage rows
  = Sql.Ok (Some (Sql.round_div (Spec.distributed_of rows * 100) (Spec.total_of rows))).
Proof.
  intros rows HT Hex. unfold DatabaseStorage.relief_percentage.
  rewrite SUM_total, (SUM_distributed rows Hex).
  destruct rows as [|r rest]; [destruct Hex as (? & [] & _)|].
  cbv beta iota. unfold Sql.eq_int, Sql.is_true, Sql.round_percent.
  apply Z.eqb_neq in HT. rewrite HT. reflexivity.
Qed.

(** The percentage is 0 when the table has rows and no stock in total. *)
Lemma relief_percentage_zero : forall rows,
  rows <> [] -> Spec.total_of rows = 0 ->
  DatabaseStorage.relief_percentage rows = Sql.Ok (Some 0).
Proof.
  intros rows Hne HT. unfold DatabaseStorage.relief_percentage.
  rewrite SUM_total. destruct rows; [congruence|]. rewrite HT. reflexivity.
Qed.

(** The percentage is [NULL] when no row carries a distributed quantity,
    in particular over no row at all. *)
Lemma relief_percentage_null : forall rows,
  (forall r, In r rows -> resources.distributedQuantity r = None) ->
  Spec.total_of rows <> 0 \/ rows = [] ->
  DatabaseStorage.relief_percentage rows = Sql.Ok None.
Proof.
  intros rows Hnull HT. unfold DatabaseStorage.relief_percentage.
  rewrite SUM_total, (SUM_distributed_null rows Hnull).
  destruct rows as [|r rest]; [reflexivity|].
  destruct HT as [HT|HT]; [|discriminate HT].
  cbv beta iota. unfold Sql.eq_int, Sql.is_true.
  apply Z.eqb_neq in HT. rewrite HT. reflexivity.
Qed.

(** ** Dashboard statistics *)

Lemma where_active : forall rows,
  Sql.where_ (fun r => Sql.eq_bool (floodZones.isActive r) (Some true)) rows
  = filter Spec.active rows.
Proof.
  intros rows. unfold Sql.where_. apply filter_ext. intros r.
  unfold Spec.active. destruct (floodZones.isActive r) as [[|]|]; reflexivity.
Qed.

(** C1. [getDashboardStats] always returns, and returns four aggregates of
    the stored tables: the number of flood zones whose [isActive] is true,
    the number of rows of the affected population, the number of response
    teams, and a percentage computed from the resource rows alone, which,
    when the table holds stock and some distributed quantity, is an integer
    nearest to 100 times the distributed sum over the total sum. *)
Theorem getDashboardStats_aggregates : forall db,
  exists stats,
    DatabaseStorage.getDashboardStats db = Sql.Ok stats
    /\ DatabaseStorage.activeZones stats
       = Z.of_nat (List.length (filter Spec.active (t_floodZones db)))
    /\ DatabaseStorage.affectedPeople stats
       = Z.of_nat (List.length (t_affectedPopulation db))
    /\ DatabaseStorage.responseTeams stats
       = Z.of_nat (List.length (t_responseTeams db))
    /\ DatabaseStorage.relief_percentage (t_resources db)
       = Sql.Ok (DatabaseStorage.reliefDistributed stats)
    /\ (Spec.total_of (t_resources db) <> 0 ->
        (exists r, In r (t_resources db) /\ resources.distributedQuantity r <> None) ->
        exists p,
          DatabaseStorage.reliefDistributed stats = Some p
          /\ Spec.nearest p (Spec.distributed_of (t_resources db) * 100)
                            (Spec.total_of (t_resources db))).
Proof.
  intros db. unfold DatabaseStorage.getDashboardStats.
  destruct (relief_percentage_total (t_resources db)) as (p & Hp).
  rewrite Hp. simpl. eexists. split; [reflexivity|]. simpl.
  rewrite where_active. repeat split.
  intros HT Hex. rewrite (relief_percentage_ratio _ HT Hex) in Hp.
  injection Hp as <-. eexists. split; [reflexivity|].
  now apply round_div_nearest.
Qed.

Lemma getDashboardStats_aggregates_witness :
  exists stats,
    DatabaseStorage.getDashboardStats (Session.after Sample.overdrawn emptyDB)
    = Sql.Ok stats
    /\ exists p, DatabaseStorage.reliefDistributed stats = Some p
                 /\ Spec.nearest p (20 * 100) 10.
Proof.
  destruct (getDashboardStats_aggregates (Session.after Sample.overdrawn emptyDB))
    as (stats & Hs & _ & _ & _ & _ & Hp).
  exists stats. split; [exact Hs|].
  apply Hp.
  - vm_compute. discriminate.
  - eexists. split; [left; reflexivity|]. vm_compute. discriminate.
Defined.

(** C2, at the input where the code departs from it.  Over an empty
    resource table [SUM] is [NULL], the guard [SUM(...) = 0] is not true,
    and the [ELSE] branch yields [NULL]: the percentage is [NULL], not 0. *)
Theorem reliefDistributed_null_without_resources :
  DatabaseStorage.getDashboardStats emptyDB
  = Sql.Ok {| DatabaseStorage.activeZones := 0;
              DatabaseStorage.affectedPeople := 0;
              DatabaseStorage.reliefDistributed := None;
              DatabaseStorage.responseTeams := 0 |}.
Proof. reflexivity. Qed.

(** ** Relief distribution *)

(** Case analysis on the checks a statement runs one after the other. *)
Ltac run_checks H :=
  repeat match type of H with
         | context [Sql.bind ?c _] =>
             let E := fresh "Hcheck" in
             destruct c eqn:E; cbn [Sql.bind] in H; try discriminate H
         end.

Lemma has_id_In : forall (A : Type) (id_of : A -> string) rows i,
  DatabaseStorage.has_id id_of rows i = true ->
  exists r, In r rows /\ id_of r = i.
Proof.
  intros A id_of rows i H. unfold DatabaseStorage.has_id in H.
  apply existsb_exists in H. destruct H as (r & Hin & Heq).
  exists r. split; [assumption|]. now apply String.eqb_eq.
Qed.

Lemma insert_reliefDistribution_ok : forall uuid now distribution db db1 row,
  DatabaseStorage.insert_reliefDistribution uuid now distribution db = (db1, Sql.Ok row) ->
  t_reliefDistribution db1 = (t_reliefDistribution db ++ [row])%list
  /\ reliefDistribution.id row = uuid
  /\ reliefDistribution.resourceId row = ird_resourceId distribution
  /\ reliefDistribution.quantity row = ird_quantity distribution
  /\ (exists r, In r (t_resources db) /\ resources.id r = ird_resourceId distribution)
  /\ t_users db1 = t_users db
  /\ t_floodZones db1 = t_floodZones db
  /\ t_affectedPopulation db1 = t_affectedPopulation db
  /\ t_resources db1 = t_resources db
  /\ t_weatherAlerts db1 = t_weatherAlerts db
  /\ t_responseTeams db1 = t_responseTeams db
  /\ t_activityLog db1 = t_activityLog db.
Proof.
  intros uuid now distribution db db1 row H.
  unfold DatabaseStorage.insert_reliefDistribution, DatabaseStorage.statement in H.
  match type of H with
  | (match ?s with _ => _ end) = _ => destruct s as [[db2 row2]|e] eqn:Hs
  end; [|discriminate H].
  injection H as -> ->.
  cbv zeta in Hs. run_checks Hs.
  injection Hs as <- <-. cbn.
  repeat split.
  unfold DatabaseStorage.check_references in Hcheck2.
  destruct (DatabaseStorage.has_id resources.id (t_resources db)
              (ird_resourceId distribution)) eqn:Hid; [|discriminate].
  now apply has_id_In.
Qed.

Lemma update_where_id_ok : forall i quantity date rows rows',
  DatabaseStorage.update_where_id i (DatabaseStorage.set_distributed quantity date) rows
  = Sql.Ok rows' ->
  Forall2 (fun r r' =>
             if String.eqb (resources.id r) i
             then Spec.distributed_onto quantity date r r'
             else r' = r) rows rows'.
Proof.
  intros i quantity date. induction rows as [|r rest IH]; intros rows' H.
  - injection H as <-. constructor.
  - cbn [DatabaseStorage.update_where_id] in H.
    destruct (String.eqb (resources.id r) i) eqn:Hi.
    + unfold DatabaseStorage.set_distributed in H at 1.
      destruct (resources.distributedQuantity r) as [d|] eqn:Hd; cbn in H.
      * destruct (Sql.int4_ok (d + quantity)); cbn in H; [|discriminate].
        destruct (DatabaseStorage.update_where_id i _ rest) as [rest'|] eqn:Hrest;
          cbn in H; [|discriminate].
        injection H as <-. constructor; [|now apply IH].
        rewrite Hi. unfold Spec.distributed_onto. cbn. rewrite Hd.
        repeat split.
      * destruct (DatabaseStorage.update_where_id i _ rest) as [rest'|] eqn:Hrest;
          cbn in H; [|discriminate].
        injection H as <-. constructor; [|now apply IH].
        rewrite Hi. unfold Spec.distributed_onto. cbn. rewrite Hd.
        repeat split.
    + cbn in H.
      destruct (DatabaseStorage.update_where_id i _ rest) as [rest'|] eqn:Hrest;
        cbn in H; [|discriminate].
      injection H as <-. constructor; [|now apply IH].
      now rewrite Hi.
Qed.

(** C3. When [createReliefDistribution] returns, the new row has been
    appended to the distributions; the resource table has the same rows in
    the same order, where a row whose id is the distribution's [resourceId]
    (there is one) has the quantity added to [distributedQuantity] (SQL
    addition: a [NULL] stays [NULL]) and [updatedAt] set to the current
    date, with every other column as before, and any other row is as
    before; the other tables are as before. *)
Theorem createReliefDistribution_effect :
  forall uuid now date distribution db db' row,
    DatabaseStorage.createReliefDistribution uuid now date distribution db
    = (db', Sql.Ok row) ->
    t_reliefDistribution db' = (t_reliefDistribution db ++ [row])%list
    /\ reliefDistribution.resourceId row = ird_resourceId distribution
    /\ reliefDistribution.quantity row = ird_quantity distribution
    /\ (exists r, In r (t_resources db)
                  /\ resources.id r = ird_resourceId distribution)
    /\ Forall2 (fun r r' =>
                  if String.eqb (resources.id r) (ird_resourceId distribution)
                  then Spec.distributed_onto (ird_quantity distribution) date r r'
                  else r' = r)
               (t_resources db) (t_resources db')
    /\ t_users db' = t_users db
    /\ t_floodZones db' = t_floodZones db
    /\ t_affectedPopulation db' = t_affectedPopulation db
    /\ t_weatherAlerts db' = t_weatherAlerts db
    /\ t_responseTeams db' = t_responseTeams db
    /\ t_activityLog db' = t_activityLog db.
Proof.
  intros uuid now date distribution db db' row H.
  unfold DatabaseStorage.createReliefDistribution in H.
  destruct (DatabaseStorage.insert_reliefDistribution uuid now distribution db)
    as [db1 [row1|e]] eqn:Hins; [|discriminate H].
  apply insert_reliefDistribution_ok in Hins.
  destruct Hins as (Hd & _ & Hrid & Hq & Hex & Hu & Hz & Hp & Hr & Hw & Ht & Ha).
  unfold DatabaseStorage.update_resource_quantities, DatabaseStorage.statement in H.
  destruct (DatabaseStorage.update_where_id (ird_resourceId distribution)
              (DatabaseStorage.set_distributed (ird_quantity distribution) date)
              (t_resources db1)) as [rows'|e] eqn:Hupd; cbn in H; [|discriminate H].
  injection H as <- <-. cbn.
  rewrite Hr in Hupd. apply update_where_id_ok in Hupd.
  repeat split; assumption.
Qed.

Lemma createReliefDistribution_effect_witness :
  exists db' row,
    DatabaseStorage.createReliefDistribution "d1" 2000 2001 Sample.twenty
      (Session.after Sample.stocked emptyDB) = (db', Sql.Ok row)
    /\ t_reliefDistribution db' = [row]
    /\ reliefDistribution.quantity row = 20.
Proof.
  destruct (DatabaseStorage.createReliefDistribution "d1" 2000 2001 Sample.twenty
              (Session.after Sample.stocked emptyDB)) as [db' [row|e]] eqn:H.
  - exists db', row. split; [reflexivity|].
    destruct (createReliefDistribution_effect _ _ _ _ _ H) as (Hd & _ & Hq & _).
    split; [exact Hd | exact Hq].
  - exfalso. vm_compute in H. discriminate H.
Defined.

(** The two statements of [createReliefDistribution] are not one
    transaction: when the update of the resource overflows, the method
    throws and the distribution row inserted before stays. *)
Lemma createReliefDistribution_throws_after_insert :
  let out :=
    DatabaseStorage.createReliefDistribution "d1" 2000 2001 Sample.twenty
      (Session.after [Session.createResource "r1" 1000 Sample.brimful] emptyDB) in
  snd out = Sql.Err Sql.numeric_value_out_of_range
  /\ List.length (t_reliefDistribution (fst out)) = 1%nat.
Proof. vm_compute. split; reflexivity. Qed.

Lemma update_where_id_returns : forall i quantity date rows,
  (forall r, In r rows -> resources.id r = i ->
     exists dq,
       Sql.int4_add (resources.distributedQuantity r) (Some quantity) = Sql.Ok dq) ->
  exists rows',
    DatabaseStorage.update_where_id i (DatabaseStorage.set_distributed quantity date) rows
    = Sql.Ok rows'.
Proof.
  intros i quantity date. induction rows as [|r rest IH]; intros H.
  - now exists [].
  - destruct IH as [rest' Hrest]; [intros r0 Hin; apply H; now right|].
    cbn [DatabaseStorage.update_where_id]. rewrite Hrest.
    destruct (String.eqb (resources.id r) i) eqn:Hi.
    + apply String.eqb_eq in Hi.
      destruct (H r (or_introl eq_refl) Hi) as [dq Hdq].
      unfold DatabaseStorage.set_distributed. rewrite Hdq. cbn [Sql.bind].
      eexists. reflexivity.
    + cbn [Sql.bind]. eexists. reflexivity.
Qed.

Lemma Forall2_In_left : forall (A B : Type) (R : A -> B -> Prop) l l' a,
  Forall2 R l l' -> In a l -> exists b, In b l' /\ R a b.
Proof.
  intros A B R l l' a H. induction H as [|x y l l' Hxy _ IH]; intros Hin.
  - destruct Hin.
  - destruct Hin as [<-|Hin].
    + exists y. split; [now left|exact Hxy].
    + destruct (IH Hin) as (b & Hb & HR). exists b. split; [now right|exact HR].
Qed.

(** C9. No stock check stands in the way of a distribution.  Whenever
    the distribution row itself can be inserted, [createReliefDistribution]
    returns, also when the resource is within its stock before the call
    and the distribution asks for more than is left: the call then leaves
    the resource with more distributed than it holds (the 32-bit range of
    the column is the only bound).  This happens from the empty database:
    after a resource of 10 units is created nothing is overdrawn and the
    dashboard shows 0; a distribution of 20 units of it returns, the
    resource then has 20 of 10 distributed, and the dashboard shows 200. *)
Theorem distribution_can_exceed_stock :
  (forall uuid now date distribution db db1 row r d,
      DatabaseStorage.insert_reliefDistribution uuid now distribution db
      = (db1, Sql.Ok row) ->
      (forall r0, In r0 (t_resources db) ->
                  resources.id r0 = ird_resourceId distribution -> r0 = r) ->
      resources.distributedQuantity r = Some d ->
      0 <= d <= resources.totalQuantity r ->
      resources.totalQuantity r < d + ird_quantity distribution <= Sql.int4_max ->
      exists db' r',
        DatabaseStorage.createReliefDistribution uuid now date distribution db
        = (db', Sql.Ok row)
        /\ In r (t_resources db)
        /\ In r' (t_resources db')
        /\ resources.id r' = ird_resourceId distribution
        /\ resources.totalQuantity r' = resources.totalQuantity r
        /\ resources.distributedQuantity r' = Some (d + ird_quantity distribution)
        /\ resources.totalQuantity r' < d + ird_quantity distribution)
  /\ exists (calls : list Session.Call) uuid now date distribution,
       let db := Session.after calls emptyDB in
       Invariant.within_stock (t_resources db)
       /\ (exists stats,
             DatabaseStorage.getDashboardStats db = Sql.Ok stats
             /\ DatabaseStorage.reliefDistributed stats = Some 0)
       /\ 0 < ird_quantity distribution
       /\ exists db' row,
            DatabaseStorage.createReliefDistribution uuid now date distribution db
            = (db', Sql.Ok row)
            /\ (exists r d,
                  In r (t_resources db')
                  /\ resources.id r = ird_resourceId distribution
                  /\ resources.distributedQuantity r = Some d
                  /\ resources.totalQuantity r < d)
            /\ (exists stats p,
                  DatabaseStorage.getDashboardStats db' = Sql.Ok stats
                  /\ DatabaseStorage.reliefDistributed stats = Some p
                  /\ 100 < p).
Proof.
  split.
  - intros uuid now date distribution db db1 row r d Hins Honly Hd Hstock Hmore.
    pose proof Hins as Hok. apply insert_reliefDistribution_ok in Hok.
    destruct Hok as (_ & _ & _ & _ & (r0 & Hin0 & Hid0) & _ & _ & _ & Hres & _).
    assert (Hr : r0 = r) by (now apply Honly). subst r0.
    assert (Hadd : Sql.int4_add (resources.distributedQuantity r)
                     (Some (ird_quantity distribution))
                   = Sql.Ok (Some (d + ird_quantity distribution))).
    { rewrite Hd. unfold Sql.int4_add, Sql.int4_ok, Sql.int4_min.
      unfold Sql.int4_max in Hmore.
      replace (- 2147483648 <=? d + ird_quantity distribution) with true
        by (symmetry; apply Z.leb_le; lia).
      replace (d + ird_quantity distribution <=? Sql.int4_max) with true
        by (symmetry; apply Z.leb_le; unfold Sql.int4_max; lia).
      reflexivity. }
    destruct (@update_where_id_returns (ird_resourceId distribution)
                (ird_quantity distribution) date (t_resources db1)) as [rows' Hupd].
    { rewrite Hres. intros r1 Hin1 Hid1.
      rewrite (Honly r1 Hin1 Hid1). eexists. exact Hadd. }
    pose proof Hupd as Hall. apply update_where_id_ok in Hall.
    rewrite Hres in Hall.
    destruct (@Forall2_In_left _ _ _ _ _ r Hall Hin0) as (r' & Hin' & Hrel).
    rewrite Hid0, String.eqb_refl in Hrel.
    destruct Hrel as (Hdq & _ & Hid' & _ & _ & _ & Htot & _).
    eexists. exists r'.
    unfold DatabaseStorage.createReliefDistribution. rewrite Hins.
    unfold DatabaseStorage.update_resource_quantities, DatabaseStorage.statement.
    rewrite Hupd. cbn [Sql.bind t_resources].
    split; [reflexivity|].
    split; [exact Hin0|]. split; [exact Hin'|].
    split; [now rewrite Hid'|]. split; [exact Htot|].
    split; [now rewrite Hdq, Hd|]. rewrite Htot. lia.
  - exists Sample.stocked, "d1", 2000, 2001, Sample.twenty. cbv zeta.
    split; [|split; [|split]].
    + intros r Hin. vm_compute in Hin. destruct Hin as [<-|[]].
      exists 0. split; [reflexivity|]. vm_compute. split; discriminate.
    + eexists. split; vm_compute; reflexivity.
    + reflexivity.
    + eexists. eexists. split; [vm_compute; reflexivity|]. split.
      * eexists. exists 20. split; [left; reflexivity|].
        vm_compute. repeat split.
      * eexists. exists 200. vm_compute. repeat split.
Qed.

Lemma distribution_can_exceed_stock_witness :
  exists db' r',
    DatabaseStorage.createReliefDistribution "d1" 2000 2001 Sample.twenty
      (Session.after Sample.stocked emptyDB)
    = (db', Sql.Ok
              {| reliefDistribution.id := "d1";
                 reliefDistribution.resourceId := "r1";
                 reliefDistribution.floodZoneId := None;
                 reliefDistribution.quantity := 20;
                 reliefDistribution.distributedTo := Some "Shelter A";
                 reliefDistribution.distributedBy := None;
                 reliefDistribution.distributionDate := Some 2000;
                 reliefDistribution.recipientCount := None;
                 reliefDistribution.notes := None;
                 reliefDistribution.status := Some "completed";
                 reliefDistribution.createdAt := Some 2000 |})
    /\ In r' (t_resources db')
    /\ resources.id r' = "r1"
    /\ resources.totalQuantity r' = 10
    /\ resources.distributedQuantity r' = Some (0 + 20)
    /\ resources.totalQuantity r' < 0 + 20.
Proof.
  destruct distribution_can_exceed_stock as [Hno_check _].
  set (db := Session.after Sample.stocked emptyDB).
  set (rice := {| resources.id := "r1"; resources.name := "Rice";
                  resources.type := "food"; resources.unit := "packets";
                  resources.totalQuantity := 10;
                  resources.allocatedQuantity := Some 0;
                  resources.distributedQuantity := Some 0;
                  resources.priority := "high"; resources.location := None;
                  resources.expiryDate := None;
                  resources.createdAt := Some 1000;
                  resources.updatedAt := Some 1000 |}).
  assert (Hins : DatabaseStorage.insert_reliefDistribution "d1" 2000 Sample.twenty db
                 = (fst (DatabaseStorage.insert_reliefDistribution "d1" 2000
                           Sample.twenty db),
                    Sql.Ok {| reliefDistribution.id := "d1";
                              reliefDistribution.resourceId := "r1";
                              reliefDistribution.floodZoneId := None;
                              reliefDistribution.quantity := 20;
                              reliefDistribution.distributedTo := Some "Shelter A";
                              reliefDistribution.distributedBy := None;
                              reliefDistribution.distributionDate := Some 2000;
                              reliefDistribution.recipientCount := None;
                              reliefDistribution.notes := None;
                              reliefDistribution.status := Some "completed";
                              reliefDistribution.createdAt := Some 2000 |}))
    by reflexivity.
  assert (Honly : forall r0, In r0 (t_resources db) ->
                             resources.id r0 = ird_resourceId Sample.twenty ->
                             r0 = rice).
  { intros r0 Hin _. vm_compute in Hin. destruct Hin as [<-|[]]. reflexivity. }
  assert (Hd : resources.distributedQuantity rice = Some 0) by reflexivity.
  assert (Hstock : 0 <= 0 <= resources.totalQuantity rice)
    by (vm_compute; split; discriminate).
  assert (Hmore : resources.totalQuantity rice < 0 + ird_quantity Sample.twenty
                  <= Sql.int4_max)
    by (vm_compute; split; [reflexivity|discriminate]).
  destruct (Hno_check "d1" 2000 2001 Sample.twenty db _ _ rice 0
              Hins Honly Hd Hstock Hmore)
    as (db' & r' & Hcall & _ & Hafter & Hid & Htotal & Hdistributed & Hover).
  exists db', r'. repeat split; assumption.
Defined.

(** ** Ordering *)

Section OrderByFacts.
Variable A : Type.
Variable key : A -> option Z.

Lemma insert_desc_perm : forall r l,
  Permutation (Sql.insert_desc key r l) (r :: l).
Proof.
  intros r. induction l as [|h t IH]; simpl; [reflexivity|].
  destruct (Sql.desc_lt (key r) (key h)); [|reflexivity].
  rewrite IH. apply perm_swap.
Qed.

Lemma orderBy_desc_perm : forall l, Permutation (Sql.orderBy_desc key l) l.
Proof.
  induction l as [|r rest IH]; simpl; [reflexivity|].
  rewrite insert_desc_perm. now constructor.
Qed.

Lemma desc_lt_flip : forall a b,
  Sql.desc_lt a b = true -> Sql.desc_lt b a = false.
Proof.
  intros [x|] [y|]; simpl; try reflexivity; try discriminate.
  intros H. apply Z.ltb_lt in H. apply Z.ltb_ge. lia.
Qed.

Lemma desc_ok_trans : forall a b c,
  Spec.desc_ok key a b -> Spec.desc_ok key b c -> Spec.desc_ok key a c.
Proof.
  unfold Spec.desc_ok. intros a b c.
  destruct (key a) as [x|], (key b) as [y|], (key c) as [z|]; simpl;
    try reflexivity; try discriminate.
  rewrite !Z.ltb_ge. lia.
Qed.

Lemma insert_desc_sorted : forall r l,
  Sorted (Spec.desc_ok key) l -> Sorted (Spec.desc_ok key) (Sql.insert_desc key r l).
Proof.
  intros r. induction l as [|h t IH]; intros Hs; simpl.
  - repeat constructor.
  - destruct (Sql.desc_lt (key r) (key h)) eqn:Hlt.
    + inversion Hs as [|? ? Ht Hhd]; subst.
      constructor; [now apply IH|].
      destruct t as [|h' t']; simpl.
      * constructor. now apply desc_lt_flip.
      * destruct (Sql.desc_lt (key r) (key h')).
        -- inversion Hhd; subst. now constructor.
        -- constructor. now apply desc_lt_flip.
    + constructor; [assumption|]. constructor. exact Hlt.
Qed.

Lemma orderBy_desc_sorted : forall l,
  StronglySorted (Spec.desc_ok key) (Sql.orderBy_desc key l).
Proof.
  intros l. apply Sorted_StronglySorted.
  - intros a b c. apply desc_ok_trans.
  - induction l as [|r rest IH]; simpl; [constructor|].
    now apply insert_desc_sorted.
Qed.
End OrderByFacts.

(** ** Weather alerts *)

Lemma where_current : forall date rows,
  Sql.where_ (fun r => Sql.and3 (Sql.eq_bool (weatherAlerts.isActive r) (Some true))
                                (Sql.gte (weatherAlerts.validUntil r) (Some date)))
             rows
  = filter (Spec.current date) rows.
Proof.
  intros date rows. unfold Sql.where_. apply filter_ext. intros r.
  unfold Spec.current.
  destruct (weatherAlerts.isActive r) as [[|]|], (weatherAlerts.validUntil r) as [t|];
    cbn; try reflexivity; destruct (date <=? t); reflexivity.
Qed.

Lemma desc_ok_created : forall a b,
  Spec.desc_ok weatherAlerts.createdAt a b -> Spec.created_not_before a b.
Proof.
  intros a b. unfold Spec.desc_ok, Spec.created_not_before.
  destruct (weatherAlerts.createdAt a) as [x|], (weatherAlerts.createdAt b) as [y|];
    simpl; try easy.
  intros H. apply Z.ltb_ge in H. exact H.
Qed.

Lemma StronglySorted_weaken : forall (A : Type) (R S : A -> A -> Prop) l,
  (forall a b, R a b -> S a b) -> StronglySorted R l -> StronglySorted S l.
Proof.
  intros A R S l HRS. induction 1 as [|a l Hs IH Hall]; constructor.
  - exact IH.
  - eapply Forall_impl; [|exact Hall]. intros b. apply HRS.
Qed.

(** A write to another table leaves the alerts alone. *)
Ltac same_table H :=
  unfold DatabaseStorage.statement in *;
  match type of H with
  | context [match ?s with _ => _ end] =>
      let Hs := fresh "Hs" in
      destruct s as [[? ?]|?] eqn:Hs; cbn in H; subst;
      [ cbv zeta in Hs; run_checks Hs; injection Hs as <- <-; reflexivity
      | reflexivity ]
  end.

Lemma step_weatherAlerts : forall db c,
  match c with
  | Session.createWeatherAlert _ _ _ | Session.deactivateWeatherAlert _ => True
  | _ => t_weatherAlerts (Session.step db c) = t_weatherAlerts db
  end.
Proof.
  intros db c. destruct c; try exact I; cbn [Session.step].
  - unfold DatabaseStorage.createFloodZone.
    remember (DatabaseStorage.statement _ db) as out eqn:H. same_table H.
  - unfold DatabaseStorage.createAffectedPerson.
    remember (DatabaseStorage.statement _ db) as out eqn:H. same_table H.
  - unfold DatabaseStorage.createResource.
    remember (DatabaseStorage.statement _ db) as out eqn:H. same_table H.
  - unfold DatabaseStorage.createReliefDistribution.
    destruct (DatabaseStorage.insert_reliefDistribution uuid now distribution db)
      as [db1 [row|e]] eqn:Hins.
    + apply insert_reliefDistribution_ok in Hins.
      destruct Hins as (_ & _ & _ & _ & _ & _ & _ & _ & _ & Hw & _).
      rewrite <- Hw.
      unfold DatabaseStorage.update_resource_quantities.
      remember (DatabaseStorage.statement _ db1) as out eqn:H.
      unfold DatabaseStorage.statement in H.
      destruct (DatabaseStorage.update_where_id _ _ (t_resources db1)); cbn in H;
        subst out; reflexivity.
    + cbn.
      unfold DatabaseStorage.insert_reliefDistribution, DatabaseStorage.statement in Hins.
      match type of Hins with
      | (match ?s with _ => _ end) = _ => destruct s as [[? ?]|?]
      end; [discriminate Hins|].
      now injection Hins as <- _.
  - unfold DatabaseStorage.createResponseTeam.
    remember (DatabaseStorage.statement _ db) as out eqn:H. same_table H.
  - unfold DatabaseStorage.logActivity.
    remember (DatabaseStorage.statement _ db) as out eqn:H. same_table H.
Qed.

Lemma deactivate_rows : forall i db,
  DatabaseStorage.deactivateWeatherAlert i db
  = ({| t_users := t_users db;
        t_floodZones := t_floodZones db;
        t_affectedPopulation := t_affectedPopulation db;
        t_resources := t_resources db;
        t_reliefDistribution := t_reliefDistribution db;
        t_weatherAlerts :=
          map (fun r => if String.eqb (weatherAlerts.id r) i
                        then DatabaseStorage.set_inactive r else r)
              (t_weatherAlerts db);
        t_responseTeams := t_responseTeams db;
        t_activityLog := t_activityLog db |}, Sql.Ok tt).
Proof. reflexivity. Qed.

Lemma step_retired : forall i db c,
  Spec.retired i db -> Spec.retired i (Session.step db c).
Proof.
  intros i db c [(a0 & Hin0 & Hid0) Hall].
  pose proof (step_weatherAlerts db c) as Hsame.
  destruct c; try (unfold Spec.retired; rewrite Hsame; split; [now exists a0|exact Hall]).
  - (* createWeatherAlert *)
    clear Hsame. cbn [Session.step].
    unfold DatabaseStorage.createWeatherAlert, DatabaseStorage.statement.
    match goal with
    | |- context [match ?s with _ => _ end] => destruct s as [[db' row]|e] eqn:Hs
    end; cbn [fst]; [|split; [now exists a0|exact Hall]].
    cbv zeta in Hs. run_checks Hs. injection Hs as <- <-.
    unfold Spec.retired. cbn [t_weatherAlerts]. split.
    + exists a0. split; [|exact Hid0]. apply in_or_app. now left.
    + intros al Hin Hid. apply in_app_or in Hin. destruct Hin as [Hin|[<-|[]]].
      * now apply Hall.
      * exfalso. cbn in Hid. subst uuid.
        unfold DatabaseStorage.check_primary_key in Hcheck.
        destruct (DatabaseStorage.has_id weatherAlerts.id (t_weatherAlerts db) i)
          eqn:Hhas; [discriminate Hcheck|].
        unfold DatabaseStorage.has_id in Hhas.
        assert (Htrue : existsb (fun r => String.eqb (weatherAlerts.id r) i)
                          (t_weatherAlerts db) = true).
        { apply existsb_exists. exists a0. split; [exact Hin0|].
          rewrite Hid0. apply String.eqb_refl. }
        congruence.
  - (* deactivateWeatherAlert *)
    clear Hsame. cbn [Session.step]. rewrite deactivate_rows. cbn [fst].
    unfold Spec.retired. cbn [t_weatherAlerts]. split.
    + exists (if String.eqb (weatherAlerts.id a0) id
              then DatabaseStorage.set_inactive a0 else a0).
      split.
      * apply in_map_iff. now exists a0.
      * destruct (String.eqb (weatherAlerts.id a0) id); [cbn|]; exact Hid0.
    + intros a Hin Hid. apply in_map_iff in Hin. destruct Hin as (b & Hb & Hinb).
      destruct (String.eqb (weatherAlerts.id b) id); subst a.
      * reflexivity.
      * now apply Hall.
Qed.

Lemma after_retired : forall i calls db,
  Spec.retired i db -> Spec.retired i (Session.after calls db).
Proof.
  intros i. induction calls as [|c rest IH]; intros db H; [exact H|].
  cbn. apply IH. now apply step_retired.
Qed.

Lemma getActiveWeatherAlerts_In : forall date db a,
  In a (DatabaseStorage.getActiveWeatherAlerts date db)
  <-> In a (t_weatherAlerts db) /\ Spec.current date a = true.
Proof.
  intros date db a. unfold DatabaseStorage.getActiveWeatherAlerts.
  rewrite where_current. rewrite <- filter_In.
  split; apply Permutation_in;
    [apply orderBy_desc_perm | symmetry; apply orderBy_desc_perm].
Qed.

Lemma retired_not_current : forall i db date a,
  Spec.retired i db ->
  In a (DatabaseStorage.getActiveWeatherAlerts date db) ->
  weatherAlerts.id a <> i.
Proof.
  intros i db date a [_ Hall] Hin Hid.
  apply getActiveWeatherAlerts_In in Hin. destruct Hin as [Hin Hcur].
  unfold Spec.current in Hcur. rewrite (Hall a Hin Hid) in Hcur. discriminate.
Qed.

Lemma map_unchanged : forall (A : Type) (f : A -> A) l,
  (forall a, In a l -> f a = a) -> map f l = l.
Proof.
  intros A f. induction l as [|h t IH]; intros H; [reflexivity|].
  simpl. rewrite (H h (or_introl eq_refl)). f_equal. apply IH.
  intros a Ha. apply H. now right.
Qed.

(** C10. [getActiveWeatherAlerts] returns exactly the alerts that are
    flagged active and have a [validUntil] not before the current date
    (an alert without [validUntil] has none such), in descending order of
    creation time.  [deactivateWeatherAlert] always returns; afterwards
    every alert with the given id is flagged inactive and, if there was
    one, no later [getActiveWeatherAlerts] returns an alert with that id,
    whatever storage calls come in between; if there was none, the
    database is unchanged. *)
Theorem weather_alerts_current_and_retired :
  (forall date db,
      Permutation (DatabaseStorage.getActiveWeatherAlerts date db)
                  (filter (Spec.current date) (t_weatherAlerts db))
      /\ StronglySorted Spec.created_not_before
           (DatabaseStorage.getActiveWeatherAlerts date db))
  /\ (forall i db,
        exists db',
          DatabaseStorage.deactivateWeatherAlert i db = (db', Sql.Ok tt)
          /\ (forall a, In a (t_weatherAlerts db') -> weatherAlerts.id a = i ->
                        weatherAlerts.isActive a = Some false)
          /\ ((exists a, In a (t_weatherAlerts db) /\ weatherAlerts.id a = i) ->
              forall calls date a,
                In a (DatabaseStorage.getActiveWeatherAlerts date
                        (Session.after calls db')) ->
                weatherAlerts.id a <> i)
          /\ ((forall a, In a (t_weatherAlerts db) -> weatherAlerts.id a <> i) ->
              db' = db)).
Proof.
  split.
  - intros date db. split.
    + unfold DatabaseStorage.getActiveWeatherAlerts. rewrite where_current.
      apply orderBy_desc_perm.
    + unfold DatabaseStorage.getActiveWeatherAlerts.
      eapply StronglySorted_weaken; [exact desc_ok_created|].
      apply orderBy_desc_sorted.
  - intros i db. rewrite deactivate_rows. eexists. split; [reflexivity|].
    assert (Hoff : forall a,
               In a (map (fun r => if String.eqb (weatherAlerts.id r) i
                                   then DatabaseStorage.set_inactive r else r)
                         (t_weatherAlerts db)) ->
               weatherAlerts.id a = i -> weatherAlerts.isActive a = Some false).
    { intros a Hin Hid. apply in_map_iff in Hin. destruct Hin as (b & Hb & Hinb).
      destruct (String.eqb (weatherAlerts.id b) i) eqn:Hbi; subst a.
      - reflexivity.
      - apply String.eqb_neq in Hbi. contradiction. }
    split; [exact Hoff|]. split.
    + intros (a0 & Hin0 & Hid0) calls date a Hin.
      eapply retired_not_current; [|exact Hin].
      apply after_retired. split; [|exact Hoff].
      exists (if String.eqb (weatherAlerts.id a0) i
              then DatabaseStorage.set_inactive a0 else a0).
      split.
      * cbn [t_weatherAlerts]. apply in_map_iff. now exists a0.
      * destruct (String.eqb (weatherAlerts.id a0) i); [cbn|]; exact Hid0.
    + intros Hnone. destruct db; cbn. f_equal.
      apply map_unchanged. intros a Ha.
      destruct (String.eqb (weatherAlerts.id a) i) eqn:Hai; [|reflexivity].
      apply String.eqb_eq in Hai. exfalso. exact (Hnone a Ha Hai).
Qed.

Lemma weather_alerts_current_and_retired_witness :
  (exists db',
      DatabaseStorage.deactivateWeatherAlert "a1"
        (Session.after Sample.alerted emptyDB) = (db', Sql.Ok tt)
      /\ forall date a,
           In a (DatabaseStorage.getActiveWeatherAlerts date db') ->
           weatherAlerts.id a <> "a1")
  /\ (exists db',
        DatabaseStorage.deactivateWeatherAlert "a9"
          (Session.after Sample.alerted emptyDB) = (db', Sql.Ok tt)
        /\ db' = Session.after Sample.alerted emptyDB).
Proof.
  destruct weather_alerts_current_and_retired as [_ H].
  split.
  - destruct (H "a1" (Session.after Sample.alerted emptyDB))
      as (db' & Hrun & _ & Hnever & _).
    exists db'. split; [exact Hrun|].
    intros date a. apply (Hnever (ex_intro _ _ (conj (or_introl eq_refl) eq_refl)) []).
  - destruct (H "a9" (Session.after Sample.alerted emptyDB))
      as (db' & Hrun & _ & _ & Hsame).
    exists db'. split; [exact Hrun|].
    apply Hsame. intros a [<-|[<-|[]]]; discriminate.
Defined.

(** ** The REST surface *)

(** C4 does not hold as the specification words it: relief distributions have no update
    endpoint. *)
Lemma not_every_table_has_three_endpoints :
  ~ (forall t, In t Spec.tables ->
               Spec.has_list t = true
               /\ Spec.has_create t = true
               /\ Spec.has_update t = true).
Proof.
  intros H.
  destruct (H Spec.reliefDistribution) as (_ & _ & Hupdate).
  - unfold Spec.tables. simpl. tauto.
  - vm_compute in Hupdate. discriminate Hupdate.
Qed.

(** C4, amended.  The list, create and update endpoints are all three
    there for exactly four tables: flood zones, affected population,
    resources and response teams.  Relief distributions can be listed and
    created, weather alerts listed, created and deactivated ([DELETE]),
    the activity log listed; the users table has the one [GET] route of
    the signed-in user. *)
Theorem rest_surface_per_table :
  filter (fun t => Spec.has_list t && Spec.has_create t && Spec.has_update t)
         Spec.tables
  = [Spec.floodZones; Spec.affectedPopulation; Spec.resources; Spec.responseTeams]
  /\ map (fun t => (t, Spec.methods_of t)) Spec.tables
     = [ (Spec.users, [Routes.GET]);
         (Spec.floodZones, [Routes.GET; Routes.POST; Routes.PATCH]);
         (Spec.affectedPopulation, [Routes.GET; Routes.POST; Routes.PATCH]);
         (Spec.resources, [Routes.GET; Routes.POST; Routes.PATCH]);
         (Spec.reliefDistribution, [Routes.GET; Routes.POST]);
         (Spec.weatherAlerts, [Routes.GET; Routes.POST; Routes.DELETE]);
         (Spec.responseTeams, [Routes.GET; Routes.POST; Routes.PATCH]);
         (Spec.activityLog, [Routes.GET]) ].
Proof. split; vm_compute; reflexivity. Qed.

(** ** Validation *)

Lemma lookup_remove_key : forall k k' props,
  Zod.lookup k' (Zod.remove_key k props)
  = if String.eqb k' k then None else Zod.lookup k' props.
Proof.
  intros k k'. induction props as [|[k0 v0] rest IH]; simpl.
  - now destruct (String.eqb k' k).
  - destruct (String.eqb k0 k) eqn:H0.
    + rewrite IH. apply String.eqb_eq in H0. subst k0.
      destruct (String.eqb k' k) eqn:H1; [reflexivity|].
      rewrite String.eqb_sym, H1. reflexivity.
    + simpl. destruct (String.eqb k0 k') eqn:H1.
      * apply String.eqb_eq in H1. subst k0. now rewrite H0.
      * exact IH.
Qed.

Lemma lookup_set_prop : forall k v k' props,
  Zod.lookup k' (Spec.set_prop k v props)
  = if String.eqb k' k then Some v else Zod.lookup k' props.
Proof.
  intros k v k' props. unfold Spec.set_prop. simpl.
  rewrite lookup_remove_key, (String.eqb_sym k k').
  now destruct (String.eqb k' k).
Qed.

Lemma required_missing : forall (A : Type) (p : JS -> option A) props k,
  Zod.lookup k props = None -> Zod.required p props k = None.
Proof. intros A p props k H. unfold Zod.required. now rewrite H. Qed.

Lemma required_set_other : forall (A : Type) (p : JS -> option A) k v k' props,
  String.eqb k' k = false ->
  Zod.required p (Spec.set_prop k v props) k' = Zod.required p props k'.
Proof.
  intros A p k v k' props H. unfold Zod.required.
  now rewrite lookup_set_prop, H.
Qed.

Lemma nullish_set_other : forall (A : Type) (p : JS -> option A) k v k' props,
  String.eqb k' k = false ->
  Zod.nullish p (Spec.set_prop k v props) k' = Zod.nullish p props k'.
Proof.
  intros A p k v k' props H. unfold Zod.nullish.
  now rewrite lookup_set_prop, H.
Qed.

Lemma required_set_same : forall (A : Type) (p : JS -> option A) k v props,
  Zod.required p (Spec.set_prop k v props) k = p v.
Proof.
  intros A p k v props. unfold Zod.required.
  now rewrite lookup_set_prop, String.eqb_refl.
Qed.

(** Going through the entries of a schema one by one. *)
Ltac each_entry :=
  repeat match goal with
         | |- context [Zod.obind (Zod.required ?p ?o ?k) _] =>
             destruct (Zod.required p o k); cbn [Zod.obind]; [|reflexivity]
         | |- context [Zod.obind (Zod.nullish ?p ?o ?k) _] =>
             destruct (Zod.nullish p o k); cbn [Zod.obind]; [|reflexivity]
         end.

Lemma missing_required_field_rejected : forall s k props,
  In k (Spec.required_fields s) ->
  Zod.lookup k props = None ->
  Spec.accepts s (JObj props) = false.
Proof.
  intros s k props Hin Hk.
  destruct s; cbn [Spec.required_fields] in Hin;
    repeat (destruct Hin as [<-|Hin]; [|]); try destruct Hin;
    cbn [Spec.accepts];
    unfold Zod.insertFloodZoneSchema, Zod.insertAffectedPopulationSchema,
      Zod.insertResourceSchema, Zod.insertReliefDistributionSchema,
      Zod.insertWeatherAlertSchema, Zod.insertResponseTeamSchema;
    cbn [Zod.as_object Zod.obind];
    rewrite (required_missing _ _ _ Hk);
    each_entry; reflexivity.
Qed.

Ltac each_entry_in H :=
  repeat match type of H with
         | context [Zod.obind (Zod.required ?p ?o ?k) _] =>
             destruct (Zod.required p o k);
             cbn [Zod.obind Zod.z_string Spec.is_some] in H |- *;
             [|discriminate H]
         | context [Zod.obind (Zod.nullish ?p ?o ?k) _] =>
             destruct (Zod.nullish p o k);
             cbn [Zod.obind Zod.z_string Spec.is_some] in H |- *;
             [|discriminate H]
         end.

Lemma enumerated_field_takes_any_string : forall s k values props v,
  In (s, k, values) Spec.enumerated_fields ->
  Spec.accepts s (JObj props) = true ->
  Spec.accepts s (JObj (Spec.set_prop k (JStr v) props)) = true.
Proof.
  intros s k values props v Hin H.
  unfold Spec.enumerated_fields in Hin.
  repeat (destruct Hin as [Heq|Hin]; [injection Heq as <- <- <-|]);
    try destruct Hin;
    cbn [Spec.accepts] in H |- *;
    unfold Zod.insertFloodZoneSchema, Zod.insertAffectedPopulationSchema,
      Zod.insertResourceSchema, Zod.insertWeatherAlertSchema,
      Zod.insertResponseTeamSchema in H |- *;
    cbn [Zod.as_object Zod.obind] in H |- *;
    rewrite required_set_same;
    rewrite ?required_set_other, ?nullish_set_other by reflexivity;
    each_entry_in H; reflexivity.
Qed.

(** C5 does not hold as the specification words it: a flood zone whose risk level is
    none of "high", "medium", "low" passes the insert schema. *)
Lemma enumerated_values_not_enforced :
  ~ (forall s k values props v,
        In (s, k, values) Spec.enumerated_fields ->
        Zod.lookup k props = Some (JStr v) ->
        Spec.string_in v values = false ->
        Spec.accepts s (JObj props) = false).
Proof.
  intros H.
  specialize (H Spec.FloodZone "riskLevel" ["high"; "medium"; "low"]
                Sample.extreme_zone "extreme").
  assert (Hacc : Spec.accepts Spec.FloodZone (JObj Sample.extreme_zone) = true)
    by (vm_compute; reflexivity).
  rewrite H in Hacc; [discriminate Hacc| | |].
  - unfold Spec.enumerated_fields. simpl. tauto.
  - reflexivity.
  - reflexivity.
Qed.

(** C5, amended.  The insert schemas of the create endpoints enforce the
    presence of the required fields: a body lacking one of them is
    refused.  The fields meant to hold one of a few listed values (risk
    level, evacuation status, priority, alert severity, team status) are
    plain strings to the schemas: whether a body is accepted does not
    depend on which string they hold. *)
Theorem create_validation :
  (forall s k props,
      In k (Spec.required_fields s) ->
      Zod.lookup k props = None ->
      Spec.accepts s (JObj props) = false)
  /\ (forall s k values props v,
        In (s, k, values) Spec.enumerated_fields ->
        Spec.accepts s (JObj props) = true ->
        Spec.accepts s (JObj (Spec.set_prop k (JStr v) props)) = true).
Proof.
  split.
  - exact missing_required_field_rejected.
  - exact enumerated_field_takes_any_string.
Qed.

Lemma create_validation_witness :
  Spec.accepts Spec.Resource (JObj [("name", JStr "Rice")]) = false
  /\ Spec.accepts Spec.FloodZone
       (JObj (Spec.set_prop "riskLevel" (JStr "unknown") Sample.extreme_zone)) = true.
Proof.
  destruct create_validation as [Hmissing Hany].
  split.
  - apply (Hmissing Spec.Resource "unit").
    + simpl. tauto.
    + reflexivity.
  - apply (Hany Spec.FloodZone "riskLevel" ["high"; "medium"; "low"]).
    + unfold Spec.enumerated_fields. simpl. tauto.
    + vm_compute. reflexivity.
Defined.

(** ** Handlers *)

Import Routes.

Lemma run_try_catch : forall (W A : Type) (o : oracle W) (p : Prog A) h w,
  run o (try_catch p h) w
  = (fst (run o p w),
     match snd (run o p w) with
     | inr a => inr a
     | inl e => inr (h e)
     end).
Proof.
  intros W A o p h. induction p as [a|e|X c k IH]; intros w; try reflexivity.
  cbn [run try_catch]. destruct (o X c w) as [w1 r].
  rewrite IH. destruct (run o (k r) w1) as [[w2 cs] out]. reflexivity.
Qed.

(** What a handler answers, from what its [try] block does. *)
Lemma outcome_handle : forall (W : Type) (o : oracle W) r env req w,
  outcome (run o (handle r env req) w)
  = match outcome (run o (try_block r env req) w) with
    | inr res => inr res
    | inl _ => inr (Spec.failure r)
    end.
Proof.
  intros W o r env req w. unfold handle, outcome. rewrite run_try_catch. reflexivity.
Qed.

Lemma calls_handle : forall (W : Type) (o : oracle W) r env req w,
  calls (run o (handle r env req) w) = calls (run o (try_block r env req) w).
Proof.
  intros W o r env req w. unfold handle, calls. rewrite run_try_catch. reflexivity.
Qed.

Lemma Ends_run : forall (W A : Type) (P : A -> Prop) (o : oracle W) p,
  Spec.Ends P p -> forall w a, outcome (run o p w) = inr a -> P a.
Proof.
  intros W A P o p H. induction H as [a Ha|e|X c k _ IH]; intros w a' Hout.
  - injection Hout as <-. exact Ha.
  - discriminate Hout.
  - cbn [run] in Hout. destruct (o X c w) as [w1 r].
    specialize (IH r w1 a').
    destruct (run o (k r) w1) as [[w2 cs] out]. apply IH. exact Hout.
Qed.

Lemma Ends_bind : forall (A B : Type) (P : B -> Prop) (p : Prog A) f,
  Spec.Ends (fun a => Spec.Ends P (f a)) p -> Spec.Ends P (bind p f).
Proof.
  intros A B P p f H. induction H as [a Ha|e|X c k _ IH]; cbn [bind].
  - exact Ha.
  - constructor.
  - constructor. exact IH.
Qed.

Lemma Ends_await_call : forall (X : Type) (Q : X -> Prop) (c : call X),
  (forall x, Q x) -> Spec.Ends Q (await c).
Proof.
  intros X Q c H. unfold await. constructor. intros [e|x]; constructor. apply H.
Qed.

Lemma Ends_parse : forall (A : Type) (Q : A -> Prop) schema data,
  (forall a, Q a) -> Spec.Ends Q (parse schema data).
Proof.
  intros A Q schema data H. unfold parse.
  destruct (schema data); constructor. apply H.
Qed.

Lemma Ends_get : forall (Q : JS -> Prop) v k,
  (forall x, Q x) -> Spec.Ends Q (get v k).
Proof. intros Q v k H. destruct v; constructor; apply H. Qed.

Lemma Ends_get0 : forall (Q : JS -> Prop) v,
  (forall x, Q x) -> Spec.Ends Q (get0 v).
Proof.
  intros Q v H. destruct v as [| | | |s| |]; try (constructor; apply H).
  destruct s; constructor; apply H.
Qed.

(** Stepping through a handler: every await, parse and property access
    may throw or go on. *)
Ltac through :=
  repeat first
    [ apply Ends_bind;
      try (first [ apply Ends_await_call | apply Ends_parse
                 | apply Ends_get | apply Ends_get0 ];
           intros)
    | match goal with
      | |- Spec.Ends _ (match ?x with _ => _ end) => destruct x
      | |- Spec.Ends _ (if ?x then _ else _) => destruct x
      end
    | apply Spec.Ends_throw
    | apply Spec.Ends_return ].

Lemma try_block_sends : forall r env req,
  In r registerRoutes -> Spec.Ends (Spec.sent_by r) (try_block r env req).
Proof.
  intros r env req Hin. unfold registerRoutes in Hin.
  repeat (destruct Hin as [<-|Hin]; [|]); try destruct Hin;
    cbn [try_block patch_flood_zones_route get_weather_route];
    unfold get_auth_user, get_dashboard_stats, get_flood_zones, post_flood_zones,
      patch_flood_zones, get_population, post_population, patch_population,
      get_resources, post_resources, patch_resources, get_relief_distribution,
      post_relief_distribution, get_weather_alerts, post_weather_alerts,
      delete_weather_alerts, get_response_teams, post_response_teams,
      patch_response_teams, get_activities, get_weather, weather_answer,
      reshape, res_json, res_status_message;
    through; unfold Spec.sent_by; cbn; tauto.
Qed.

(** A body the schema refuses makes the [try] block throw before any call
    to the storage. *)
Lemma invalid_body_throws : forall r s key env req (W : Type) (o : oracle W) w,
  In r registerRoutes ->
  method r = POST ->
  In (path r, s, key) Spec.create_endpoints ->
  Spec.accepts s (Spec.parsed key req) = false ->
  run o (try_block r env req) w = (w, [], inl ZodError).
Proof.
  intros r s key env req W o w Hin Hm Hc Hacc. unfold registerRoutes in Hin.
  repeat (destruct Hin as [<-|Hin]; [|]); try destruct Hin; try discriminate Hm;
    cbn [path] in Hc; unfold Spec.create_endpoints in Hc;
    repeat (destruct Hc as [Heq|Hc];
            [try discriminate Heq; injection Heq as <- <-|]);
    try destruct Hc;
    cbn [Spec.accepts Spec.parsed] in Hacc; cbn [try_block];
    unfold post_flood_zones, post_population, post_resources,
      post_relief_distribution, post_weather_alerts, post_response_teams, parse;
    match type of Hacc with
    | Spec.is_some ?x = false => destruct x; [discriminate Hacc|reflexivity]
    end.
Qed.

(** C6 does not hold as the specification words it: a [PATCH] of a flood zone that does
    not exist is answered with status 404, not 500. *)
Lemma update_of_missing_row_is_404 :
  ~ (forall r env req (W : Type) (o : oracle W) w res,
        In r registerRoutes ->
        outcome (run o (handle r env req) w) = inr res ->
        status res = 200 \/ status res = 500).
Proof.
  intros H.
  specialize (H patch_flood_zones_route Sample.no_api_key
                (Sample.request "no-such-zone" (JObj [])) unit Sample.no_such_row tt
                {| status := 404; payload := message "Flood zone not found" |}).
  destruct H as [H|H]; try discriminate H.
  - unfold registerRoutes. simpl. tauto.
  - reflexivity.
Qed.

Lemma run_bind_await : forall (W X A : Type) (o : oracle W) (c : call X)
    (f : X -> Prog A) w,
  run o (bind (await c) f) w
  = match snd (o X c w) with
    | inr x =>
        (fst (fst (run o (f x) (fst (o X c w)))),
         Called c :: calls (run o (f x) (fst (o X c w))),
         outcome (run o (f x) (fst (o X c w))))
    | inl e => (fst (o X c w), [Called c], inl e)
    end.
Proof.
  intros W X A o c f w. cbn [bind await run].
  destruct (o X c w) as [w1 [e|x]]; cbn [bind run fst snd].
  - reflexivity.
  - unfold calls, outcome. destruct (run o (f x) w1) as [[w2 cs] out]. reflexivity.
Qed.

(** A [PATCH] whose update finds no row: one call, then 404. *)
Lemma missing_row_is_404 : forall r env req (W : Type) (o : oracle W) w,
  In r registerRoutes ->
  method r = PATCH ->
  Spec.finds_no_row o w r req ->
  exists m,
    In (path r, m) Spec.update_routes
    /\ outcome (run o (handle r env req) w)
       = inr {| status := 404; payload := message m |}
    /\ List.length (calls (run o (handle r env req) w)) = 1%nat.
Proof.
  intros r env req W o w Hin Hm Hnone. unfold registerRoutes in Hin.
  repeat (destruct Hin as [<-|Hin]; [|]); try destruct Hin; try discriminate Hm;
    unfold Spec.finds_no_row in Hnone;
    cbn [path patch_flood_zones_route] in Hnone;
    destruct Hnone as [[Hp Ho]|[[Hp Ho]|[[Hp Ho]|[Hp Ho]]]]; try discriminate Hp;
    rewrite outcome_handle, calls_handle;
    cbn [try_block path patch_flood_zones_route];
    unfold patch_flood_zones, patch_population, patch_resources,
      patch_response_teams;
    cbv zeta; rewrite run_bind_await, Ho;
    (eexists; split; [|split; reflexivity]);
    unfold Spec.update_routes; simpl; tauto.
Qed.

(** C6, amended.  Every route answers every request.  Whatever is thrown
    while the [try] block of a route runs, a rejected storage call or a
    body the insert schema refuses among them, the answer is status 500
    with the fixed message of that route.  When nothing is thrown the
    answer is the one the [try] block sends, and its status is 200, except
    that the four [PATCH] routes send 404 when the update found no row,
    and the weather route sends 500 itself when no API key is set.  Both
    exceptions happen: each of the four [PATCH] routes, when its update
    resolves to [undefined], makes that one call and answers 404 with its
    own message; and the weather route without a key answers 500,
    "Weather API key not configured". *)
Theorem failure_handling :
  forall r env req (W : Type) (o : oracle W) w,
    In r registerRoutes ->
    (exists res, outcome (run o (handle r env req) w) = inr res)
    /\ (forall e,
          outcome (run o (try_block r env req) w) = inl e ->
          outcome (run o (handle r env req) w) = inr (Spec.failure r))
    /\ (forall s key,
          method r = POST ->
          In (path r, s, key) Spec.create_endpoints ->
          Spec.accepts s (Spec.parsed key req) = false ->
          outcome (run o (handle r env req) w) = inr (Spec.failure r)
          /\ calls (run o (handle r env req) w) = [])
    /\ (forall res,
          outcome (run o (try_block r env req) w) = inr res ->
          outcome (run o (handle r env req) w) = inr res
          /\ Spec.sent_by r res)
    /\ map path (filter (fun r' => Spec.method_eqb (method r') PATCH) registerRoutes)
       = map fst Spec.update_routes
    /\ (method r = PATCH ->
        Spec.finds_no_row o w r req ->
        exists m,
          In (path r, m) Spec.update_routes
          /\ outcome (run o (handle r env req) w)
             = inr {| status := 404; payload := message m |}
          /\ List.length (calls (run o (handle r env req) w)) = 1%nat)
    /\ (path r = "/api/weather/:location" ->
        OPENWEATHER_API_KEY env = None \/ OPENWEATHER_API_KEY env = Some "" ->
        outcome (run o (handle r env req) w)
        = inr {| status := 500;
                 payload := message "Weather API key not configured" |}
        /\ calls (run o (handle r env req) w) = []).
Proof.
  intros r env req W o w Hin. split; [|split; [|split; [|split; [|split; [|split]]]]].
  - rewrite outcome_handle.
    destruct (outcome (run o (try_block r env req) w)); eauto.
  - intros e He. rewrite outcome_handle, He. reflexivity.
  - intros s key Hm Hc Hacc.
    pose proof (@invalid_body_throws r s key env req W o w Hin Hm Hc Hacc) as Hthrow.
    split.
    + rewrite outcome_handle, Hthrow. reflexivity.
    + rewrite calls_handle, Hthrow. reflexivity.
  - intros res Hres. split.
    + rewrite outcome_handle, Hres. reflexivity.
    + eapply Ends_run; [|exact Hres]. now apply try_block_sends.
  - reflexivity.
  - intros Hm Hnone. now apply missing_row_is_404.
  - intros Hp Hkey. rewrite outcome_handle, calls_handle.
    unfold registerRoutes in Hin.
    repeat (destruct Hin as [<-|Hin]; [|]); try destruct Hin;
      cbn [path patch_flood_zones_route get_weather_route] in Hp;
      try discriminate Hp.
    cbn [try_block get_weather_route]. unfold get_weather.
    destruct Hkey as [-> | ->]; cbn; split; reflexivity.
Qed.

Lemma failure_handling_witness :
  (outcome (run Sample.no_such_row
              (handle patch_flood_zones_route Sample.no_api_key
                 (Sample.request "no-such-zone" (JObj [])))
              tt)
   = inr {| status := 404; payload := message "Flood zone not found" |}
   /\ Spec.sent_by patch_flood_zones_route
        {| status := 404; payload := message "Flood zone not found" |})
  /\ (exists m,
        In ("/api/flood-zones/:id", m) Spec.update_routes
        /\ outcome (run Sample.no_such_row
                      (handle patch_flood_zones_route Sample.no_api_key
                         (Sample.request "no-such-zone" (JObj [])))
                      tt)
           = inr {| status := 404; payload := message m |}
        /\ List.length
             (calls (run Sample.no_such_row
                       (handle patch_flood_zones_route Sample.no_api_key
                          (Sample.request "no-such-zone" (JObj [])))
                       tt)) = 1%nat)
  /\ outcome (run Sample.no_such_row
                (handle get_weather_route Sample.no_api_key
                   (Sample.request "Alappuzha" JNull))
                tt)
     = inr {| status := 500;
              payload := message "Weather API key not configured" |}.
Proof.
  assert (Hin : In patch_flood_zones_route registerRoutes)
    by (unfold registerRoutes; simpl; tauto).
  assert (Hweather : In get_weather_route registerRoutes)
    by (unfold registerRoutes; simpl; tauto).
  destruct (@failure_handling patch_flood_zones_route
              Sample.no_api_key (Sample.request "no-such-zone" (JObj []))
              unit Sample.no_such_row tt Hin) as (_ & _ & _ & Hsent & _ & H404 & _).
  destruct (@failure_handling get_weather_route
              Sample.no_api_key (Sample.request "Alappuzha" JNull)
              unit Sample.no_such_row tt Hweather) as (_ & _ & _ & _ & _ & _ & Hkey).
  split; [|split].
  - apply Hsent. reflexivity.
  - apply H404.
    + reflexivity.
    + left. split; reflexivity.
  - apply Hkey.
    + reflexivity.
    + left. reflexivity.
Defined.

(** ** The weather route *)

Lemma Pure_bind : forall (A B : Type) (p : Prog A) (f : A -> Prog B),
  Spec.Pure p -> (forall a, Spec.Pure (f a)) -> Spec.Pure (bind p f).
Proof.
  intros A B p f [(a & ->)|(e & ->)] Hf; cbn [bind].
  - apply Hf.
  - right. now exists e.
Qed.

Lemma Pure_get : forall v k, Spec.Pure (get v k).
Proof.
  intros v k. destruct v; cbn;
    (left; eexists; reflexivity) || (right; eexists; reflexivity).
Qed.

Lemma Pure_get0 : forall v, Spec.Pure (get0 v).
Proof.
  intros v. destruct v as [| | | |s| |]; try destruct s; cbn;
    (left; eexists; reflexivity) || (right; eexists; reflexivity).
Qed.

Lemma Pure_reshape : forall data, Spec.Pure (reshape data).
Proof.
  intros data. unfold reshape.
  repeat (apply Pure_bind; [apply Pure_get || apply Pure_get0|intros]).
  left. eexists. reflexivity.
Qed.

Lemma Pure_run : forall (W A : Type) (o : oracle W) (p : Prog A) w,
  Spec.Pure p -> calls (run o p w) = [].
Proof. intros W A o p w [(a & ->)|(e & ->)]; reflexivity. Qed.

(** What follows the [fetch] awaits nothing more. *)
Lemma Pure_weather_answer : forall response, Spec.Pure (weather_answer response).
Proof.
  intros response. unfold weather_answer.
  destruct (ok response); cbn [negb].
  - destruct (json response) as [data|]; cbn [bind].
    + apply Pure_bind; [apply Pure_reshape|].
      intros a. left. eexists. reflexivity.
    + right. eexists. reflexivity.
  - right. eexists. reflexivity.
Qed.

Lemma Pure_outcome : forall (W A : Type) (o : oracle W) (p : Prog A) w a,
  p = Return a -> outcome (run o p w) = inr a.
Proof. intros W A o p w a ->. reflexivity. Qed.

Lemma reshape_document : forall data t h d s p,
  Spec.weather_document data t h d s p ->
  reshape data
  = Return (JObj [ ("temperature", t); ("humidity", h); ("description", d);
                   ("windSpeed", s); ("pressure", p) ]).
Proof.
  intros data t h d s p
    (props & main & weather0 & others & wind & -> & Hmain & Hweather & Hwind
     & Ht & Hh & Hd & Hs & Hp & Dt & Dh & Dd & Ds & Dp).
  unfold reshape, get, get0.
  rewrite Hmain, Hweather, Hwind. cbn [bind hd].
  rewrite Ht, Hh, Hd, Hs, Hp. cbn [bind].
  unfold object_literal. cbn [filter snd].
  rewrite Dt, Dh, Dd, Ds, Dp. reflexivity.
Qed.

Lemma incl_filter_fst : forall (A B : Type) (f : A * B -> bool) l,
  incl (map fst (filter f l)) (map fst l).
Proof.
  intros A B f l x Hx. apply in_map_iff in Hx. destruct Hx as (y & <- & Hy).
  apply filter_In in Hy. apply in_map. tauto.
Qed.

Lemma get_weather_fields : forall env req,
  Spec.Ends (Spec.fields_among Spec.weather_fields) (get_weather env req).
Proof.
  intros env req.
  unfold get_weather, weather_answer, reshape, res_json, res_status_message.
  through; unfold Spec.fields_among; cbn [status payload]; intros Hs;
    try discriminate Hs.
  eexists. split; [reflexivity|].
  unfold object_literal. apply incl_filter_fst.
Qed.

Lemma weather_answer_outcomes : forall response,
  (ok response = false ->
   exists e, weather_answer response = Throw e)
  /\ (ok response = true -> json response = None ->
      exists e, weather_answer response = Throw e)
  /\ (forall data t h d s p,
        ok response = true -> json response = Some data ->
        Spec.weather_document data t h d s p ->
        weather_answer response
        = Return {| status := 200;
                    payload :=
                      json_value
                        (JObj [ ("temperature", t); ("humidity", h);
                                ("description", d); ("windSpeed", s);
                                ("pressure", p) ]) |}).
Proof.
  intros response. unfold weather_answer. split; [|split].
  - intros ->. cbn [negb]. eexists. reflexivity.
  - intros -> ->. cbn [negb bind]. eexists. reflexivity.
  - intros data t h d s p -> -> Hdoc. cbn [negb bind].
    rewrite (reshape_document Hdoc). reflexivity.
Qed.

(** C7 does not hold as the specification words it: without an API key the route makes
    no external call at all. *)
Lemma no_call_without_api_key :
  ~ (forall env req (W : Type) (o : oracle W) w,
        List.length (fetched (calls (run o (handle get_weather_route env req) w)))
        = 1%nat).
Proof.
  intros H.
  specialize (H Sample.no_api_key (Sample.request "Alappuzha" JNull)
                unit Sample.open_weather tt).
  vm_compute in H. discriminate H.
Qed.

(** C7, amended.  Without an API key ([OPENWEATHER_API_KEY] unset or
    empty) the weather route calls nothing and answers 500, "Weather API
    key not configured".  With a key it makes exactly one call, the
    [fetch] of the OpenWeatherMap URL for the location.  When that call is
    rejected, or answers with a status that is not ok, or with a body that
    is not JSON, the route answers 500, "Failed to fetch weather data".
    When it answers with a document holding the five readings, the route
    answers 200 with exactly the fields temperature, humidity,
    description, windSpeed and pressure taken from it.  No answer with
    status 200 has a field besides these five. *)
Theorem weather_proxy :
  forall env req (W : Type) (o : oracle W) w,
    let result := run o (handle get_weather_route env req) w in
    ((OPENWEATHER_API_KEY env = None \/ OPENWEATHER_API_KEY env = Some "") ->
     calls result = []
     /\ outcome result
        = inr {| status := 500;
                 payload := message "Weather API key not configured" |})
    /\ (forall apiKey,
          OPENWEATHER_API_KEY env = Some apiKey -> apiKey <> "" ->
          let url := weather_url (params req "location") apiKey in
          let answer := snd (o _ (fetch url) w) in
          calls result = [Called (fetch url)]
          /\ (forall e, answer = inl e ->
                outcome result = inr (Spec.failure get_weather_route))
          /\ (forall response, answer = inr response ->
                ok response = false \/ json response = None ->
                outcome result = inr (Spec.failure get_weather_route))
          /\ (forall response data t h d s p,
                answer = inr response ->
                ok response = true ->
                json response = Some data ->
                Spec.weather_document data t h d s p ->
                outcome result
                = inr {| status := 200;
                         payload :=
                           json_value
                             (JObj [ ("temperature", t); ("humidity", h);
                                     ("description", d); ("windSpeed", s);
                                     ("pressure", p) ]) |}))
    /\ (forall res,
          outcome result = inr res ->
          Spec.fields_among Spec.weather_fields res).
Proof.
  intros env req W o w result. subst result. split; [|split].
  - intros Hkey. rewrite calls_handle, outcome_handle.
    cbn [try_block get_weather_route]. unfold get_weather.
    destruct Hkey as [-> | ->]; cbn; split; reflexivity.
  - intros apiKey Hkey Hne url answer. subst url answer.
    rewrite calls_handle, outcome_handle.
    cbn [try_block get_weather_route]. unfold get_weather. rewrite Hkey.
    apply String.eqb_neq in Hne. rewrite Hne.
    rewrite run_bind_await.
    destruct (snd (o FetchResponse
                     (fetch (weather_url (params req "location") apiKey)) w))
      as [e|response] eqn:Hans.
    + split; [reflexivity|]. split; [|split].
      * intros e' _. reflexivity.
      * intros response Habs. discriminate Habs.
      * intros response data t h d s p Habs. discriminate Habs.
    + split; [|split; [|split]].
      * unfold calls at 1. cbn [fst snd].
        now rewrite (Pure_run _ _ (Pure_weather_answer response)).
      * intros e Habs. discriminate Habs.
      * intros response' Heq Hbad. injection Heq as <-.
        destruct (weather_answer_outcomes response) as (Hnok & Hnojson & _).
        unfold outcome at 1. cbn [snd].
        destruct (ok response) eqn:Hok.
        -- destruct Hbad as [Hbad|Hbad]; [discriminate Hbad|].
           destruct (Hnojson eq_refl Hbad) as (e & ->). reflexivity.
        -- destruct (Hnok eq_refl) as (e & ->). reflexivity.
      * intros response' data t h d s p Heq Hok Hjson Hdoc. injection Heq as <-.
        destruct (weather_answer_outcomes response) as (_ & _ & Hgood).
        unfold outcome at 1. cbn [snd].
        rewrite (Hgood data t h d s p Hok Hjson Hdoc). reflexivity.
  - intros res Hres. rewrite outcome_handle in Hres.
    destruct (outcome (run o (try_block get_weather_route env req) w))
      as [e|res'] eqn:Htry.
    + injection Hres as <-. intros Habs. discriminate Habs.
    + injection Hres as <-.
      eapply Ends_run; [|exact Htry]. apply get_weather_fields.
Qed.

Lemma weather_proxy_witness :
  calls (run Sample.open_weather
           (handle get_weather_route Sample.with_api_key
              (Sample.request "Alappuzha" JNull)) tt)
  = [Called (fetch (weather_url "Alappuzha" "k"))]
  /\ outcome (run Sample.open_weather
                (handle get_weather_route Sample.with_api_key
                   (Sample.request "Alappuzha" JNull)) tt)
     = inr {| status := 200;
              payload :=
                json_value
                  (JObj [ ("temperature", JNum (59 # 2));
                          ("humidity", JNum (80 # 1));
                          ("description", JStr "light rain");
                          ("windSpeed", JNum (18 # 5));
                          ("pressure", JNum (1008 # 1)) ]) |}.
Proof.
  destruct (weather_proxy Sample.with_api_key (Sample.request "Alappuzha" JNull)
              Sample.open_weather tt) as (_ & Hkey & _).
  destruct (Hkey "k" eq_refl) as (Hcalls & _ & _ & Hgood).
  - discriminate.
  - split; [exact Hcalls|].
    eapply Hgood; [reflexivity|reflexivity|reflexivity|].
    unfold Spec.weather_document, Sample.alappuzha_weather.
    do 5 eexists. repeat split; reflexivity.
Defined.

(** ** The flood map *)

Lemma getRiskColor_colour : forall riskLevel,
  Client.getRiskColor riskLevel = Spec.hex (Spec.colour_of_risk riskLevel).
Proof.
  intros riskLevel. unfold Client.getRiskColor, Spec.colour_of_risk.
  destruct (String.eqb riskLevel "high"); [reflexivity|].
  destruct (String.eqb riskLevel "medium"); [reflexivity|].
  destruct (String.eqb riskLevel "low"); reflexivity.
Qed.

Lemma fill_or_same : forall c, Client.fill_or (Some c) c = c.
Proof. intros c. unfold Client.fill_or. now destruct (String.eqb c ""). Qed.

Unset Implicit Arguments.

(** What [FloodMap] renders once the list is fetched: one [MapCircle]
    per zone, in order, with the props of that zone. *)
Lemma MapCircles_props : forall zones next,
  Forall2 (fun zone props =>
             Client.key props = floodZones.id zone
             /\ Client.items (Client.center props)
                = (Client.parseFloat (floodZones.latitude zone),
                   Client.parseFloat (floodZones.longitude zone))
             /\ Client.radius props = Client.integer (floodZones.radius zone)
             /\ Client.color props
                = Some (Spec.hex (Spec.colour_of_risk (floodZones.riskLevel zone)))
             /\ Client.fillColor props = Client.color props
             /\ Client.fillOpacity props = Some (Client.literal (3 # 10)))
          zones (Client.MapCircles next zones).
Proof.
  induction zones as [|zone rest IH]; intros next; cbn [Client.MapCircles];
    constructor; [|apply IH].
  cbn. rewrite getRiskColor_colour. repeat split.
Qed.

(** Each array of a render is new. *)
Lemma MapCircles_new : forall zones next,
  Forall (fun props =>
            (next <= Client.identity (Client.center props)
             < next + List.length zones)%nat)
         (Client.MapCircles next zones).
Proof.
  induction zones as [|zone rest IH]; intros next; cbn [Client.MapCircles];
    constructor.
  - cbn. lia.
  - eapply Forall_impl; [|apply IH]. cbn. intros props H. lia.
Qed.

(** The effect of a [MapCircle] that finds the map: the circle of the
    zone is added to it. *)
Lemma MapCircle_on_map : forall zone next w h,
  Client.globalMapInstance w = Some h ->
  forall props, hd_error (Client.MapCircles next [zone]) = Some props ->
  Client.MapCircle props w
  = ({| Client.maps :=
          Client.on_map h
            (fun m => {| Client.layers :=
                           (Client.layers m
                              ++ [(Client.circles_made w, Spec.circle_of zone)])%list;
                         Client.removed := Client.removed m |})
            (Client.maps w);
        Client.circles_made := S (Client.circles_made w);
        Client.globalMapInstance := Some h |},
     Some (h, Client.circles_made w)).
Proof.
  intros zone next w h Hmap props Hprops. injection Hprops as <-.
  unfold Client.MapCircle. rewrite Hmap.
  cbn [Client.center Client.radius Client.color Client.fillColor Client.fillOpacity
       Client.default_to Client.items].
  rewrite fill_or_same, getRiskColor_colour. reflexivity.
Qed.

Lemma on_map_bare : forall h f l,
  (forall m, Client.layers m = [] -> Client.layers (f m) = []) ->
  Forall (fun m => Client.layers m = []) l ->
  Forall (fun m => Client.layers m = []) (Client.on_map h f l).
Proof.
  intros h f l Hf. revert h. induction l as [|m rest IH]; intros h H.
  - destruct h; constructor.
  - inversion H as [|? ? Hm Hrest]; subst.
    destruct h as [|h']; cbn [Client.on_map]; constructor; auto.
Qed.

Lemma find_key_In : forall (A : Type) (key_of : A -> string) k l a,
  Client.find_key key_of k l = Some a -> In a l.
Proof.
  intros A key_of k. induction l as [|x rest IH]; intros a H; [discriminate H|].
  cbn [Client.find_key] in H. destruct (String.eqb (key_of x) k).
  - injection H as <-. now left.
  - right. now apply IH.
Qed.

Lemma quiet_later : forall bound bound' c,
  (bound <= bound')%nat -> Invariant.quiet bound c -> Invariant.quiet bound' c.
Proof. intros bound bound' c Hle [Hc Hid]. split; [exact Hc|lia]. Qed.

Section ReactFacts.
Variable same_number : Client.number -> Client.number -> bool.
Variable same_primitives : Client.MapCircleProps -> Client.MapCircleProps -> bool.

(** While [globalMapInstance] is [null] the effects of the children
    change nothing on the page and return no cleanup. *)
Lemma effects_meet_null : forall bound old children w done,
  Client.globalMapInstance w = None ->
  Forall (Invariant.quiet bound) old ->
  Forall (Invariant.quiet bound) done ->
  Forall (fun props => (Client.identity (Client.center props) < bound)%nat) children ->
  fst (fold_left (Client.effect_child same_primitives old) children (w, done)) = w
  /\ Forall (Invariant.quiet bound)
            (snd (fold_left (Client.effect_child same_primitives old) children (w, done))).
Proof.
  intros bound old children w done Hnull Hold. revert done.
  induction children as [|props rest IH]; intros done Hdone Hnew; [now split|].
  inversion Hnew as [|? ? Hprops Hrest]; subst.
  cbn [fold_left].
  assert (Hstep : Client.effect_child same_primitives old (w, done) props
                  = (w, snd (Client.effect_child same_primitives old (w, done) props))
                  /\ Forall (Invariant.quiet bound)
                       (snd (Client.effect_child same_primitives old (w, done) props))).
  { unfold Client.effect_child, Client.MapCircle. cbn [fst snd]. rewrite Hnull.
    cbn [fst snd].
    assert (Hrun : Forall (Invariant.quiet bound)
                     (done ++ [ {| Client.instance_key := Client.key props;
                                   Client.last := props;
                                   Client.cleanup := None |} ])%list).
    { apply Forall_app. split; [exact Hdone|]. constructor; [|constructor].
      split; [reflexivity|exact Hprops]. }
    destruct (Client.find_key Client.instance_key (Client.key props) old)
      as [c|] eqn:Hfind; [|now split].
    destruct (Client.circle_changed same_primitives (Client.last c) props);
      [now split|].
    split; [reflexivity|]. cbn [snd]. apply Forall_app. split; [exact Hdone|].
    constructor; [|constructor].
    apply find_key_In in Hfind. rewrite Forall_forall in Hold. now apply Hold. }
  destruct Hstep as [Heq Hquiet]. rewrite Heq. now apply IH.
Qed.

(** The cleanups of children whose effect drew nothing do nothing. *)
Lemma cleanups_of_quiet : forall bound children cs w,
  Forall (Invariant.quiet bound) cs ->
  fold_left (Client.cleanup_child same_primitives children) cs w = w
  /\ fold_left (fun w c => Client.MapCircle_cleanup (Client.cleanup c) w) cs w = w.
Proof.
  intros bound children cs w H. induction H as [|c rest [Hc _] _ IH]; [now split|].
  cbn [fold_left]. unfold Client.cleanup_child at 2. rewrite Hc.
  cbn [Client.MapCircle_cleanup].
  destruct (Client.find_key Client.key (Client.instance_key c) children);
    [destruct (Client.circle_changed same_primitives (Client.last c) m)|];
    exact IH.
Qed.

Lemma Map_cleanup_bare : forall ref w,
  Invariant.bare w ->
  Invariant.bare (Client.Map_cleanup ref w)
  /\ (ref <> None -> Client.globalMapInstance (Client.Map_cleanup ref w) = None).
Proof.
  intros [h|] w H; cbn [Client.Map_cleanup]; split; try exact H.
  - unfold Invariant.bare. cbn [Client.maps]. apply on_map_bare; [|exact H].
    reflexivity.
  - reflexivity.
  - intros Hne. now contradiction Hne.
Qed.

Lemma Map_effect_bare : forall w,
  Invariant.bare w ->
  Invariant.bare (fst (Client.Map_effect w))
  /\ Client.globalMapInstance (fst (Client.Map_effect w)) = snd (Client.Map_effect w)
  /\ exists h,
       snd (Client.Map_effect w) = Some h
       /\ nth_error (Client.maps (fst (Client.Map_effect w))) h
          = Some {| Client.layers := []; Client.removed := false |}.
Proof.
  intros w H. unfold Client.Map_effect. cbn [fst snd Client.maps Client.globalMapInstance].
  split; [|split; [reflexivity|]].
  - unfold Invariant.bare. cbn [Client.maps]. apply Forall_app. split; [exact H|].
    constructor; [reflexivity|constructor].
  - eexists. split; [reflexivity|].
    rewrite nth_error_app2 by lia. now rewrite Nat.sub_diag.
Qed.

(** Every render of [FloodMap] keeps what holds between renders. *)
Lemma render_between_renders : forall b query,
  Invariant.between_renders b ->
  Invariant.between_renders (Client.render same_number same_primitives b query).
Proof.
  intros [w t next] [isLoading data] [Hbare Htree].
  cbn [Client.window Client.mounted Client.arrays] in Hbare, Htree.
  unfold Client.render, Client.FloodMap, Invariant.between_renders.
  cbn [fst snd Client.window Client.mounted Client.arrays].
  destruct isLoading; cbn [fst snd].
  - (* the skeleton *)
    destruct t as [|m cs]; cbn [Client.commit fst snd].
    + now split.
    + destruct Htree as (_ & _ & (h & Href & _) & Hquiet).
      rewrite (proj2 (cleanups_of_quiet _ [] _
                        (Client.Map_cleanup (Client.mapInstanceRef m) w) Hquiet)).
      destruct (Map_cleanup_bare (Client.mapInstanceRef m) w Hbare) as [Hb Hnull].
      split; [exact Hb|]. apply Hnull. rewrite Href. discriminate.
  - (* the map and its circles *)
    set (zones := match data with Some l => l | None => [] end).
    set (bound := (S next + List.length zones)%nat).
    assert (Hnew : Forall (fun props =>
                             (Client.identity (Client.center props) < bound)%nat)
                          (Client.MapCircles (S next) zones)).
    { eapply Forall_impl; [|apply MapCircles_new]. cbn. intros props H.
      unfold bound. lia. }
    destruct t as [|m cs]; cbn [Client.commit fst snd].
    + (* mounted now *)
      destruct (effects_meet_null bound [] (Client.MapCircles (S next) zones) w []
                  Htree (Forall_nil _) (Forall_nil _) Hnew)
        as [Hw Hquiet].
      rewrite Hw.
      destruct (Map_effect_bare w Hbare) as (Hb & Hglobal & Hmap).
      split; [exact Hb|].
      split; [cbn; unfold bound; lia|].
      split; [exact Hglobal|]. split; [exact Hmap|exact Hquiet].
    + (* rendered again *)
      destruct Htree as (Hid & _ & (h & Href & _) & Hquiet).
      assert (Hchanged : Client.map_changed same_number m
                           {| Client.identity := next;
                              Client.items := (Client.literal (94981 # 10000),
                                               Client.literal (763388 # 10000)) |}
                           (Client.integer 10) = true).
      { unfold Client.map_changed, Client.same_object. cbn [Client.identity].
        replace (Nat.eqb (Client.identity (Client.last_center m)) next) with false
          by (symmetry; apply Nat.eqb_neq; lia).
        reflexivity. }
      rewrite Hchanged.
      rewrite (proj1 (cleanups_of_quiet _ (Client.MapCircles (S next) zones) _ w
                        Hquiet)).
      destruct (Map_cleanup_bare (Client.mapInstanceRef m) w Hbare) as [Hb Hnull].
      assert (Hn : Client.globalMapInstance (Client.Map_cleanup (Client.mapInstanceRef m) w)
                   = None)
        by (apply Hnull; rewrite Href; discriminate).
      assert (Hold : Forall (Invariant.quiet bound) cs).
      { eapply Forall_impl; [|exact Hquiet]. intros c. apply quiet_later.
        unfold bound. lia. }
      destruct (effects_meet_null bound cs (Client.MapCircles (S next) zones)
                  (Client.Map_cleanup (Client.mapInstanceRef m) w) []
                  Hn Hold (Forall_nil _) Hnew) as [Hw Hq].
      cbn [fst snd]. rewrite Hw.
      destruct (Map_effect_bare _ Hb) as (Hb' & Hglobal & Hmap).
      split; [exact Hb'|].
      split; [cbn; unfold bound; lia|].
      split; [exact Hglobal|]. split; [exact Hmap|exact Hq].
Qed.

Lemma renders_between_renders : forall queries b,
  Invariant.between_renders b ->
  Invariant.between_renders (Client.renders same_number same_primitives queries b).
Proof.
  induction queries as [|query rest IH]; intros b H; [exact H|].
  cbn. apply IH. now apply render_between_renders.
Qed.

Lemma bare_drawn : forall w, Invariant.bare w -> Client.drawn w = [].
Proof.
  intros w H. unfold Client.drawn.
  destruct (Client.globalMapInstance w) as [h|]; [|reflexivity].
  destruct (nth_error (Client.maps w) h) as [m|] eqn:Hm; [|reflexivity].
  apply nth_error_In in Hm. unfold Invariant.bare in H.
  rewrite Forall_forall in H. now rewrite (H m Hm).
Qed.

End ReactFacts.

Lemma loaded_between_renders : Invariant.between_renders Client.loaded.
Proof. split; [constructor|reflexivity]. Qed.

(** C8.  [FloodMap] never draws a circle.  It does render one
    [MapCircle] per zone, with the props the zone calls for
    ([MapCircles_props]), and the effect of a [MapCircle] that finds the
    map adds the circle of its zone ([MapCircle_on_map]).  But React runs
    the effects of the children before the effect of [Map], the one that
    sets [globalMapInstance]; and [FloodMap] passes [Map] a new [center]
    array at every render, so at every later render the cleanup of [Map]
    sets [globalMapInstance] back to [null] before the circle effects run
    again.  Whatever [useQuery] returns from render to render, every
    circle effect finds [null] and returns: no map ever has a circle.
    After a render with the fetched zones the map is there, live and
    empty, where the circles of the zones were to be. *)
Theorem FloodMap_draws_no_circle :
  forall same_number same_primitives queries,
    let browser := Client.renders same_number same_primitives queries Client.loaded in
    Forall (fun m => Client.layers m = []) (Client.maps (Client.window browser))
    /\ Client.drawn (Client.window browser) = []
    /\ forall earlier zones,
         queries = (earlier ++ [(false, Some zones)])%list ->
         (exists h,
            Client.globalMapInstance (Client.window browser) = Some h
            /\ nth_error (Client.maps (Client.window browser)) h
               = Some {| Client.layers := []; Client.removed := false |})
         /\ (zones <> [] ->
             Client.drawn (Client.window browser) <> map Spec.circle_of zones).
Proof.
  intros same_number same_primitives queries browser.
  pose proof (renders_between_renders same_number same_primitives queries
                Client.loaded loaded_between_renders) as Hinv.
  fold browser in Hinv. destruct Hinv as [Hbare Htree].
  split; [exact Hbare|]. split; [now apply bare_drawn|].
  intros earlier zones Hq. split.
  - subst browser. rewrite Hq in Htree |- *. unfold Client.renders in *.
    rewrite fold_left_app in Htree |- *. cbn [fold_left] in Htree |- *.
    remember (fold_left (Client.render same_number same_primitives) earlier
                Client.loaded) as b eqn:Hb.
    unfold Client.render, Client.FloodMap in Htree |- *.
    cbn [fst snd Client.window Client.mounted] in Htree |- *.
    destruct (Client.mounted b) as [|m cs];
      cbn [Client.commit fst snd Client.mounted Client.window] in Htree |- *.
    + destruct Htree as (_ & Hglobal & (h & Href & Hmap) & _).
      exists h. split; [|exact Hmap].
      cbn [Client.mapInstanceRef] in Hglobal, Href. now rewrite Hglobal.
    + destruct (Client.map_changed same_number m _ _);
        cbn [Client.mounted Client.window fst snd] in Htree |- *;
        destruct Htree as (_ & Hglobal & (h & Href & Hmap) & _);
        exists h; (split; [|exact Hmap]);
        cbn [Client.mapInstanceRef] in Hglobal, Href; now rewrite Hglobal.
  - intros Hne Heq. rewrite (bare_drawn _ Hbare) in Heq.
    destruct zones as [|zone rest]; [now apply Hne|discriminate Heq].
Qed.

Lemma FloodMap_draws_no_circle_witness :
  (exists h,
     Client.globalMapInstance
       (Client.window
          (Client.renders (fun _ _ => true) (fun _ _ => true)
             [(true, None); (false, Some [Sample.kuttanad])] Client.loaded))
     = Some h
     /\ nth_error
          (Client.maps
             (Client.window
                (Client.renders (fun _ _ => true) (fun _ _ => true)
                   [(true, None); (false, Some [Sample.kuttanad])] Client.loaded)))
          h
        = Some {| Client.layers := []; Client.removed := false |})
  /\ Client.drawn
       (Client.window
          (Client.renders (fun _ _ => true) (fun _ _ => true)
             [(true, None); (false, Some [Sample.kuttanad])] Client.loaded))
     <> map Spec.circle_of [Sample.kuttanad].
Proof.
  destruct (FloodMap_draws_no_circle (fun _ _ => true) (fun _ _ => true)
              [(true, None); (false, Some [Sample.kuttanad])])
    as (_ & _ & Hlast).
  destruct (Hlast [(true, None)] [Sample.kuttanad] eq_refl) as [Hmap Hdiffer].
  split; [exact Hmap|]. apply Hdiffer. discriminate.
Defined.

Set Implicit Arguments.

(* ===================================================================== *)
(** * Further properties of the storage *)
(* ===================================================================== *)

Unset Implicit Arguments.

(** ** Reading *)

(** X1. The list reads lose and invent nothing and put the row touched
    last first: [getFloodZones] returns the flood zones in descending
    order of [lastUpdated], [getResources] and [getResponseTeams] their
    tables in descending order of [updatedAt]. *)
Theorem list_reads_newest_first : forall db,
  (Permutation (DatabaseStorage.getFloodZones db) (t_floodZones db)
   /\ StronglySorted (Spec.desc_ok floodZones.lastUpdated)
        (DatabaseStorage.getFloodZones db))
  /\ (Permutation (DatabaseStorage.getResources db) (t_resources db)
      /\ StronglySorted (Spec.desc_ok resources.updatedAt)
           (DatabaseStorage.getResources db))
  /\ (Permutation (DatabaseStorage.getResponseTeams db) (t_responseTeams db)
      /\ StronglySorted (Spec.desc_ok responseTeams.updatedAt)
           (DatabaseStorage.getResponseTeams db)).
Proof.
  intros db. repeat split;
    first [apply orderBy_desc_perm | apply orderBy_desc_sorted].
Qed.

Lemma where_zone : forall (A : Type) (key : A -> option string) z rows,
  Sql.where_ (fun r => option_map (fun f => String.eqb f z) (key r)) rows
  = filter (fun r => match key r with
                     | Some f => String.eqb f z
                     | None => false
                     end) rows.
Proof.
  intros A key z rows. unfold Sql.where_. apply filter_ext. intros r.
  destruct (key r) as [f|]; [|reflexivity]. simpl.
  now destruct (String.eqb f z).
Qed.

(** X2. [getAffectedPopulation] and [getReliefDistributions], given a
    flood zone id that is not the empty string, return exactly the rows of
    that zone; given no id, or the empty string, they return every row.
    Either way the newest row comes first. *)
Theorem reads_by_flood_zone : forall db z,
  z <> "" ->
  (Permutation (DatabaseStorage.getAffectedPopulation db (Some z))
     (filter (fun p => match affectedPopulation.floodZoneId p with
                       | Some f => String.eqb f z
                       | None => false
                       end) (t_affectedPopulation db))
   /\ Permutation (DatabaseStorage.getReliefDistributions db (Some z))
        (filter (fun d => match reliefDistribution.floodZoneId d with
                          | Some f => String.eqb f z
                          | None => false
                          end) (t_reliefDistribution db)))
  /\ (forall none, none = None \/ none = Some "" ->
        Permutation (DatabaseStorage.getAffectedPopulation db none)
          (t_affectedPopulation db)
        /\ Permutation (DatabaseStorage.getReliefDistributions db none)
             (t_reliefDistribution db))
  /\ (forall which,
        StronglySorted (Spec.desc_ok affectedPopulation.createdAt)
          (DatabaseStorage.getAffectedPopulation db which)
        /\ StronglySorted (Spec.desc_ok reliefDistribution.distributionDate)
             (DatabaseStorage.getReliefDistributions db which)).
Proof.
  intros db z Hz. apply String.eqb_neq in Hz.
  unfold DatabaseStorage.getAffectedPopulation, DatabaseStorage.getReliefDistributions.
  split; [|split].
  - rewrite Hz. split; rewrite <- where_zone; apply orderBy_desc_perm.
  - intros none [-> | ->]; cbn; split; apply orderBy_desc_perm.
  - intros [w|]; [destruct (String.eqb w "")|]; split; apply orderBy_desc_sorted.
Qed.

Lemma reads_by_flood_zone_witness :
  Permutation
    (DatabaseStorage.getReliefDistributions
       (Session.after Sample.overdrawn emptyDB) (Some "z9"))
    [].
Proof.
  destruct (reads_by_flood_zone (Session.after Sample.overdrawn emptyDB) "z9")
    as ((_ & H) & _).
  - discriminate.
  - exact H.
Defined.

Lemma StronglySorted_app_l : forall (A : Type) (R : A -> A -> Prop) l1 l2,
  StronglySorted R (l1 ++ l2) -> StronglySorted R l1.
Proof.
  intros A R. induction l1 as [|a l1 IH]; intros l2 H; [constructor|].
  simpl in H. inversion H as [|? ? Hs Hall]; subst. constructor.
  - eapply IH. exact Hs.
  - apply Forall_app in Hall. tauto.
Qed.

(** X3. [getRecentActivities] with a limit from 0 up to the largest
    [bigint] returns the newest entries of the activity log, newest first:
    as many as the limit says, or all of them when there are fewer; no
    entry left out is newer than one returned.  Without a limit it behaves
    as with the limit 20.  A negative limit is no limit: every entry is
    returned, newest first. *)
Theorem recent_activities : forall db,
  (forall n, 0 <= n <= StorageRest.bigint_max ->
     exists shown hidden,
       StorageRest.getRecentActivities (Some n) db = Some shown
       /\ Permutation (shown ++ hidden) (t_activityLog db)
       /\ StronglySorted (Spec.desc_ok activityLog.createdAt) (shown ++ hidden)
       /\ Z.of_nat (List.length shown)
          = Z.min n (Z.of_nat (List.length (t_activityLog db))))
  /\ StorageRest.getRecentActivities None db
     = StorageRest.getRecentActivities (Some 20) db
  /\ (forall n, n < 0 ->
        exists shown,
          StorageRest.getRecentActivities (Some n) db = Some shown
          /\ Permutation shown (t_activityLog db)
          /\ StronglySorted (Spec.desc_ok activityLog.createdAt) shown).
Proof.
  intros db. split; [|split].
  - intros n [Hlo Hhi]. unfold StorageRest.getRecentActivities.
    replace (n <? 0) with false by (symmetry; apply Z.ltb_ge; lia).
    replace (StorageRest.bigint_max <? n) with false
      by (symmetry; apply Z.ltb_ge; lia).
    set (sorted := Sql.orderBy_desc activityLog.createdAt (t_activityLog db)).
    exists (firstn (Z.to_nat n) sorted), (skipn (Z.to_nat n) sorted).
    rewrite firstn_skipn. split; [reflexivity|]. split; [|split].
    + apply orderBy_desc_perm.
    + apply orderBy_desc_sorted.
    + rewrite length_firstn.
      assert (Hlen : List.length sorted = List.length (t_activityLog db))
        by (apply Permutation_length, orderBy_desc_perm).
      rewrite Hlen. lia.
  - reflexivity.
  - intros n Hn. unfold StorageRest.getRecentActivities.
    apply Z.ltb_lt in Hn. rewrite Hn. eexists. split; [reflexivity|]. split.
    + apply orderBy_desc_perm.
    + apply orderBy_desc_sorted.
Qed.

Lemma recent_activities_witness :
  (exists shown hidden,
      StorageRest.getRecentActivities (Some 5) emptyDB = Some shown
      /\ Permutation (shown ++ hidden) [])
  /\ (exists shown,
        StorageRest.getRecentActivities (Some (-1))
          (Session.after
             [ Session.logActivity "l1" 10
                 {| ial_type := "zone_creation";
                    ial_description := "Created flood zone: Kuttanad";
                    ial_entityType := undefined; ial_entityId := undefined;
                    ial_performedBy := undefined; ial_location := undefined;
                    ial_metadata := undefined |} ]
             emptyDB)
        = Some shown
        /\ List.length shown = 1%nat).
Proof.
  split.
  - destruct (recent_activities emptyDB) as (Hsome & _ & _).
    destruct (Hsome 5) as (shown & hidden & H1 & H2 & _).
    + unfold StorageRest.bigint_max. lia.
    + exists shown, hidden. split; [exact H1|exact H2].
  - destruct (recent_activities
                (Session.after
                   [ Session.logActivity "l1" 10
                       {| ial_type := "zone_creation";
                          ial_description := "Created flood zone: Kuttanad";
                          ial_entityType := undefined; ial_entityId := undefined;
                          ial_performedBy := undefined; ial_location := undefined;
                          ial_metadata := undefined |} ]
                   emptyDB)) as (_ & _ & Hneg).
    destruct (Hneg (-1)) as (shown & Hshown & Hperm & _); [lia|].
    exists shown. split; [exact Hshown|].
    apply Permutation_length in Hperm. exact Hperm.
Defined.

(** ** Writing, then reading *)

Lemma where_id_fresh : forall (A : Type) (id_of : A -> string) rows i,
  DatabaseStorage.has_id id_of rows i = false ->
  Sql.where_ (fun r => Some (String.eqb (id_of r) i)) rows = [].
Proof.
  intros A id_of rows i. unfold DatabaseStorage.has_id, Sql.where_.
  induction rows as [|r rest IH]; [reflexivity|].
  simpl. destruct (String.eqb (id_of r) i); simpl; [discriminate|exact IH].
Qed.

Lemma where_id_app : forall (A : Type) (id_of : A -> string) rows r i,
  Sql.where_ (fun r => Some (String.eqb (id_of r) i)) (rows ++ [r])
  = (Sql.where_ (fun r => Some (String.eqb (id_of r) i)) rows
     ++ (if String.eqb (id_of r) i then [r] else []))%list.
Proof.
  intros A id_of rows r i. unfold Sql.where_. rewrite filter_app. simpl.
  now destruct (String.eqb (id_of r) i).
Qed.

Lemma check_primary_key_ok : forall (A : Type) (id_of : A -> string) rows i u,
  DatabaseStorage.check_primary_key id_of rows i = Sql.Ok u ->
  DatabaseStorage.has_id id_of rows i = false.
Proof.
  intros A id_of rows i u. unfold DatabaseStorage.check_primary_key.
  now destruct (DatabaseStorage.has_id id_of rows i).
Qed.

(** What a statement that returned has done. *)
Ltac returned H :=
  unfold DatabaseStorage.statement in H;
  match type of H with
  | (match ?s with _ => _ end) = _ =>
      let Hs := fresh "Hs" in
      destruct s as [[? ?]|?] eqn:Hs; [|discriminate H];
      injection H as <- <-; cbv zeta in Hs; run_checks Hs; injection Hs as <- <-
  end.

(** X4. A resource or flood zone that has just been created is found under
    its id by [getResource] or [getFloodZone], and the create changes what
    is found under no other id. *)
Theorem create_then_get :
  (forall uuid now resource db db' row,
      DatabaseStorage.createResource uuid now resource db = (db', Sql.Ok row) ->
      DatabaseStorage.getResource db' uuid = Some row
      /\ resources.id row = uuid
      /\ forall i, i <> uuid ->
           DatabaseStorage.getResource db' i = DatabaseStorage.getResource db i)
  /\ (forall uuid now zone db db' row,
        DatabaseStorage.createFloodZone uuid now zone db = (db', Sql.Ok row) ->
        DatabaseStorage.getFloodZone db' uuid = Some row
        /\ floodZones.id row = uuid
        /\ forall i, i <> uuid ->
             DatabaseStorage.getFloodZone db' i = DatabaseStorage.getFloodZone db i).
Proof.
  split.
  - intros uuid now resource db db' row H.
    unfold DatabaseStorage.createResource in H. returned H.
    apply check_primary_key_ok in Hcheck.
    unfold DatabaseStorage.getResource. cbn [t_resources].
    split; [|split; [reflexivity|]].
    + rewrite where_id_app, (where_id_fresh _ _ _ _ Hcheck). cbn.
      now rewrite String.eqb_refl.
    + intros i Hi. rewrite where_id_app. cbn [resources.id].
      apply String.eqb_neq in Hi. rewrite String.eqb_sym, Hi.
      now rewrite app_nil_r.
  - intros uuid now zone db db' row H.
    unfold DatabaseStorage.createFloodZone in H. returned H.
    apply check_primary_key_ok in Hcheck.
    unfold DatabaseStorage.getFloodZone. cbn [t_floodZones].
    split; [|split; [reflexivity|]].
    + rewrite where_id_app, (where_id_fresh _ _ _ _ Hcheck). cbn.
      now rewrite String.eqb_refl.
    + intros i Hi. rewrite where_id_app. cbn [floodZones.id].
      apply String.eqb_neq in Hi. rewrite String.eqb_sym, Hi.
      now rewrite app_nil_r.
Qed.

Lemma create_then_get_witness :
  exists db' row,
    DatabaseStorage.createResource "r1" 1000 Sample.rice emptyDB = (db', Sql.Ok row)
    /\ DatabaseStorage.getResource db' "r1" = Some row.
Proof.
  destruct (DatabaseStorage.createResource "r1" 1000 Sample.rice emptyDB)
    as [db' [row|e]] eqn:H.
  - exists db', row. split; [reflexivity|].
    destruct create_then_get as [Hres _].
    exact (proj1 (Hres _ _ _ _ _ _ H)).
  - exfalso. vm_compute in H. discriminate H.
Defined.

(** ** The dashboard after a write *)

Lemma count_star_app : forall (A : Type) (rows : list A) r,
  Sql.count_star (rows ++ [r]) = Sql.count_star rows + 1.
Proof.
  intros A rows r. unfold Sql.count_star. rewrite length_app. simpl. lia.
Qed.

Lemma getDashboardStats_fields : forall db,
  exists p,
    DatabaseStorage.relief_percentage (t_resources db) = Sql.Ok p
    /\ DatabaseStorage.getDashboardStats db
       = Sql.Ok {| DatabaseStorage.activeZones :=
                     Sql.count_star (filter Spec.active (t_floodZones db));
                   DatabaseStorage.affectedPeople :=
                     Sql.count_star (t_affectedPopulation db);
                   DatabaseStorage.reliefDistributed := p;
                   DatabaseStorage.responseTeams :=
                     Sql.count_star (t_responseTeams db) |}.
Proof.
  intros db. destruct (relief_percentage_total (t_resources db)) as (p & Hp).
  exists p. split; [exact Hp|].
  unfold DatabaseStorage.getDashboardStats. rewrite Hp, where_active. reflexivity.
Qed.

(** X5. Creating a flood zone raises the dashboard's count of active zones
    by one when the zone is created active, which is also what happens
    when [isActive] is left out, and leaves it alone when [isActive] is
    false or [null]; the other three figures do not move. *)
Theorem new_zone_on_dashboard : forall uuid now zone db db' row,
  DatabaseStorage.createFloodZone uuid now zone db = (db', Sql.Ok row) ->
  exists before after,
    DatabaseStorage.getDashboardStats db = Sql.Ok before
    /\ DatabaseStorage.getDashboardStats db' = Sql.Ok after
    /\ DatabaseStorage.activeZones after
       = DatabaseStorage.activeZones before
         + match ifz_isActive zone with
           | undefined | value true => 1
           | null | value false => 0
           end
    /\ DatabaseStorage.affectedPeople after = DatabaseStorage.affectedPeople before
    /\ DatabaseStorage.reliefDistributed after
       = DatabaseStorage.reliefDistributed before
    /\ DatabaseStorage.responseTeams after = DatabaseStorage.responseTeams before.
Proof.
  intros uuid now zone db db' row H.
  unfold DatabaseStorage.createFloodZone in H. returned H.
  match goal with
  | |- context [DatabaseStorage.getDashboardStats ?d'] =>
      match d' with
      | db => fail 1
      | _ => destruct (getDashboardStats_fields d') as (p' & Hp' & Hafter)
      end
  end.
  destruct (getDashboardStats_fields db) as (p & Hp & Hbefore).
  cbn [t_resources] in Hp'. rewrite Hp in Hp'. injection Hp' as <-.
  eexists. eexists. split; [exact Hbefore|]. split; [exact Hafter|].
  cbn [DatabaseStorage.activeZones DatabaseStorage.affectedPeople
       DatabaseStorage.reliefDistributed DatabaseStorage.responseTeams
       t_floodZones t_affectedPopulation t_responseTeams].
  repeat split.
  rewrite filter_app. cbn [filter]. unfold Spec.active at 2. cbn [floodZones.isActive].
  destruct (ifz_isActive zone) as [| |[|]]; cbn [with_default];
    rewrite ?app_nil_r, ?count_star_app; lia.
Qed.

Lemma new_zone_on_dashboard_witness :
  exists before after,
    DatabaseStorage.getDashboardStats emptyDB = Sql.Ok before
    /\ DatabaseStorage.getDashboardStats
         (fst (DatabaseStorage.createFloodZone "z1" 10
                 {| ifz_name := "Kuttanad"; ifz_district := "Alappuzha";
                    ifz_latitude := "9.4981"; ifz_longitude := "76.3388";
                    ifz_riskLevel := "high"; ifz_radius := 5000;
                    ifz_waterLevel := undefined; ifz_dangerMark := undefined;
                    ifz_isActive := undefined |} emptyDB))
       = Sql.Ok after
    /\ DatabaseStorage.activeZones after = DatabaseStorage.activeZones before + 1.
Proof.
  destruct (DatabaseStorage.createFloodZone "z1" 10
              {| ifz_name := "Kuttanad"; ifz_district := "Alappuzha";
                 ifz_latitude := "9.4981"; ifz_longitude := "76.3388";
                 ifz_riskLevel := "high"; ifz_radius := 5000;
                 ifz_waterLevel := undefined; ifz_dangerMark := undefined;
                 ifz_isActive := undefined |} emptyDB) as [db' [row|e]] eqn:H.
  - destruct (new_zone_on_dashboard _ _ _ _ _ _ H)
      as (before & after & Hb & Ha & Hz & _).
    exists before, after. split; [exact Hb|]. split; [exact Ha|exact Hz].
  - exfalso. vm_compute in H. discriminate H.
Defined.

(** X6. Registering a person raises the dashboard's count of affected
    people by one, creating a response team raises the count of teams by
    one, and neither moves any other figure. *)
Theorem new_person_or_team_on_dashboard :
  (forall uuid now person db db' row,
      DatabaseStorage.createAffectedPerson uuid now person db = (db', Sql.Ok row) ->
      exists before after,
        DatabaseStorage.getDashboardStats db = Sql.Ok before
        /\ DatabaseStorage.getDashboardStats db' = Sql.Ok after
        /\ DatabaseStorage.affectedPeople after
           = DatabaseStorage.affectedPeople before + 1
        /\ DatabaseStorage.activeZones after = DatabaseStorage.activeZones before
        /\ DatabaseStorage.reliefDistributed after
           = DatabaseStorage.reliefDistributed before
        /\ DatabaseStorage.responseTeams after
           = DatabaseStorage.responseTeams before)
  /\ (forall uuid now team db db' row,
        DatabaseStorage.createResponseTeam uuid now team db = (db', Sql.Ok row) ->
        exists before after,
          DatabaseStorage.getDashboardStats db = Sql.Ok before
          /\ DatabaseStorage.getDashboardStats db' = Sql.Ok after
          /\ DatabaseStorage.responseTeams after
             = DatabaseStorage.responseTeams before + 1
          /\ DatabaseStorage.activeZones after = DatabaseStorage.activeZones before
          /\ DatabaseStorage.reliefDistributed after
             = DatabaseStorage.reliefDistributed before
          /\ DatabaseStorage.affectedPeople after
             = DatabaseStorage.affectedPeople before).
Proof.
  split.
  - intros uuid now person db db' row H.
    unfold DatabaseStorage.createAffectedPerson in H. returned H.
    match goal with
    | |- context [DatabaseStorage.getDashboardStats ?d'] =>
        match d' with
        | db => fail 1
        | _ => destruct (getDashboardStats_fields d') as (p' & Hp' & Hafter)
        end
    end.
    destruct (getDashboardStats_fields db) as (p & Hp & Hbefore).
    cbn [t_resources] in Hp'. rewrite Hp in Hp'. injection Hp' as <-.
    eexists. eexists. split; [exact Hbefore|]. split; [exact Hafter|].
    cbn [DatabaseStorage.activeZones DatabaseStorage.affectedPeople
         DatabaseStorage.reliefDistributed DatabaseStorage.responseTeams
         t_floodZones t_affectedPopulation t_responseTeams].
    rewrite count_star_app. repeat split.
  - intros uuid now team db db' row H.
    unfold DatabaseStorage.createResponseTeam in H. returned H.
    match goal with
    | |- context [DatabaseStorage.getDashboardStats ?d'] =>
        match d' with
        | db => fail 1
        | _ => destruct (getDashboardStats_fields d') as (p' & Hp' & Hafter)
        end
    end.
    destruct (getDashboardStats_fields db) as (p & Hp & Hbefore).
    cbn [t_resources] in Hp'. rewrite Hp in Hp'. injection Hp' as <-.
    eexists. eexists. split; [exact Hbefore|]. split; [exact Hafter|].
    cbn [DatabaseStorage.activeZones DatabaseStorage.affectedPeople
         DatabaseStorage.reliefDistributed DatabaseStorage.responseTeams
         t_floodZones t_affectedPopulation t_responseTeams].
    rewrite count_star_app. repeat split.
Qed.

Lemma new_person_or_team_on_dashboard_witness :
  exists before after,
    DatabaseStorage.getDashboardStats emptyDB = Sql.Ok before
    /\ DatabaseStorage.getDashboardStats
         (fst (DatabaseStorage.createResponseTeam "t1" 10
                 {| irt_name := "Alpha"; irt_type := "evacuation";
                    irt_status := "active"; irt_currentLocation := undefined;
                    irt_assignedZone := undefined; irt_memberCount := undefined;
                    irt_contactNumber := undefined; irt_leadOfficer := undefined |}
                 emptyDB))
       = Sql.Ok after
    /\ DatabaseStorage.responseTeams after = DatabaseStorage.responseTeams before + 1.
Proof.
  destruct (DatabaseStorage.createResponseTeam "t1" 10
              {| irt_name := "Alpha"; irt_type := "evacuation";
                 irt_status := "active"; irt_currentLocation := undefined;
                 irt_assignedZone := undefined; irt_memberCount := undefined;
                 irt_contactNumber := undefined; irt_leadOfficer := undefined |}
              emptyDB) as [db' [row|e]] eqn:H.
  - destruct new_person_or_team_on_dashboard as [_ Hteam].
    destruct (Hteam _ _ _ _ _ _ H) as (before & after & Hb & Ha & Ht & _).
    exists before, after. split; [exact Hb|]. split; [exact Ha|exact Ht].
  - exfalso. vm_compute in H. discriminate H.
Defined.

Lemma within_stock_sums : forall rows,
  Invariant.within_stock rows ->
  0 <= Spec.distributed_of rows <= Spec.total_of rows.
Proof.
  induction rows as [|r rest IH]; intros H; [simpl; lia|].
  assert (Hrest : Invariant.within_stock rest)
    by (intros x Hx; apply H; now right).
  specialize (IH Hrest).
  destruct (H r (or_introl eq_refl)) as (d & Hd & Hrange).
  simpl. rewrite Hd. lia.
Qed.

(** X7. While no resource has more distributed than it holds (each has a
    distributed quantity between 0 and its total) and there is stock at
    all, the percentage on the dashboard is a number from 0 to 100. *)
Theorem percentage_within_bounds : forall db,
  Invariant.within_stock (t_resources db) ->
  0 < Spec.total_of (t_resources db) ->
  exists stats p,
    DatabaseStorage.getDashboardStats db = Sql.Ok stats
    /\ DatabaseStorage.reliefDistributed stats = Some p
    /\ 0 <= p <= 100.
Proof.
  intros db Hstock HT.
  destruct (getDashboardStats_fields db) as (p & Hp & Hstats).
  assert (Hex : exists r, In r (t_resources db)
                          /\ resources.distributedQuantity r <> None).
  { destruct (t_resources db) as [|r rest] eqn:Hrows; [simpl in HT; lia|].
    exists r. split; [now left|].
    destruct (Hstock r (or_introl eq_refl)) as (d & Hd & _). congruence. }
  rewrite relief_percentage_ratio in Hp by (assumption || lia).
  injection Hp as <-.
  eexists. eexists. split; [exact Hstats|]. split; [reflexivity|].
  pose proof (within_stock_sums _ Hstock) as Hsums.
  assert (Hne : Spec.total_of (t_resources db) <> 0) by lia.
  pose proof (round_div_nearest (Spec.distributed_of (t_resources db) * 100) Hne)
    as Hnear.
  unfold Spec.nearest in Hnear.
  set (D := Spec.distributed_of (t_resources db)) in *.
  set (T := Spec.total_of (t_resources db)) in *.
  set (q := Sql.round_div (D * 100) T) in *.
  assert (Hband : - T <= 2 * (D * 100 - q * T) <= T) by lia.
  split; nia.
Qed.

Lemma percentage_within_bounds_witness :
  exists stats p,
    DatabaseStorage.getDashboardStats (Session.after Sample.stocked emptyDB)
    = Sql.Ok stats
    /\ DatabaseStorage.reliefDistributed stats = Some p
    /\ 0 <= p <= 100.
Proof.
  apply percentage_within_bounds.
  - intros r [<-|[]]. exists 0. split; [reflexivity|]. cbn. lia.
  - vm_compute. reflexivity.
Defined.

(** ** Relief distribution, continued *)

Lemma distributed_onto_sums : forall i quantity date rows rows',
  Forall2 (fun r r' =>
             if String.eqb (resources.id r) i
             then Spec.distributed_onto quantity date r r'
             else r' = r) rows rows' ->
  Spec.total_of rows' = Spec.total_of rows
  /\ map resources.id rows' = map resources.id rows
  /\ (NoDup (map resources.id rows) ->
      Spec.distributed_of rows'
      = Spec.distributed_of rows
        + match find (fun r => String.eqb (resources.id r) i) rows with
          | Some r => match resources.distributedQuantity r with
                      | Some _ => quantity
                      | None => 0
                      end
          | None => 0
          end).
Proof.
  intros i quantity date rows rows' H.
  induction H as [|r r' rest rest' Hr _ (IHT & IHid & IHD)].
  - repeat split.
  - destruct (String.eqb (resources.id r) i) eqn:Hi.
    + destruct Hr as (Hdq & _ & Hid & _ & _ & _ & Htot & _).
      split; [simpl; rewrite Htot, IHT; reflexivity|].
      split; [simpl; rewrite Hid, IHid; reflexivity|].
      intros Hnd. simpl in Hnd. inversion Hnd as [|? ? Hnotin Hnd']; subst.
      cbn [find]. rewrite Hi. cbn [Spec.distributed_of fold_right].
      fold (Spec.distributed_of rest). fold (Spec.distributed_of rest').
      rewrite (IHD Hnd').
      assert (Hnone : find (fun r0 => String.eqb (resources.id r0) i) rest = None).
      { destruct (find _ rest) as [x|] eqn:Hf; [|reflexivity].
        apply find_some in Hf. destruct Hf as [Hx Hxi].
        apply String.eqb_eq in Hxi. apply String.eqb_eq in Hi.
        exfalso. apply Hnotin. rewrite Hi, <- Hxi. now apply in_map. }
      rewrite Hnone, Hdq.
      destruct (resources.distributedQuantity r); simpl; lia.
    + subst r'. split; [simpl; rewrite IHT; reflexivity|].
      split; [simpl; rewrite IHid; reflexivity|].
      intros Hnd. simpl in Hnd. inversion Hnd as [|? ? _ Hnd']; subst.
      cbn [find]. rewrite Hi. cbn [Spec.distributed_of fold_right].
      fold (Spec.distributed_of rest). fold (Spec.distributed_of rest').
      rewrite (IHD Hnd'). destruct (resources.distributedQuantity r); lia.
Qed.

(** X8. A distribution that is recorded leaves the total stock as it was;
    and where resource ids are unique and the resource drawn from has a
    distributed quantity, the distributed sum over all resources grows by
    exactly the quantity of the distribution. *)
Theorem distribution_moves_the_sums :
  forall uuid now date distribution db db' row,
    DatabaseStorage.createReliefDistribution uuid now date distribution db
    = (db', Sql.Ok row) ->
    Spec.total_of (t_resources db') = Spec.total_of (t_resources db)
    /\ (Invariant.unique resources.id (t_resources db) ->
        (forall r, In r (t_resources db) ->
                   resources.id r = ird_resourceId distribution ->
                   resources.distributedQuantity r <> None) ->
        Spec.distributed_of (t_resources db')
        = Spec.distributed_of (t_resources db) + ird_quantity distribution).
Proof.
  intros uuid now date distribution db db' row H.
  unfold DatabaseStorage.createReliefDistribution in H.
  destruct (DatabaseStorage.insert_reliefDistribution uuid now distribution db)
    as [db1 [row1|e]] eqn:Hins; [|discriminate H].
  apply insert_reliefDistribution_ok in Hins.
  destruct Hins as (_ & _ & _ & _ & (r0 & Hin0 & Hid0) & _ & _ & _ & Hr & _).
  unfold DatabaseStorage.update_resource_quantities, DatabaseStorage.statement in H.
  destruct (DatabaseStorage.update_where_id (ird_resourceId distribution)
              (DatabaseStorage.set_distributed (ird_quantity distribution) date)
              (t_resources db1)) as [rows'|e] eqn:Hupd; cbn in H; [|discriminate H].
  injection H as <- <-. cbn [t_resources].
  rewrite Hr in Hupd. apply update_where_id_ok in Hupd.
  destruct (@distributed_onto_sums _ _ _ _ _ Hupd) as (HT & _ & HD).
  split; [exact HT|].
  intros Hunique Hdq. rewrite (HD Hunique).
  destruct (find (fun r => String.eqb (resources.id r) (ird_resourceId distribution))
              (t_resources db)) as [r|] eqn:Hfind.
  - apply find_some in Hfind. destruct Hfind as [Hin Hid].
    apply String.eqb_eq in Hid. specialize (Hdq r Hin Hid).
    destruct (resources.distributedQuantity r); [reflexivity|congruence].
  - exfalso. apply (find_none _ _ Hfind) in Hin0.
    apply String.eqb_neq in Hin0. contradiction.
Qed.

Lemma distribution_moves_the_sums_witness :
  exists db' row,
    DatabaseStorage.createReliefDistribution "d1" 2000 2001 Sample.twenty
      (Session.after Sample.stocked emptyDB) = (db', Sql.Ok row)
    /\ Spec.distributed_of (t_resources db') = 0 + 20.
Proof.
  destruct (DatabaseStorage.createReliefDistribution "d1" 2000 2001 Sample.twenty
              (Session.after Sample.stocked emptyDB)) as [db' [row|e]] eqn:H.
  - exists db', row. split; [reflexivity|].
    destruct (distribution_moves_the_sums _ _ _ _ _ _ _ H) as (_ & Hsum).
    apply Hsum.
    + repeat constructor. intros [].
    + intros r [<-|[]] _. discriminate.
  - exfalso. vm_compute in H. discriminate H.
Defined.

(** X9. [createReliefDistribution] is not one transaction.  When it
    throws, the resources are as they were; the other tables too, except
    that when what failed is the addition to the distributed quantity (it
    left the 32-bit range), the distribution row has been inserted and
    stays. *)
Theorem failed_distribution :
  forall uuid now date distribution db db' e,
    DatabaseStorage.createReliefDistribution uuid now date distribution db
    = (db', Sql.Err e) ->
    t_resources db' = t_resources db
    /\ (db' = db
        \/ (e = Sql.numeric_value_out_of_range
            /\ exists row,
                 DatabaseStorage.insert_reliefDistribution uuid now distribution db
                 = (db', Sql.Ok row)
                 /\ t_reliefDistribution db'
                    = (t_reliefDistribution db ++ [row])%list)).
Proof.
  intros uuid now date distribution db db' e H.
  unfold DatabaseStorage.createReliefDistribution in H.
  destruct (DatabaseStorage.insert_reliefDistribution uuid now distribution db)
    as [db1 [row1|e1]] eqn:Hins.
  - pose proof (insert_reliefDistribution_ok _ _ _ _ Hins)
      as (Hd & _ & _ & _ & _ & _ & _ & _ & Hr & _).
    unfold DatabaseStorage.update_resource_quantities, DatabaseStorage.statement in H.
    destruct (DatabaseStorage.update_where_id (ird_resourceId distribution)
                (DatabaseStorage.set_distributed (ird_quantity distribution) date)
                (t_resources db1)) as [rows'|e2] eqn:Hupd; cbn in H;
      [discriminate H|].
    injection H as <- <-. split; [exact Hr|]. right. split.
    + clear - Hupd. revert Hupd.
      induction (t_resources db1) as [|r rest IH]; [discriminate|].
      cbn [DatabaseStorage.update_where_id].
      destruct (String.eqb (resources.id r) (ird_resourceId distribution)).
      * unfold DatabaseStorage.set_distributed at 1, Sql.int4_add.
        destruct (resources.distributedQuantity r) as [d|]; cbn.
        -- destruct (Sql.int4_ok (d + ird_quantity distribution)); cbn.
           ++ destruct (DatabaseStorage.update_where_id _ _ rest); cbn;
                [discriminate|]. intros Heq. injection Heq as <-. now apply IH.
           ++ intros Heq. now injection Heq as <-.
        -- destruct (DatabaseStorage.update_where_id _ _ rest); cbn;
             [discriminate|]. intros Heq. injection Heq as <-. now apply IH.
      * cbn. destruct (DatabaseStorage.update_where_id _ _ rest); cbn;
          [discriminate|]. intros Heq. injection Heq as <-. now apply IH.
    + exists row1. split; [reflexivity|exact Hd].
  - injection H as <- <-.
    unfold DatabaseStorage.insert_reliefDistribution, DatabaseStorage.statement in Hins.
    match type of Hins with
    | (match ?s with _ => _ end) = _ => destruct s as [[? ?]|?]
    end; [discriminate Hins|].
    injection Hins as <- _. split; [reflexivity|now left].
Qed.

Lemma failed_distribution_witness :
  exists db',
    DatabaseStorage.createReliefDistribution "d1" 2000 2001 Sample.twenty
      (Session.after [Session.createResource "r1" 1000 Sample.brimful] emptyDB)
    = (db', Sql.Err Sql.numeric_value_out_of_range)
    /\ t_resources db'
       = t_resources
           (Session.after [Session.createResource "r1" 1000 Sample.brimful] emptyDB).
Proof.
  destruct (DatabaseStorage.createReliefDistribution "d1" 2000 2001 Sample.twenty
              (Session.after [Session.createResource "r1" 1000 Sample.brimful] emptyDB))
    as [db' [row|e]] eqn:H.
  - exfalso. vm_compute in H. discriminate H.
  - assert (He : e = Sql.numeric_value_out_of_range)
      by (vm_compute in H; now injection H as _ <-).
    subst e. exists db'. split; [reflexivity|].
    exact (proj1 (failed_distribution _ _ _ _ _ _ _ H)).
Defined.

(** ** Updates *)

Lemma update_rows_unknown : forall (A : Type) (id_of : A -> string) i set rows,
  (forall r, In r rows -> id_of r <> i) ->
  StorageRest.update_rows id_of i set rows = Sql.Ok (rows, []).
Proof.
  intros A id_of i set. induction rows as [|r rest IH]; intros H; [reflexivity|].
  cbn [StorageRest.update_rows].
  assert (Hr : String.eqb (id_of r) i = false)
    by (apply String.eqb_neq, H; now left).
  rewrite Hr, IH by (intros x Hx; apply H; now right). reflexivity.
Qed.

Lemma update_rows_always : forall (A : Type) (id_of : A -> string) i g rows,
  StorageRest.update_rows id_of i (fun r => Sql.Ok (g r)) rows
  = Sql.Ok (map (fun a => if String.eqb (id_of a) i then g a else a) rows,
            map g (filter (fun a => String.eqb (id_of a) i) rows)).
Proof.
  intros A id_of i g. induction rows as [|r rest IH]; [reflexivity|].
  cbn [StorageRest.update_rows map filter]. rewrite IH.
  destruct (String.eqb (id_of r) i); reflexivity.
Qed.

Lemma filter_id_unique : forall (A : Type) (id_of : A -> string) rows r,
  NoDup (map id_of rows) -> In r rows ->
  filter (fun a => String.eqb (id_of a) (id_of r)) rows = [r].
Proof.
  intros A id_of. induction rows as [|h t IH]; intros r Hnd Hin; [destruct Hin|].
  simpl in Hnd. inversion Hnd as [|? ? Hnotin Hnd']; subst.
  cbn [filter]. destruct Hin as [->|Hin].
  - rewrite String.eqb_refl. f_equal.
    clear - Hnotin. induction t as [|x t IH]; [reflexivity|].
    cbn [filter]. destruct (String.eqb (id_of x) (id_of r)) eqn:Hx.
    + apply String.eqb_eq in Hx. exfalso. apply Hnotin. left. exact Hx.
    + apply IH. intros Hin. apply Hnotin. now right.
  - destruct (String.eqb (id_of h) (id_of r)) eqn:Hh.
    + apply String.eqb_eq in Hh. exfalso. apply Hnotin. rewrite Hh.
      now apply in_map.
    + now apply IH.
Qed.

Lemma check_int4_in_range : forall z,
  Sql.int4_ok_opt z = true -> DatabaseStorage.check_int4 z = Sql.Ok tt.
Proof. intros z H. unfold DatabaseStorage.check_int4. now rewrite H. Qed.

(** X10. An update that names an id no row has returns [undefined] and
    changes nothing: so for [updateFloodZone], [updateAffectedPerson],
    [updateResource] and [updateResponseTeam], given an update of the
    declared type whose integers are within the 32-bit range and which,
    for a flood zone or a person, names no [decimal] column (latitude,
    longitude, water level, danger mark). *)
Theorem update_of_unknown_id :
  (forall i zone date db,
      (forall r, In r (t_floodZones db) -> floodZones.id r <> i) ->
      Sql.int4_ok_opt (StorageRest.pfz_radius zone) = true ->
      SpecRest.no_decimal_of_zone zone ->
      StorageRest.updateFloodZone i zone date db = (db, Sql.Ok None))
  /\ (forall i updates date db,
        (forall r, In r (t_affectedPopulation db) -> affectedPopulation.id r <> i) ->
        Sql.int4_ok_opt (StorageRest.sent (StorageRest.pap_age updates)) = true ->
        Sql.int4_ok_opt (StorageRest.sent (StorageRest.pap_familyMembers updates))
        = true ->
        SpecRest.no_decimal_of_person updates ->
        StorageRest.updateAffectedPerson i updates date db = (db, Sql.Ok None))
  /\ (forall i updates date db,
        (forall r, In r (t_resources db) -> resources.id r <> i) ->
        Sql.int4_ok_opt (StorageRest.pr_totalQuantity updates) = true ->
        Sql.int4_ok_opt (StorageRest.sent (StorageRest.pr_allocatedQuantity updates))
        = true ->
        Sql.int4_ok_opt (StorageRest.sent (StorageRest.pr_distributedQuantity updates))
        = true ->
        StorageRest.updateResource i updates date db = (db, Sql.Ok None))
  /\ (forall i updates date db,
        (forall r, In r (t_responseTeams db) -> responseTeams.id r <> i) ->
        Sql.int4_ok_opt (StorageRest.sent (StorageRest.prt_memberCount updates))
        = true ->
        StorageRest.updateResponseTeam i updates date db = (db, Sql.Ok None)).
Proof.
  split; [|split; [|split]].
  - intros i zone date db Hnone Hr _.
    unfold StorageRest.updateFloodZone, DatabaseStorage.statement.
    rewrite (check_int4_in_range _ Hr). cbn [Sql.bind].
    rewrite (update_rows_unknown _ _ _ _ _ Hnone). now destruct db.
  - intros i updates date db Hnone Ha Hf _.
    unfold StorageRest.updateAffectedPerson, DatabaseStorage.statement.
    rewrite (check_int4_in_range _ Ha), (check_int4_in_range _ Hf). cbn [Sql.bind].
    rewrite (update_rows_unknown _ _ _ _ _ Hnone). now destruct db.
  - intros i updates date db Hnone Ht Ha Hd.
    unfold StorageRest.updateResource, DatabaseStorage.statement.
    rewrite (check_int4_in_range _ Ht), (check_int4_in_range _ Ha),
      (check_int4_in_range _ Hd). cbn [Sql.bind].
    rewrite (update_rows_unknown _ _ _ _ _ Hnone). now destruct db.
  - intros i updates date db Hnone Hm.
    unfold StorageRest.updateResponseTeam, DatabaseStorage.statement.
    rewrite (check_int4_in_range _ Hm). cbn [Sql.bind].
    rewrite (update_rows_unknown _ _ _ _ _ Hnone). now destruct db.
Qed.

Lemma update_of_unknown_id_witness :
  StorageRest.updateResource "r9"
    {| StorageRest.pr_name := None; StorageRest.pr_type := None;
       StorageRest.pr_unit := None; StorageRest.pr_totalQuantity := Some 50;
       StorageRest.pr_allocatedQuantity := undefined;
       StorageRest.pr_distributedQuantity := undefined;
       StorageRest.pr_priority := None; StorageRest.pr_location := undefined;
       StorageRest.pr_expiryDate := undefined |}
    3000 (Session.after Sample.stocked emptyDB)
  = (Session.after Sample.stocked emptyDB, Sql.Ok None)
  /\ StorageRest.updateFloodZone "z9" SampleRest.switch_off 3000
       (Session.after Sample.stocked emptyDB)
     = (Session.after Sample.stocked emptyDB, Sql.Ok None)
  /\ StorageRest.updateAffectedPerson "p9"
       {| StorageRest.pap_name := None; StorageRest.pap_age := value 40;
          StorageRest.pap_gender := undefined;
          StorageRest.pap_phoneNumber := undefined;
          StorageRest.pap_address := undefined;
          StorageRest.pap_latitude := undefined;
          StorageRest.pap_longitude := null;
          StorageRest.pap_floodZoneId := undefined;
          StorageRest.pap_evacuationStatus := Some "safe";
          StorageRest.pap_medicalNeeds := undefined;
          StorageRest.pap_familyMembers := undefined;
          StorageRest.pap_registeredBy := undefined |}
       3000 (Session.after Sample.stocked emptyDB)
     = (Session.after Sample.stocked emptyDB, Sql.Ok None)
  /\ StorageRest.updateResponseTeam "t9"
       {| StorageRest.prt_name := None; StorageRest.prt_type := None;
          StorageRest.prt_status := Some "standby";
          StorageRest.prt_currentLocation := undefined;
          StorageRest.prt_assignedZone := undefined;
          StorageRest.prt_memberCount := value 6;
          StorageRest.prt_contactNumber := undefined;
          StorageRest.prt_leadOfficer := undefined |}
       3000 (Session.after Sample.stocked emptyDB)
     = (Session.after Sample.stocked emptyDB, Sql.Ok None).
Proof.
  destruct update_of_unknown_id as (Hzone & Hperson & Hres & Hteam).
  split; [|split; [|split]].
  - apply Hres.
    + intros r [<-|[]]. discriminate.
    + reflexivity.
    + reflexivity.
    + reflexivity.
  - apply Hzone.
    + intros r [].
    + reflexivity.
    + unfold SpecRest.no_decimal_of_zone. simpl. tauto.
  - apply Hperson.
    + intros r [].
    + reflexivity.
    + reflexivity.
    + unfold SpecRest.no_decimal_of_person. simpl. tauto.
  - apply Hteam.
    + intros r [].
    + reflexivity.
Defined.

(** X11. [updateResource] on the id of a resource, where ids are unique,
    given an update of the declared type [Partial<InsertResource>] with
    integers in the 32-bit range, returns that resource as rewritten:
    each column the update names holds the value the update gives it
    ([null] empties a nullable column), each column it does not name is
    as it was, [updatedAt] is the current date, and [id] and [createdAt],
    which the type has no key for, are as they were.  The table keeps its
    length and order, every other resource and every other table is as
    before. *)
Theorem update_of_a_resource : forall i updates date db r,
  Invariant.unique resources.id (t_resources db) ->
  In r (t_resources db) ->
  resources.id r = i ->
  Sql.int4_ok_opt (StorageRest.pr_totalQuantity updates) = true ->
  Sql.int4_ok_opt (StorageRest.sent (StorageRest.pr_allocatedQuantity updates))
  = true ->
  Sql.int4_ok_opt (StorageRest.sent (StorageRest.pr_distributedQuantity updates))
  = true ->
  exists db' row,
    StorageRest.updateResource i updates date db = (db', Sql.Ok (Some row))
    /\ SpecRest.resource_rewritten updates date r row
    /\ Forall2 (fun a b => if String.eqb (resources.id a) i
                           then b = row else b = a)
               (t_resources db) (t_resources db')
    /\ t_users db' = t_users db
    /\ t_floodZones db' = t_floodZones db
    /\ t_affectedPopulation db' = t_affectedPopulation db
    /\ t_reliefDistribution db' = t_reliefDistribution db
    /\ t_weatherAlerts db' = t_weatherAlerts db
    /\ t_responseTeams db' = t_responseTeams db
    /\ t_activityLog db' = t_activityLog db.
Proof.
  intros i updates date db r Hunique Hin Hid Ht Ha Hd. subst i.
  unfold StorageRest.updateResource, DatabaseStorage.statement.
  rewrite (check_int4_in_range _ Ht), (check_int4_in_range _ Ha),
    (check_int4_in_range _ Hd). cbn [Sql.bind].
  rewrite update_rows_always. cbn [Sql.bind fst snd].
  rewrite (filter_id_unique _ _ _ _ Hunique Hin). cbn [map hd_error].
  eexists. eexists. split; [reflexivity|]. split.
  { unfold SpecRest.resource_rewritten, StorageRest.set_resource,
      SpecRest.takes, SpecRest.takes_nullable.
    cbn [resources.id resources.name resources.type resources.unit
         resources.totalQuantity resources.allocatedQuantity
         resources.distributedQuantity resources.priority resources.location
         resources.expiryDate resources.createdAt resources.updatedAt].
    destruct updates as [n t u tq aq dq pr loc ex];
      cbn [StorageRest.pr_name StorageRest.pr_type StorageRest.pr_unit
           StorageRest.pr_totalQuantity StorageRest.pr_allocatedQuantity
           StorageRest.pr_distributedQuantity StorageRest.pr_priority
           StorageRest.pr_location StorageRest.pr_expiryDate].
    destruct n, t, u, tq, aq, dq, pr, loc, ex;
      cbn [StorageRest.assign StorageRest.assign_nullable]; repeat split. }
  cbn [t_users t_floodZones t_affectedPopulation t_resources
       t_reliefDistribution t_weatherAlerts t_responseTeams t_activityLog].
  repeat split.
  unfold Invariant.unique in Hunique.
  assert (Hall : forall a, In a (t_resources db) ->
                   String.eqb (resources.id a) (resources.id r) = true -> a = r).
  { intros a Ha' Heq.
    pose proof (filter_id_unique _ resources.id _ r Hunique Hin) as Hf.
    assert (Hina : In a (filter (fun x => String.eqb (resources.id x) (resources.id r))
                           (t_resources db)))
      by (apply filter_In; split; assumption).
    rewrite Hf in Hina. destruct Hina as [<-|[]]. reflexivity. }
  clear Hunique Hin.
  induction (t_resources db) as [|a rest IH]; cbn [map]; constructor.
  - destruct (String.eqb (resources.id a) (resources.id r)) eqn:Heq; [|reflexivity].
    rewrite (Hall a (or_introl eq_refl) Heq). reflexivity.
  - apply IH. intros x Hx. apply Hall. now right.
Qed.

Lemma update_of_a_resource_witness :
  exists db' row,
    StorageRest.updateResource "r1"
      {| StorageRest.pr_name := None; StorageRest.pr_type := None;
         StorageRest.pr_unit := None; StorageRest.pr_totalQuantity := Some 50;
         StorageRest.pr_allocatedQuantity := undefined;
         StorageRest.pr_distributedQuantity := undefined;
         StorageRest.pr_priority := None; StorageRest.pr_location := undefined;
         StorageRest.pr_expiryDate := undefined |}
      3000 (Session.after Sample.stocked emptyDB)
    = (db', Sql.Ok (Some row))
    /\ resources.totalQuantity row = 50
    /\ resources.name row = "Rice"
    /\ resources.updatedAt row = Some 3000.
Proof.
  edestruct (update_of_a_resource "r1"
               {| StorageRest.pr_name := None; StorageRest.pr_type := None;
                  StorageRest.pr_unit := None; StorageRest.pr_totalQuantity := Some 50;
                  StorageRest.pr_allocatedQuantity := undefined;
                  StorageRest.pr_distributedQuantity := undefined;
                  StorageRest.pr_priority := None; StorageRest.pr_location := undefined;
                  StorageRest.pr_expiryDate := undefined |}
               3000 (Session.after Sample.stocked emptyDB))
    as (db' & row & Hrun & Hrow & _).
  - repeat constructor. intros [].
  - left. reflexivity.
  - reflexivity.
  - reflexivity.
  - reflexivity.
  - reflexivity.
  - exists db', row. split; [exact Hrun|].
    destruct Hrow as (_ & Hname & _ & _ & Htotal & _ & _ & _ & _ & _ & _ & Hupd).
    split; [exact Htotal|]. split; [exact Hname|exact Hupd].
Defined.

Lemma count_active_rewritten : forall (g : floodZones.row -> floodZones.row) rows z,
  NoDup (map floodZones.id rows) -> In z rows ->
  Sql.count_star
    (filter Spec.active
       (map (fun a => if String.eqb (floodZones.id a) (floodZones.id z)
                      then g a else a) rows))
  + (if Spec.active z then 1 else 0)
  = Sql.count_star (filter Spec.active rows) + (if Spec.active (g z) then 1 else 0).
Proof.
  intros g. unfold Sql.count_star.
  induction rows as [|h t IH]; intros z Hnd Hin; [destruct Hin|].
  simpl in Hnd. inversion Hnd as [|? ? Hnotin Hnd']; subst.
  cbn [map filter]. destruct Hin as [->|Hin].
  - rewrite String.eqb_refl.
    assert (Hsame : map (fun a => if String.eqb (floodZones.id a) (floodZones.id z)
                                  then g a else a) t = t).
    { apply map_unchanged. intros a Ha.
      destruct (String.eqb (floodZones.id a) (floodZones.id z)) eqn:Heq; [|reflexivity].
      apply String.eqb_eq in Heq. exfalso. apply Hnotin. rewrite <- Heq.
      now apply in_map. }
    rewrite Hsame.
    destruct (Spec.active z), (Spec.active (g z)); cbn [List.length]; lia.
  - assert (Hh : String.eqb (floodZones.id h) (floodZones.id z) = false).
    { apply String.eqb_neq. intros Heq. apply Hnotin. rewrite Heq.
      now apply in_map. }
    rewrite Hh. specialize (IH z Hnd' Hin).
    destruct (Spec.active h); cbn [List.length]; lia.
Qed.

Lemma set_floodZone_rewritten : forall zone date z,
  SpecRest.zone_rewritten zone date z (StorageRest.set_floodZone zone date z).
Proof.
  intros zone date z.
  unfold SpecRest.zone_rewritten, StorageRest.set_floodZone,
    SpecRest.takes, SpecRest.takes_nullable.
  cbn [floodZones.id floodZones.name floodZones.district floodZones.latitude
       floodZones.longitude floodZones.riskLevel floodZones.radius
       floodZones.waterLevel floodZones.dangerMark floodZones.isActive
       floodZones.lastUpdated floodZones.createdAt].
  destruct zone as [n d la lo ri ra wl dm ia];
    cbn [StorageRest.pfz_name StorageRest.pfz_district StorageRest.pfz_latitude
         StorageRest.pfz_longitude StorageRest.pfz_riskLevel StorageRest.pfz_radius
         StorageRest.pfz_waterLevel StorageRest.pfz_dangerMark
         StorageRest.pfz_isActive].
  destruct n, d, la, lo, ri, ra, wl, dm, ia;
    cbn [StorageRest.assign StorageRest.assign_nullable]; repeat split.
Qed.

Lemma active_after_set : forall zone date z,
  Spec.active (StorageRest.set_floodZone zone date z) = SpecRest.active_after zone z.
Proof.
  intros zone date z. unfold Spec.active, SpecRest.active_after,
    StorageRest.set_floodZone. cbn [floodZones.isActive].
  destruct (StorageRest.pfz_isActive zone) as [| |[|]]; reflexivity.
Qed.

(** X12. [updateFloodZone] on the id of a zone, where ids are unique,
    given an update of the declared type that names no [decimal] column
    and has its radius in the 32-bit range, returns the zone as rewritten
    and moves the dashboard's count of active zones by the change of that
    one zone: down by one when an active zone is set inactive (or its
    flag emptied), up by one when an inactive one is set active, not at
    all otherwise; an update that does not name [isActive] never moves
    it.  The other three figures stay. *)
Theorem update_of_a_zone_on_dashboard : forall i zone date db z,
  Invariant.unique floodZones.id (t_floodZones db) ->
  In z (t_floodZones db) ->
  floodZones.id z = i ->
  Sql.int4_ok_opt (StorageRest.pfz_radius zone) = true ->
  SpecRest.no_decimal_of_zone zone ->
  exists db' row before after,
    StorageRest.updateFloodZone i zone date db = (db', Sql.Ok (Some row))
    /\ SpecRest.zone_rewritten zone date z row
    /\ DatabaseStorage.getDashboardStats db = Sql.Ok before
    /\ DatabaseStorage.getDashboardStats db' = Sql.Ok after
    /\ DatabaseStorage.activeZones after
       = DatabaseStorage.activeZones before
         + match floodZones.isActive z, StorageRest.pfz_isActive zone with
           | Some true, (null | value false) => - 1
           | (None | Some false), value true => 1
           | _, _ => 0
           end
    /\ DatabaseStorage.affectedPeople after = DatabaseStorage.affectedPeople before
    /\ DatabaseStorage.reliefDistributed after
       = DatabaseStorage.reliefDistributed before
    /\ DatabaseStorage.responseTeams after = DatabaseStorage.responseTeams before.
Proof.
  intros i zone date db z Hunique Hin Hid Hr _. subst i.
  unfold StorageRest.updateFloodZone, DatabaseStorage.statement.
  rewrite (check_int4_in_range _ Hr). cbn [Sql.bind].
  rewrite update_rows_always. cbn [Sql.bind fst snd].
  rewrite (filter_id_unique _ _ _ _ Hunique Hin). cbn [map hd_error].
  match goal with
  | |- exists db' _ _ _, (?d, _) = _ /\ _ =>
      destruct (getDashboardStats_fields d) as (p' & Hp' & Hafter)
  end.
  destruct (getDashboardStats_fields db) as (p & Hp & Hbefore).
  cbn [t_resources] in Hp'. rewrite Hp in Hp'. injection Hp' as <-.
  eexists. eexists. eexists. eexists. split; [reflexivity|].
  split; [apply set_floodZone_rewritten|].
  split; [exact Hbefore|]. split; [exact Hafter|].
  cbn [DatabaseStorage.activeZones DatabaseStorage.affectedPeople
       DatabaseStorage.reliefDistributed DatabaseStorage.responseTeams
       t_floodZones t_affectedPopulation t_responseTeams].
  pose proof (count_active_rewritten (StorageRest.set_floodZone zone date)
                (t_floodZones db) z Hunique Hin) as Hcount.
  rewrite active_after_set in Hcount.
  split; [|repeat split].
  assert (Hdelta : (if SpecRest.active_after zone z then 1 else 0)
                   - (if Spec.active z then 1 else 0)
                   = match floodZones.isActive z, StorageRest.pfz_isActive zone with
                     | Some true, (null | value false) => - 1
                     | (None | Some false), value true => 1
                     | _, _ => 0
                     end).
  { unfold SpecRest.active_after, Spec.active.
    destruct (floodZones.isActive z) as [[|]|],
             (StorageRest.pfz_isActive zone) as [| |[|]]; reflexivity. }
  rewrite <- Hdelta.
  match type of Hcount with
  | ?ca + _ = ?cb + _ =>
      change (ca = cb + ((if SpecRest.active_after zone z then 1 else 0)
                         - (if Spec.active z then 1 else 0)))
  end.
  lia.
Qed.

Lemma update_of_a_zone_on_dashboard_witness :
  exists db' row before after,
    StorageRest.updateFloodZone "z1" SampleRest.switch_off 40
      (fst (DatabaseStorage.createFloodZone "z1" 10 SampleRest.kuttanad emptyDB))
    = (db', Sql.Ok (Some row))
    /\ floodZones.isActive row = Some false
    /\ floodZones.name row = "Kuttanad"
    /\ DatabaseStorage.activeZones before = 1
    /\ DatabaseStorage.activeZones after = 0
    /\ DatabaseStorage.getDashboardStats db' = Sql.Ok after.
Proof.
  destruct (update_of_a_zone_on_dashboard "z1" SampleRest.switch_off 40
              (fst (DatabaseStorage.createFloodZone "z1" 10 SampleRest.kuttanad emptyDB))
              Sample.kuttanad)
    as (db' & row & before & after & Hrun & Hrow & Hb & Ha & Hcount & _).
  - repeat constructor. intros [].
  - left. reflexivity.
  - reflexivity.
  - reflexivity.
  - unfold SpecRest.no_decimal_of_zone. simpl. tauto.
  - exists db', row, before, after. split; [exact Hrun|].
    destruct Hrow as (_ & Hname & _ & _ & _ & _ & _ & _ & _ & Hactive & _).
    split; [exact Hactive|]. split; [exact Hname|].
    vm_compute in Hb. injection Hb as <-.
    cbn in Hcount. split; [reflexivity|]. split; [|exact Ha].
    cbn [DatabaseStorage.activeZones] in Hcount. lia.
Defined.

(* ===================================================================== *)
(** * Invariants of the database *)
(* ===================================================================== *)

Lemma has_id_ids : forall (A : Type) (id_of : A -> string) rows i,
  DatabaseStorage.has_id id_of rows i
  = existsb (fun j => String.eqb j i) (map id_of rows).
Proof.
  intros A id_of rows i. unfold DatabaseStorage.has_id.
  induction rows as [|r rest IH]; [reflexivity|]. simpl. now rewrite IH.
Qed.

Lemma has_id_false : forall (A : Type) (id_of : A -> string) rows i,
  DatabaseStorage.has_id id_of rows i = false -> ~ In i (map id_of rows).
Proof.
  intros A id_of rows i H Hin. rewrite has_id_ids in H.
  assert (Ht : existsb (fun j => String.eqb j i) (map id_of rows) = true)
    by (apply existsb_exists; exists i; split; [exact Hin|apply String.eqb_refl]).
  congruence.
Qed.

Lemma unique_app : forall (A : Type) (id_of : A -> string) rows r,
  Invariant.unique id_of rows ->
  DatabaseStorage.has_id id_of rows (id_of r) = false ->
  Invariant.unique id_of (rows ++ [r]).
Proof.
  intros A id_of rows r Hu Hf. unfold Invariant.unique in *.
  rewrite map_app. cbn [map]. apply NoDup_app.
  - exact Hu.
  - repeat constructor. intros [].
  - intros x Hx [<-|[]]. exact (has_id_false _ _ _ _ Hf Hx).
Qed.

Lemma statement_err : forall (A : Type) (f : DB -> Sql.result (DB * A)) db db' e,
  DatabaseStorage.statement f db = (db', Sql.Err e) -> db' = db.
Proof.
  intros A f db db' e H. unfold DatabaseStorage.statement in H.
  destruct (f db) as [[d a]|e']; [discriminate H|]. now injection H as <- _.
Qed.

Lemma update_rows_ids : forall (A : Type) (id_of : A -> string) i set rows out,
  (forall r r', set r = Sql.Ok r' -> id_of r' = id_of r) ->
  StorageRest.update_rows id_of i set rows = Sql.Ok out ->
  map id_of (fst out) = map id_of rows.
Proof.
  intros A id_of i set. induction rows as [|r rest IH]; intros out Hset H.
  - injection H as <-. reflexivity.
  - cbn [StorageRest.update_rows] in H.
    destruct (String.eqb (id_of r) i).
    + destruct (set r) as [r'|] eqn:Hr; cbn [Sql.bind] in H; [|discriminate H].
      destruct (StorageRest.update_rows id_of i set rest) as [o|] eqn:Ho;
        cbn [Sql.bind] in H; [|discriminate H].
      injection H as <-. cbn [fst map].
      rewrite (Hset _ _ Hr), (IH _ Hset eq_refl). reflexivity.
    + destruct (StorageRest.update_rows id_of i set rest) as [o|] eqn:Ho;
        cbn [Sql.bind] in H; [|discriminate H].
      injection H as <-. cbn [fst map]. rewrite (IH _ Hset eq_refl). reflexivity.
Qed.

Lemma update_where_id_ids : forall i quantity date rows rows',
  DatabaseStorage.update_where_id i (DatabaseStorage.set_distributed quantity date) rows
  = Sql.Ok rows' ->
  map resources.id rows' = map resources.id rows.
Proof.
  intros i quantity date rows rows' H. apply update_where_id_ok in H.
  exact (proj1 (proj2 (distributed_onto_sums _ _ _ _ _ H))).
Qed.

(** The database after a method, whichever way it ended. *)
Ltac after_method m db :=
  let H := fresh "Hrun" in
  destruct (m db) as [? [?|?]] eqn:H; cbn [fst];
  [ | let E := fresh "E" in
      pose proof (statement_err _ _ _ _ _ H) as E; subst ].

Ltac unique_goal :=
  unfold Invariant.unique_ids in *;
  cbn [t_users t_floodZones t_affectedPopulation t_resources
       t_reliefDistribution t_weatherAlerts t_responseTeams t_activityLog];
  repeat match goal with
         | H : _ /\ _ |- _ => destruct H
         end;
  repeat split; try assumption.

Lemma step_unique_ids : forall db c,
  Invariant.unique_ids db -> Invariant.unique_ids (Journal.step db c).
Proof.
  intros db c Hu.
  destruct c as [c| i zone date | i updates date | i updates date | i updates date];
    [destruct c as [uuid now zone|uuid now person|uuid now resource
                   |uuid now date distribution|uuid now alert|id
                   |uuid now team|uuid now entry]|..];
    cbn [Journal.step Session.step].
  - after_method (DatabaseStorage.createFloodZone uuid now zone) db; [|exact Hu].
    unfold DatabaseStorage.createFloodZone in Hrun. returned Hrun. unique_goal.
    apply unique_app; [assumption|]. now apply check_primary_key_ok in Hcheck.
  - after_method (DatabaseStorage.createAffectedPerson uuid now person) db; [|exact Hu].
    unfold DatabaseStorage.createAffectedPerson in Hrun. returned Hrun. unique_goal.
    apply unique_app; [assumption|]. now apply check_primary_key_ok in Hcheck.
  - after_method (DatabaseStorage.createResource uuid now resource) db; [|exact Hu].
    unfold DatabaseStorage.createResource in Hrun. returned Hrun. unique_goal.
    apply unique_app; [assumption|]. now apply check_primary_key_ok in Hcheck.
  - unfold DatabaseStorage.createReliefDistribution.
    destruct (DatabaseStorage.insert_reliefDistribution uuid now distribution db)
      as [db1 [row|e]] eqn:Hins.
    + assert (Hu1 : Invariant.unique_ids db1).
      { unfold DatabaseStorage.insert_reliefDistribution in Hins. returned Hins.
        unique_goal. apply unique_app; [assumption|].
        now apply check_primary_key_ok in Hcheck. }
      unfold DatabaseStorage.update_resource_quantities, DatabaseStorage.statement.
      destruct (DatabaseStorage.update_where_id _ _ (t_resources db1))
        as [rows'|e] eqn:Hupd; cbn [Sql.bind fst]; [|exact Hu1].
      apply update_where_id_ids in Hupd. unique_goal.
      unfold Invariant.unique. now rewrite Hupd.
    + cbn [fst]. pose proof (statement_err _ _ _ _ _ Hins) as E. now subst.
  - after_method (DatabaseStorage.createWeatherAlert uuid now alert) db; [|exact Hu].
    unfold DatabaseStorage.createWeatherAlert in Hrun. returned Hrun. unique_goal.
    apply unique_app; [assumption|]. now apply check_primary_key_ok in Hcheck.
  - rewrite deactivate_rows. cbn [fst]. unique_goal.
    unfold Invariant.unique. rewrite map_map.
    erewrite map_ext; [eassumption|].
    intros a. now destruct (String.eqb (weatherAlerts.id a) id).
  - after_method (DatabaseStorage.createResponseTeam uuid now team) db; [|exact Hu].
    unfold DatabaseStorage.createResponseTeam in Hrun. returned Hrun. unique_goal.
    apply unique_app; [assumption|]. now apply check_primary_key_ok in Hcheck.
  - after_method (DatabaseStorage.logActivity uuid now entry) db; [|exact Hu].
    unfold DatabaseStorage.logActivity in Hrun. returned Hrun. unique_goal.
    apply unique_app; [assumption|]. now apply check_primary_key_ok in Hcheck.
  - after_method (StorageRest.updateFloodZone i zone date) db; [|exact Hu].
    unfold StorageRest.updateFloodZone in Hrun. returned Hrun. unique_goal.
    unfold Invariant.unique.
    erewrite update_rows_ids; [eassumption| |eassumption].
    intros r r' Hr. now injection Hr as <-.
  - after_method (StorageRest.updateAffectedPerson i updates date) db; [|exact Hu].
    unfold StorageRest.updateAffectedPerson in Hrun. returned Hrun. unique_goal.
    unfold Invariant.unique.
    erewrite update_rows_ids; [eassumption| |eassumption].
    intros r r' Hr. cbv beta zeta in Hr. run_checks Hr. now injection Hr as <-.
  - after_method (StorageRest.updateResource i updates date) db; [|exact Hu].
    unfold StorageRest.updateResource in Hrun. returned Hrun. unique_goal.
    unfold Invariant.unique.
    erewrite update_rows_ids; [eassumption| |eassumption].
    intros r r' Hr. now injection Hr as <-.
  - after_method (StorageRest.updateResponseTeam i updates date) db; [|exact Hu].
    unfold StorageRest.updateResponseTeam in Hrun. returned Hrun. unique_goal.
    unfold Invariant.unique.
    erewrite update_rows_ids; [eassumption| |eassumption].
    intros r r' Hr. cbv beta zeta in Hr. run_checks Hr. now injection Hr as <-.
Qed.

(** X13. No call makes two rows of a table share an id: if ids are unique
    in every table they still are after any sequence of storage calls,
    whether the calls return or throw.  They are in the empty database. *)
Theorem ids_stay_unique :
  Invariant.unique_ids emptyDB
  /\ forall history db,
       Invariant.unique_ids db -> Invariant.unique_ids (Journal.after history db).
Proof.
  split.
  - unfold Invariant.unique_ids, Invariant.unique. cbn. repeat split; constructor.
  - induction history as [|c rest IH]; intros db H; [exact H|].
    cbn. apply IH. now apply step_unique_ids.
Qed.

Lemma ids_stay_unique_witness :
  Invariant.unique_ids (Journal.after SampleRest.busy_day emptyDB).
Proof.
  destruct ids_stay_unique as [Hempty Hkept].
  exact (Hkept SampleRest.busy_day emptyDB Hempty).
Defined.

Lemma refers_app : forall (A : Type) (id_of : A -> string) rows r ref,
  Invariant.refers id_of rows ref -> Invariant.refers id_of (rows ++ [r]) ref.
Proof.
  intros A id_of rows r [i|] H; [|exact I]. unfold Invariant.refers in *.
  rewrite has_id_ids in *. now rewrite map_app, existsb_app, H.
Qed.

Lemma refers_same_ids : forall (A : Type) (id_of : A -> string) rows rows' ref,
  map id_of rows' = map id_of rows ->
  Invariant.refers id_of rows ref -> Invariant.refers id_of rows' ref.
Proof.
  intros A id_of rows rows' [i|] Hids H; [|exact I]. unfold Invariant.refers in *.
  rewrite has_id_ids in *. now rewrite Hids.
Qed.

Lemma check_references_ok : forall (A : Type) (id_of : A -> string) rows ref u,
  DatabaseStorage.check_references id_of rows ref = Sql.Ok u ->
  Invariant.refers id_of rows ref.
Proof.
  intros A id_of rows [i|] u H; [|exact I].
  unfold DatabaseStorage.check_references in H. cbn.
  now destruct (DatabaseStorage.has_id id_of rows i).
Qed.

Lemma check_changed_reference_ok :
  forall (A : Type) (id_of : A -> string) rows old new u,
    Invariant.refers id_of rows old ->
    StorageRest.check_changed_reference id_of rows old new = Sql.Ok u ->
    Invariant.refers id_of rows new.
Proof.
  intros A id_of rows old new u Hold. unfold StorageRest.check_changed_reference.
  destruct (StorageRest.option_string_eqb old new) eqn:Heq.
  - intros _. destruct old as [x|], new as [y|]; try discriminate Heq; [|exact I].
    cbn in Heq. apply String.eqb_eq in Heq. now subst.
  - apply check_references_ok.
Qed.

Lemma update_rows_rows : forall (A : Type) (id_of : A -> string) i set rows out,
  StorageRest.update_rows id_of i set rows = Sql.Ok out ->
  forall b, In b (fst out) -> exists a, In a rows /\ (b = a \/ set a = Sql.Ok b).
Proof.
  intros A id_of i set. induction rows as [|r rest IH]; intros out H b Hb.
  - injection H as <-. destruct Hb.
  - cbn [StorageRest.update_rows] in H.
    destruct (String.eqb (id_of r) i).
    + destruct (set r) as [r'|] eqn:Hr; cbn [Sql.bind] in H; [|discriminate H].
      destruct (StorageRest.update_rows id_of i set rest) as [o|] eqn:Ho;
        cbn [Sql.bind] in H; [|discriminate H].
      injection H as <-. cbn [fst] in Hb. destruct Hb as [<-|Hb].
      * exists r. split; [now left|now right].
      * destruct (IH _ eq_refl _ Hb) as (a & Ha & Hab).
        exists a. split; [now right|exact Hab].
    + destruct (StorageRest.update_rows id_of i set rest) as [o|] eqn:Ho;
        cbn [Sql.bind] in H; [|discriminate H].
      injection H as <-. cbn [fst] in Hb. destruct Hb as [<-|Hb].
      * exists r. split; [now left|now left].
      * destruct (IH _ eq_refl _ Hb) as (a & Ha & Hab).
        exists a. split; [now right|exact Hab].
Qed.

(** A reference that held keeps holding in a table that has grown or has
    kept its ids. *)
Ltac still_refers :=
  match goal with
  | H : Invariant.refers ?f ?rows ?ref |- Invariant.refers ?f ?rows ?ref => exact H
  | H : Invariant.refers ?f ?rows ?ref |- Invariant.refers ?f (?rows ++ [_]) ?ref =>
      apply refers_app; exact H
  | H : Invariant.refers ?f ?rows ?ref, E : map ?f ?rows' = map ?f ?rows
    |- Invariant.refers ?f ?rows' ?ref =>
      apply (refers_same_ids _ f rows rows' ref E H)
  end.

Ltac open_references :=
  match goal with
  | H : Invariant.references_hold _ |- _ =>
      let Hpop := fresh "Hpop" in
      let Hdist := fresh "Hdist" in
      let Halert := fresh "Halert" in
      let Hteam := fresh "Hteam" in
      let Hlog := fresh "Hlog" in
      destruct H as (Hpop & Hdist & Halert & Hteam & Hlog)
  end;
  unfold Invariant.references_hold;
  cbn [t_users t_floodZones t_affectedPopulation t_resources
       t_reliefDistribution t_weatherAlerts t_responseTeams t_activityLog].

(** What held of a row that was there before. *)
Ltac recall x Hx :=
  match type of Hx with
  | In _ ?rows =>
      match goal with
      | H : forall p, In p rows -> _ |- _ =>
          let Hrefs := fresh "Hrefs" in
          pose proof (H x Hx) as Hrefs;
          repeat match type of Hrefs with
                 | _ /\ _ =>
                     let H1 := fresh "Hrefs" in
                     destruct Hrefs as [H1 Hrefs]
                 end
      end
  end.

(** The tables no row was added to. *)
Ltac old_rows :=
  repeat match goal with
         | |- _ /\ _ => split
         end;
  try (let x := fresh "x" in
       let Hx := fresh "Hx" in
       intros x Hx; recall x Hx; repeat split; still_refers).

(** The table a row was added to. *)
Ltac new_row x Hx :=
  apply in_app_or in Hx; destruct Hx as [Hx|[<-|[]]];
  [ recall x Hx; repeat split; still_refers
  | cbn; repeat split;
    repeat match goal with
           | H : DatabaseStorage.check_references _ _ _ = Sql.Ok _ |- _ =>
               apply check_references_ok in H; cbn in H
           end;
    try still_refers; try exact I ].

Lemma step_references : forall db c,
  Invariant.references_hold db -> Invariant.references_hold (Journal.step db c).
Proof.
  intros db c Hr.
  destruct c as [c| i zone date | i updates date | i updates date | i updates date];
    [destruct c as [uuid now zone|uuid now person|uuid now resource
                   |uuid now date distribution|uuid now alert|id
                   |uuid now team|uuid now entry]|..];
    cbn [Journal.step Session.step].
  - after_method (DatabaseStorage.createFloodZone uuid now zone) db; [|exact Hr].
    unfold DatabaseStorage.createFloodZone in Hrun. returned Hrun.
    open_references. old_rows.
  - after_method (DatabaseStorage.createAffectedPerson uuid now person) db; [|exact Hr].
    unfold DatabaseStorage.createAffectedPerson in Hrun. returned Hrun.
    open_references. old_rows. intros x Hx. new_row x Hx.
  - after_method (DatabaseStorage.createResource uuid now resource) db; [|exact Hr].
    unfold DatabaseStorage.createResource in Hrun. returned Hrun.
    open_references. old_rows.
  - unfold DatabaseStorage.createReliefDistribution.
    destruct (DatabaseStorage.insert_reliefDistribution uuid now distribution db)
      as [db1 [row|e]] eqn:Hins.
    + assert (Hr1 : Invariant.references_hold db1).
      { unfold DatabaseStorage.insert_reliefDistribution in Hins. returned Hins.
        open_references. old_rows. intros x Hx. new_row x Hx.
        match goal with
        | H : DatabaseStorage.has_id _ _ _ = true |- _ => exact H
        end. }
      unfold DatabaseStorage.update_resource_quantities, DatabaseStorage.statement.
      destruct (DatabaseStorage.update_where_id _ _ (t_resources db1))
        as [rows'|e] eqn:Hupd; cbn [Sql.bind fst]; [|exact Hr1].
      apply update_where_id_ids in Hupd. open_references. old_rows.
    + cbn [fst]. pose proof (statement_err _ _ _ _ _ Hins) as E. now subst.
  - after_method (DatabaseStorage.createWeatherAlert uuid now alert) db; [|exact Hr].
    unfold DatabaseStorage.createWeatherAlert in Hrun. returned Hrun.
    open_references. old_rows. intros x Hx. new_row x Hx.
  - rewrite deactivate_rows. cbn [fst]. open_references. old_rows.
    intros x Hx. apply in_map_iff in Hx. destruct Hx as (b & <- & Hb).
    recall b Hb. now destruct (String.eqb (weatherAlerts.id b) id).
  - after_method (DatabaseStorage.createResponseTeam uuid now team) db; [|exact Hr].
    unfold DatabaseStorage.createResponseTeam in Hrun. returned Hrun.
    open_references. old_rows. intros x Hx. new_row x Hx.
  - after_method (DatabaseStorage.logActivity uuid now entry) db; [|exact Hr].
    unfold DatabaseStorage.logActivity in Hrun. returned Hrun.
    open_references. old_rows. intros x Hx. new_row x Hx.
  - after_method (StorageRest.updateFloodZone i zone date) db; [|exact Hr].
    unfold StorageRest.updateFloodZone in Hrun. returned Hrun.
    match goal with
    | H : StorageRest.update_rows _ _ _ _ = Sql.Ok ?out |- _ =>
        assert (E : map floodZones.id (fst out) = map floodZones.id (t_floodZones db))
          by (eapply update_rows_ids; [|exact H];
              intros r r' Hset; now injection Hset as <-)
    end.
    open_references. old_rows.
  - after_method (StorageRest.updateAffectedPerson i updates date) db; [|exact Hr].
    unfold StorageRest.updateAffectedPerson in Hrun. returned Hrun.
    open_references. old_rows.
    intros x Hx.
    match goal with
    | H : StorageRest.update_rows _ _ _ _ = Sql.Ok _ |- _ =>
        destruct (update_rows_rows _ _ _ _ _ _ H x Hx) as (b & Hb & [->|Hset])
    end.
    + recall b Hb. split; assumption.
    + recall b Hb. cbv beta zeta in Hset. run_checks Hset. injection Hset as <-.
      split; eapply check_changed_reference_ok; eassumption.
  - after_method (StorageRest.updateResource i updates date) db; [|exact Hr].
    unfold StorageRest.updateResource in Hrun. returned Hrun.
    match goal with
    | H : StorageRest.update_rows _ _ _ _ = Sql.Ok ?out |- _ =>
        assert (E : map resources.id (fst out) = map resources.id (t_resources db))
          by (eapply update_rows_ids; [|exact H];
              intros r r' Hset; now injection Hset as <-)
    end.
    open_references. old_rows.
  - after_method (StorageRest.updateResponseTeam i updates date) db; [|exact Hr].
    unfold StorageRest.updateResponseTeam in Hrun. returned Hrun.
    open_references. old_rows.
    intros x Hx.
    match goal with
    | H : StorageRest.update_rows _ _ _ _ = Sql.Ok _ |- _ =>
        destruct (update_rows_rows _ _ _ _ _ _ H x Hx) as (b & Hb & [->|Hset])
    end.
    + recall b Hb. split; assumption.
    + recall b Hb. cbv beta zeta in Hset. run_checks Hset. injection Hset as <-.
      split; eapply check_changed_reference_ok; eassumption.
Qed.

(** X14. No call leaves a dangling reference: if every reference of a
    row (a person's flood zone and registrar, a distribution's resource,
    flood zone and distributor, an alert's author, a team's zone and lead
    officer, a log entry's actor) names an existing row or is [NULL], this
    is still so after any sequence of storage calls, whether they return
    or throw. *)
Theorem references_stay_valid :
  Invariant.references_hold emptyDB
  /\ forall history db,
       Invariant.references_hold db ->
       Invariant.references_hold (Journal.after history db).
Proof.
  split.
  - unfold Invariant.references_hold. cbn. intuition.
  - induction history as [|c rest IH]; intros db H; [exact H|].
    cbn. apply IH. now apply step_references.
Qed.

Lemma references_stay_valid_witness :
  Invariant.references_hold (Journal.after SampleRest.busy_day emptyDB).
Proof.
  destruct references_stay_valid as [Hempty Hkept].
  exact (Hkept SampleRest.busy_day emptyDB Hempty).
Defined.

Lemma step_users : forall db c, t_users (Journal.step db c) = t_users db.
Proof.
  intros db c.
  destruct c as [c| i zone date | i updates date | i updates date | i updates date];
    [destruct c as [uuid now zone|uuid now person|uuid now resource
                   |uuid now date distribution|uuid now alert|id
                   |uuid now team|uuid now entry]|..];
    cbn [Journal.step Session.step].
  - after_method (DatabaseStorage.createFloodZone uuid now zone) db; [|reflexivity].
    unfold DatabaseStorage.createFloodZone in Hrun. returned Hrun. reflexivity.
  - after_method (DatabaseStorage.createAffectedPerson uuid now person) db; [|reflexivity].
    unfold DatabaseStorage.createAffectedPerson in Hrun. returned Hrun. reflexivity.
  - after_method (DatabaseStorage.createResource uuid now resource) db; [|reflexivity].
    unfold DatabaseStorage.createResource in Hrun. returned Hrun. reflexivity.
  - unfold DatabaseStorage.createReliefDistribution.
    destruct (DatabaseStorage.insert_reliefDistribution uuid now distribution db)
      as [db1 [row|e]] eqn:Hins.
    + assert (H1 : t_users db1 = t_users db).
      { unfold DatabaseStorage.insert_reliefDistribution in Hins. returned Hins.
        reflexivity. }
      unfold DatabaseStorage.update_resource_quantities, DatabaseStorage.statement.
      destruct (DatabaseStorage.update_where_id _ _ (t_resources db1))
        as [rows'|e]; cbn [Sql.bind fst]; exact H1.
    + cbn [fst]. pose proof (statement_err _ _ _ _ _ Hins) as E. now subst.
  - after_method (DatabaseStorage.createWeatherAlert uuid now alert) db; [|reflexivity].
    unfold DatabaseStorage.createWeatherAlert in Hrun. returned Hrun. reflexivity.
  - rewrite deactivate_rows. reflexivity.
  - after_method (DatabaseStorage.createResponseTeam uuid now team) db; [|reflexivity].
    unfold DatabaseStorage.createResponseTeam in Hrun. returned Hrun. reflexivity.
  - after_method (DatabaseStorage.logActivity uuid now entry) db; [|reflexivity].
    unfold DatabaseStorage.logActivity in Hrun. returned Hrun. reflexivity.
  - after_method (StorageRest.updateFloodZone i zone date) db; [|reflexivity].
    unfold StorageRest.updateFloodZone in Hrun. returned Hrun. reflexivity.
  - after_method (StorageRest.updateAffectedPerson i updates date) db; [|reflexivity].
    unfold StorageRest.updateAffectedPerson in Hrun. returned Hrun. reflexivity.
  - after_method (StorageRest.updateResource i updates date) db; [|reflexivity].
    unfold StorageRest.updateResource in Hrun. returned Hrun. reflexivity.
  - after_method (StorageRest.updateResponseTeam i updates date) db; [|reflexivity].
    unfold StorageRest.updateResponseTeam in Hrun. returned Hrun. reflexivity.
Qed.

(** X26. Nothing but [upsertUser] writes to the users: after any sequence
    of the other storage calls (creates, updates, the deactivation of an
    alert, the distribution of relief, the activity log), returning or
    throwing, [getUser] finds under every id what it found before. *)
Theorem getUser_after_other_calls :
  forall history db i,
    StorageRest.getUser (Journal.after history db) i = StorageRest.getUser db i.
Proof.
  induction history as [|c rest IH]; intros db i; [reflexivity|].
  cbn. rewrite IH. unfold StorageRest.getUser. now rewrite step_users.
Qed.

(* ===================================================================== *)
(** * What the handlers call *)
(* ===================================================================== *)

Lemma traced_run : forall (W A : Type) (o : oracle W) (p : Prog A)
    (P : list event -> exception + A -> Prop),
  Calls.traced p P ->
  forall w, P (calls (run o p w)) (outcome (run o p w)).
Proof.
  intros W A o p. induction p as [a|e|X c k IH]; intros P H w.
  - exact H.
  - exact H.
  - cbn [run]. cbn [Calls.traced] in H.
    destruct (o X c w) as [w1 r].
    specialize (IH r _ (H r) w1).
    destruct (run o (k r) w1) as [[w2 cs] out]. exact IH.
Qed.

Lemma traced_try_catch : forall (A : Type) (p : Prog A) (h : exception -> A)
    (P : list event -> exception + A -> Prop),
  Calls.traced p (fun tr out =>
                    P tr (inr (match out with
                               | inr a => a
                               | inl e => h e
                               end))) ->
  Calls.traced (try_catch p h) P.
Proof.
  intros A p h. induction p as [a|e|X c k IH]; intros P H.
  - exact H.
  - exact H.
  - cbn [try_catch Calls.traced] in H |- *. intros r.
    apply (IH r (fun tr out => P (Called c :: tr) out)). exact (H r).
Qed.

Lemma traced_bind_await : forall (X A : Type) (c : call X) (f : X -> Prog A)
    (P : list event -> exception + A -> Prop),
  (forall e, P [Called c] (inl e)) ->
  (forall x, Calls.traced (f x) (fun tr out => P (Called c :: tr) out)) ->
  Calls.traced (bind (await c) f) P.
Proof.
  intros X A c f P He Hx. cbn [bind await Calls.traced].
  intros [e|x]; cbn [bind Calls.traced]; [apply He|apply Hx].
Qed.

Lemma traced_bind_parse : forall (A B : Type) (schema : JS -> option A) data
    (f : A -> Prog B) (P : list event -> exception + B -> Prop),
  P [] (inl ZodError) ->
  (forall a, schema data = Some a -> Calls.traced (f a) P) ->
  Calls.traced (bind (parse schema data) f) P.
Proof.
  intros A B schema data f P He Ha. unfold parse.
  destruct (schema data) as [a|]; cbn [bind Calls.traced]; [now apply Ha|exact He].
Qed.

Lemma traced_pure : forall (A : Type) (p : Prog A)
    (P : list event -> exception + A -> Prop),
  Spec.Pure p -> (forall out, P [] out) -> Calls.traced p P.
Proof.
  intros A p P [(a & ->)|(e & ->)] H; apply H.
Qed.

(** Stepping through a handler, call by call. *)
Ltac follow :=
  repeat first
    [ apply traced_bind_await; [intros ?|intros ?]
    | apply traced_bind_parse; [|intros ? ?]
    | match goal with
      | |- Calls.traced (match ?x with _ => _ end) _ => destruct x
      | |- Calls.traced (if ?x then _ else _) _ => destruct x
      | |- Calls.traced (weather_answer ?x) _ =>
          apply traced_pure; [apply Pure_weather_answer|intros ?]
      end
    | progress cbn [Calls.traced res_json res_status_message] ].

Ltac each_route Hin :=
  unfold registerRoutes in Hin;
  repeat (destruct Hin as [<-|Hin]; [|]); try destruct Hin;
  cbn [method try_block catch_message patch_flood_zones_route get_weather_route] in *.

Ltac open_handler :=
  unfold handle; apply traced_try_catch;
  cbn [try_block catch_message patch_flood_zones_route get_weather_route];
  cbv beta zeta delta
    [get_auth_user get_dashboard_stats get_flood_zones post_flood_zones
     patch_flood_zones get_population post_population patch_population
     get_resources post_resources patch_resources get_relief_distribution
     post_relief_distribution get_weather_alerts post_weather_alerts
     delete_weather_alerts get_response_teams post_response_teams
     patch_response_teams get_activities get_weather];
  follow.

(** X15. A [GET] route only reads: handling the request makes at most one
    call, to a method of the storage that selects or to OpenWeatherMap,
    and never a call that inserts or updates a row; in particular reading
    is not written to the activity log. *)
Theorem reads_do_not_write :
  forall r env req (W : Type) (o : oracle W) w,
    In r registerRoutes ->
    method r = GET ->
    (List.length (calls (run o (handle r env req) w)) <= 1)%nat
    /\ forall e, In e (calls (run o (handle r env req) w)) ->
                 Calls.writes e = false.
Proof.
  intros r env req W o w Hin Hm.
  apply (traced_run _ _ o (handle r env req)
           (fun tr _ => (List.length tr <= 1)%nat
                        /\ forall e, In e tr -> Calls.writes e = false)).
  each_route Hin; try discriminate Hm; open_handler;
    (split; [cbn; lia|]); intros ev Hev; cbn in Hev;
    repeat (destruct Hev as [<-|Hev]; [reflexivity|]); destruct Hev.
Qed.

Lemma reads_do_not_write_witness :
  (List.length (calls (run Sample.open_weather
                         (handle get_weather_route Sample.with_api_key
                            (Sample.request "Alappuzha" JNull)) tt)) <= 1)%nat
  /\ forall e,
       In e (calls (run Sample.open_weather
                      (handle get_weather_route Sample.with_api_key
                         (Sample.request "Alappuzha" JNull)) tt)) ->
       Calls.writes e = false.
Proof.
  apply (reads_do_not_write get_weather_route Sample.with_api_key
           (Sample.request "Alappuzha" JNull) unit Sample.open_weather tt).
  - unfold registerRoutes. simpl. tauto.
  - reflexivity.
Defined.

Ltac settle_200 :=
  eexists; eexists; split; [reflexivity|]; repeat split; reflexivity.

Ltac settle_404 :=
  eexists; split; [reflexivity|]; split; reflexivity.

(** X16. Every change made through the API leaves a trace.  When a route
    other than a [GET] answers 200, handling the request made exactly two
    calls: one that writes the row, then [logActivity] with the signed-in
    user as [performedBy].  When it answers 404 (an update that found no
    row) it made the update call only and logged nothing. *)
Theorem writes_are_logged :
  forall r env req (W : Type) (o : oracle W) w res,
    In r registerRoutes ->
    method r <> GET ->
    outcome (run o (handle r env req) w) = inr res ->
    (status res = 200 ->
       exists c entry,
         calls (run o (handle r env req) w) = [c; Called (logActivity entry)]
         /\ Calls.writes c = true
         /\ Calls.logged c = None
         /\ ial_performedBy entry = value (sub req))
    /\ (status res = 404 ->
          exists c,
            calls (run o (handle r env req) w) = [c]
            /\ Calls.writes c = true
            /\ Calls.logged c = None).
Proof.
  intros r env req W o w res Hin Hm Hout.
  refine (traced_run _ _ o (handle r env req)
            (fun tr out =>
               forall res, out = inr res ->
                 (status res = 200 ->
                    exists c entry,
                      tr = [c; Called (logActivity entry)]
                      /\ Calls.writes c = true
                      /\ Calls.logged c = None
                      /\ ial_performedBy entry = value (sub req))
                 /\ (status res = 404 ->
                       exists c, tr = [c] /\ Calls.writes c = true
                                 /\ Calls.logged c = None))
            _ w res Hout).
  clear Hout.
  each_route Hin; try (exfalso; apply Hm; reflexivity); open_handler;
    intros res0 Hres0; injection Hres0 as <-; cbn [status];
    (split; intros Hs; try discriminate Hs);
    first [settle_200 | settle_404].
Qed.

Lemma writes_are_logged_witness :
  exists c entry,
    calls (run SampleRest.obliging
             (handle {| method := DELETE; path := "/api/weather-alerts/:id";
                        try_block := delete_weather_alerts;
                        catch_message := "Failed to deactivate weather alert" |}
                Sample.no_api_key (Sample.request "a1" JNull)) tt)
    = [c; Called (logActivity entry)]
    /\ Calls.writes c = true
    /\ Calls.logged c = None
    /\ ial_performedBy entry = value "user-1".
Proof.
  refine (proj1 (writes_are_logged
                   {| method := DELETE; path := "/api/weather-alerts/:id";
                      try_block := delete_weather_alerts;
                      catch_message := "Failed to deactivate weather alert" |}
                   Sample.no_api_key (Sample.request "a1" JNull)
                   unit SampleRest.obliging tt
                   {| status := 200; payload := success |} _ _ _) _).
  - unfold registerRoutes. simpl. tauto.
  - discriminate.
  - reflexivity.
  - reflexivity.
Defined.

Lemma lookup_app : forall k (l l' : list (string * JS)),
  Zod.lookup k (l ++ l')%list
  = match Zod.lookup k l with
    | Some v => Some v
    | None => Zod.lookup k l'
    end.
Proof.
  intros k l l'. induction l as [|[k0 v0] rest IH]; cbn [Zod.lookup app].
  - reflexivity.
  - destruct (String.eqb k0 k); [reflexivity|exact IH].
Qed.

Lemma spread_with_sets : forall body k v,
  exists props,
    Zod.spread_with body k v = JObj props /\ Zod.lookup k props = Some v.
Proof.
  intros body k v.
  destruct body as [| | | | | |props];
    try (exists [(k, v)]; split; [reflexivity|];
         cbn [Zod.lookup]; now rewrite String.eqb_refl).
  exists (Zod.remove_key k props ++ [(k, v)])%list. split; [reflexivity|].
  rewrite lookup_app, lookup_remove_key, String.eqb_refl.
  cbn [Zod.lookup]. now rewrite String.eqb_refl.
Qed.

(** Going through the entries of a schema that accepted. *)
Ltac accepted H :=
  cbn [Zod.as_object Zod.obind] in H;
  repeat match type of H with
         | context [Zod.obind (Zod.required ?p ?o ?k) _] =>
             let E := fresh "Hentry" in
             destruct (Zod.required p o k) eqn:E;
             cbn [Zod.obind] in H; [|discriminate H]
         | context [Zod.obind (Zod.nullish ?p ?o ?k) _] =>
             let E := fresh "Hentry" in
             destruct (Zod.nullish p o k) eqn:E;
             cbn [Zod.obind] in H; [|discriminate H]
         end;
  injection H as <-.

Ltac stamped body k s H :=
  let props := fresh "props" in
  let Hk := fresh "Hk" in
  let Heq := fresh "Heq" in
  destruct (spread_with_sets body k (JStr s)) as (props & Heq & Hk);
  rewrite Heq in H; clear Heq;
  accepted H;
  match goal with
  | E : Zod.nullish _ props k = Some _ |- _ =>
      unfold Zod.nullish in E; rewrite Hk in E; cbn in E;
      injection E as <-; reflexivity
  end.

Lemma stamped_person : forall body s person,
  Zod.insertAffectedPopulationSchema (Zod.spread_with body "registeredBy" (JStr s))
  = Some person ->
  iap_registeredBy person = value s.
Proof.
  intros body s person H. unfold Zod.insertAffectedPopulationSchema in H.
  stamped body "registeredBy" s H.
Qed.

Lemma stamped_distribution : forall body s distribution,
  Zod.insertReliefDistributionSchema (Zod.spread_with body "distributedBy" (JStr s))
  = Some distribution ->
  ird_distributedBy distribution = value s.
Proof.
  intros body s distribution H. unfold Zod.insertReliefDistributionSchema in H.
  stamped body "distributedBy" s H.
Qed.

Lemma stamped_alert : forall body s alert,
  Zod.insertWeatherAlertSchema (Zod.spread_with body "createdBy" (JStr s))
  = Some alert ->
  iwa_createdBy alert = value s.
Proof.
  intros body s alert H. unfold Zod.insertWeatherAlertSchema in H.
  stamped body "createdBy" s H.
Qed.

Lemma stamped_team : forall body s team,
  Zod.insertResponseTeamSchema (Zod.spread_with body "leadOfficer" (JStr s))
  = Some team ->
  irt_leadOfficer team = value s.
Proof.
  intros body s team H. unfold Zod.insertResponseTeamSchema in H.
  stamped body "leadOfficer" s H.
Qed.

(** X17. Nobody signs for somebody else.  Whatever the body of a request
    says, every created person, relief distribution, weather alert or
    response team that a handler passes to the storage carries the
    signed-in user as [registeredBy], [distributedBy], [createdBy] or
    [leadOfficer]. *)
Theorem author_is_the_signed_in_user :
  forall r env req (W : Type) (o : oracle W) w,
    In r registerRoutes ->
    Forall (fun e => forall a, Calls.author e = Some a -> a = value (sub req))
           (calls (run o (handle r env req) w)).
Proof.
  intros r env req W o w Hin.
  apply (traced_run _ _ o (handle r env req)
           (fun tr _ =>
              Forall (fun e => forall a, Calls.author e = Some a ->
                                         a = value (sub req)) tr)).
  each_route Hin; open_handler;
    repeat (apply Forall_cons; [cbn [Calls.author]; intros a0 Ha0|]);
    try apply Forall_nil;
    try discriminate Ha0;
    injection Ha0 as <-;
    eauto using stamped_person, stamped_distribution, stamped_alert, stamped_team.
Qed.

Lemma author_is_the_signed_in_user_witness :
  Forall (fun e => forall a, Calls.author e = Some a -> a = value "user-1")
         (calls (run Sample.open_weather
                   (handle {| method := POST; path := "/api/weather-alerts";
                              try_block := post_weather_alerts;
                              catch_message := "Failed to create weather alert" |}
                      Sample.no_api_key
                      (Sample.request ""
                         (JObj [("type", JStr "flood_warning");
                                ("severity", JStr "high");
                                ("title", JStr "River rising");
                                ("message", JStr "Move to higher ground");
                                ("createdBy", JStr "somebody-else")])))
                   tt)).
Proof.
  apply (author_is_the_signed_in_user
           {| method := POST; path := "/api/weather-alerts";
              try_block := post_weather_alerts;
              catch_message := "Failed to create weather alert" |}
           Sample.no_api_key
           (Sample.request ""
              (JObj [("type", JStr "flood_warning");
                     ("severity", JStr "high");
                     ("title", JStr "River rising");
                     ("message", JStr "Move to higher ground");
                     ("createdBy", JStr "somebody-else")]))
           unit Sample.open_weather tt).
  unfold registerRoutes. simpl. tauto.
Defined.

(* ===================================================================== *)
(** * What a request can set *)
(* ===================================================================== *)

Ltac other_keys H :=
  cbn [Spec.string_in existsb ZodRest.fields] in H;
  repeat (apply orb_false_elim in H;
          let E := fresh "Hkey" in destruct H as [E H];
          rewrite String.eqb_sym in E);
  cbn [Zod.as_object Zod.obind];
  rewrite ?required_set_other, ?nullish_set_other by assumption;
  reflexivity.

(** X18. The insert schemas read the keys of their own columns and no
    other: setting any other key of the body, such as [id], [createdAt]
    or [updatedAt], changes neither whether the body is accepted nor the
    row that is inserted. *)
Theorem keys_outside_the_schema_are_ignored :
  forall k v props,
    (Spec.string_in k (ZodRest.fields Spec.FloodZone) = false ->
     Zod.insertFloodZoneSchema (JObj (Spec.set_prop k v props))
     = Zod.insertFloodZoneSchema (JObj props))
    /\ (Spec.string_in k (ZodRest.fields Spec.AffectedPopulation) = false ->
        Zod.insertAffectedPopulationSchema (JObj (Spec.set_prop k v props))
        = Zod.insertAffectedPopulationSchema (JObj props))
    /\ (Spec.string_in k (ZodRest.fields Spec.Resource) = false ->
        Zod.insertResourceSchema (JObj (Spec.set_prop k v props))
        = Zod.insertResourceSchema (JObj props))
    /\ (Spec.string_in k (ZodRest.fields Spec.ReliefDistribution) = false ->
        Zod.insertReliefDistributionSchema (JObj (Spec.set_prop k v props))
        = Zod.insertReliefDistributionSchema (JObj props))
    /\ (Spec.string_in k (ZodRest.fields Spec.WeatherAlert) = false ->
        Zod.insertWeatherAlertSchema (JObj (Spec.set_prop k v props))
        = Zod.insertWeatherAlertSchema (JObj props))
    /\ (Spec.string_in k (ZodRest.fields Spec.ResponseTeam) = false ->
        Zod.insertResponseTeamSchema (JObj (Spec.set_prop k v props))
        = Zod.insertResponseTeamSchema (JObj props)).
Proof.
  intros k v props. repeat split; intros H.
  - unfold Zod.insertFloodZoneSchema. other_keys H.
  - unfold Zod.insertAffectedPopulationSchema. other_keys H.
  - unfold Zod.insertResourceSchema. other_keys H.
  - unfold Zod.insertReliefDistributionSchema. other_keys H.
  - unfold Zod.insertWeatherAlertSchema. other_keys H.
  - unfold Zod.insertResponseTeamSchema. other_keys H.
Qed.

Lemma keys_outside_the_schema_are_ignored_witness :
  Zod.insertFloodZoneSchema
    (JObj (Spec.set_prop "id" (JStr "z9") Sample.extreme_zone))
  = Zod.insertFloodZoneSchema (JObj Sample.extreme_zone)
  /\ Zod.insertAffectedPopulationSchema
       (JObj (Spec.set_prop "id" (JStr "z9") Sample.extreme_zone))
     = Zod.insertAffectedPopulationSchema (JObj Sample.extreme_zone)
  /\ Zod.insertResourceSchema
       (JObj (Spec.set_prop "id" (JStr "z9") Sample.extreme_zone))
     = Zod.insertResourceSchema (JObj Sample.extreme_zone)
  /\ Zod.insertReliefDistributionSchema
       (JObj (Spec.set_prop "id" (JStr "z9") Sample.extreme_zone))
     = Zod.insertReliefDistributionSchema (JObj Sample.extreme_zone)
  /\ Zod.insertWeatherAlertSchema
       (JObj (Spec.set_prop "id" (JStr "z9") Sample.extreme_zone))
     = Zod.insertWeatherAlertSchema (JObj Sample.extreme_zone)
  /\ Zod.insertResponseTeamSchema
       (JObj (Spec.set_prop "id" (JStr "z9") Sample.extreme_zone))
     = Zod.insertResponseTeamSchema (JObj Sample.extreme_zone).
Proof.
  destruct (keys_outside_the_schema_are_ignored "id" (JStr "z9") Sample.extreme_zone)
    as (Hzone & Hperson & Hresource & Hdistribution & Halert & Hteam).
  split; [apply Hzone; reflexivity|].
  split; [apply Hperson; reflexivity|].
  split; [apply Hresource; reflexivity|].
  split; [apply Hdistribution; reflexivity|].
  split; [apply Halert; reflexivity|].
  apply Hteam; reflexivity.
Defined.

Lemma nullish_date : forall props k x,
  Zod.nullish Zod.z_date props k = Some x -> to_column x = None.
Proof.
  intros props k x H. unfold Zod.nullish, Zod.z_date in H.
  destruct (Zod.lookup k props) as [[| | | | | |]|]; cbn in H;
    try discriminate H; now injection H as <-.
Qed.

Lemma nullish_date_refuses : forall props k v,
  Zod.lookup k props = Some v -> v <> JNull -> v <> JUndefined ->
  Zod.nullish Zod.z_date props k = None.
Proof.
  intros props k v Hk Hnull Hundef. unfold Zod.nullish, Zod.z_date.
  rewrite Hk. destruct v; try reflexivity; contradiction.
Qed.

Lemma expiryDate_not_set : forall body resource,
  Zod.insertResourceSchema body = Some resource ->
  to_column (ir_expiryDate resource) = None.
Proof.
  intros body resource H. unfold Zod.insertResourceSchema in H.
  destruct body; try discriminate H.
  accepted H. cbn [ir_expiryDate]. eapply nullish_date. eassumption.
Qed.

Lemma validUntil_not_set : forall body alert,
  Zod.insertWeatherAlertSchema body = Some alert ->
  to_column (iwa_validUntil alert) = None.
Proof.
  intros body alert H. unfold Zod.insertWeatherAlertSchema in H.
  destruct body; try discriminate H.
  accepted H. cbn [iwa_validUntil]. eapply nullish_date. eassumption.
Qed.

(** X19. A create request carries no date.  The insert schemas of
    resources and weather alerts take [expiryDate] and [validUntil] as
    dates, and a JSON body holds none: a resource or alert that an insert
    schema parsed from a body has no expiry date and no [validUntil]; and
    [POST /api/resources] with a body whose [expiryDate] is anything but
    [null], as the resource form sends it (a date serialised to a string),
    is answered 500 before the storage is called. *)
Theorem create_request_carries_no_date :
  (forall body resource,
      Zod.insertResourceSchema body = Some resource ->
      to_column (ir_expiryDate resource) = None)
  /\ (forall body alert,
        Zod.insertWeatherAlertSchema body = Some alert ->
        to_column (iwa_validUntil alert) = None)
  /\ (forall props v env req (W : Type) (o : oracle W) w,
        body req = JObj props ->
        Zod.lookup "expiryDate" props = Some v ->
        v <> JNull -> v <> JUndefined ->
        run o (handle {| method := POST; path := "/api/resources";
                         try_block := post_resources;
                         catch_message := "Failed to create resource" |}
                 env req) w
        = (w, [], inr {| status := 500;
                         payload := message "Failed to create resource" |})).
Proof.
  split; [exact expiryDate_not_set|split; [exact validUntil_not_set|]].
  intros props v env req W o w Hbody Hk Hnull Hundef.
  unfold handle. rewrite run_try_catch.
  cbn [try_block catch_message]. unfold post_resources, parse.
  rewrite Hbody. unfold Zod.insertResourceSchema.
  cbn [Zod.as_object Zod.obind].
  rewrite (nullish_date_refuses props "expiryDate" v Hk Hnull Hundef).
  repeat match goal with
         | |- context [Zod.obind (Zod.required ?p ?o ?k) _] =>
             destruct (Zod.required p o k); cbn [Zod.obind]
         | |- context [Zod.obind (Zod.nullish ?p ?o ?k) _] =>
             destruct (Zod.nullish p o k); cbn [Zod.obind]
         end; reflexivity.
Qed.

Lemma create_request_carries_no_date_witness :
  to_column (ir_expiryDate Sample.rice) = None
  /\ run Sample.open_weather
       (handle {| method := POST; path := "/api/resources";
                  try_block := post_resources;
                  catch_message := "Failed to create resource" |}
          Sample.no_api_key
          (Sample.request ""
             (JObj [("name", JStr "Rice"); ("type", JStr "food");
                    ("unit", JStr "packets"); ("totalQuantity", JNum (10 # 1));
                    ("priority", JStr "high");
                    ("expiryDate", JStr "2026-01-31T00:00:00.000Z")]))) tt
     = (tt, [], inr {| status := 500;
                       payload := message "Failed to create resource" |}).
Proof.
  destruct create_request_carries_no_date as (Hresource & _ & Hrefused).
  split.
  - apply (Hresource
             (JObj [("name", JStr "Rice"); ("type", JStr "food");
                    ("unit", JStr "packets"); ("totalQuantity", JNum (10 # 1));
                    ("priority", JStr "high")])).
    reflexivity.
  - apply (Hrefused
             [("name", JStr "Rice"); ("type", JStr "food");
              ("unit", JStr "packets"); ("totalQuantity", JNum (10 # 1));
              ("priority", JStr "high");
              ("expiryDate", JStr "2026-01-31T00:00:00.000Z")]
             (JStr "2026-01-31T00:00:00.000Z")).
    + reflexivity.
    + reflexivity.
    + discriminate.
    + discriminate.
Defined.





(* ===================================================================== *)
(** * The pages *)
(* ===================================================================== *)

(** X21. The list laid over the flood map accounts for every zone: it is
    absent exactly when there is no zone; otherwise it shows the first
    five zones in order, each with the badge of its risk level, and when
    there are more than five the number it announces as further zones is
    positive and, added to the zones shown, gives the number of zones. *)
Theorem overlay_accounts_for_every_zone :
  forall zones,
    (ClientRest.overlay zones = None <-> zones = [])
    /\ forall lines more,
         ClientRest.overlay zones = Some (lines, more) ->
         map ClientRest.line_name lines = map floodZones.name (firstn 5 zones)
         /\ map ClientRest.line_variant lines
            = map (fun z => ClientRest.getRiskBadgeVariant (floodZones.riskLevel z))
                  (firstn 5 zones)
         /\ match more with
            | Some n =>
                0 < n /\ Z.of_nat (List.length lines) = 5
                /\ Z.of_nat (List.length lines) + n = Z.of_nat (List.length zones)
            | None => List.length lines = List.length zones
            end.
Proof.
  intros zones. unfold ClientRest.overlay. split.
  - destruct zones as [|z rest]; [now split|].
    split; intros H; [|discriminate H]. exfalso.
    destruct (0 <? Z.of_nat (List.length (z :: rest))) eqn:E; [discriminate H|].
    apply Z.ltb_ge in E. cbn [List.length] in E. lia.
  - intros lines more H.
    destruct (0 <? Z.of_nat (List.length zones)) eqn:E; [|discriminate H].
    pose proof (length_firstn 5 zones) as Hshown.
    remember (firstn 5 zones) as shown eqn:Eshown. clear Eshown.
    injection H as <- <-. rewrite !map_map. cbn [ClientRest.line_name ClientRest.line_variant].
    split; [reflexivity|split; [reflexivity|]].
    rewrite length_map, Hshown.
    destruct (5 <? Z.of_nat (List.length zones)) eqn:E5.
    + apply Z.ltb_lt in E5. lia.
    + apply Z.ltb_ge in E5. lia.
Qed.

Lemma overlay_accounts_for_every_zone_witness :
  map ClientRest.line_name
      [ {| ClientRest.line_name := "Kuttanad";
           ClientRest.line_variant := "destructive";
           ClientRest.line_text := "high" |} ]
  = map floodZones.name (firstn 5 [Sample.kuttanad])
  /\ map ClientRest.line_variant
         [ {| ClientRest.line_name := "Kuttanad";
              ClientRest.line_variant := "destructive";
              ClientRest.line_text := "high" |} ]
     = map (fun z => ClientRest.getRiskBadgeVariant (floodZones.riskLevel z))
           (firstn 5 [Sample.kuttanad])
  /\ List.length
       [ {| ClientRest.line_name := "Kuttanad";
            ClientRest.line_variant := "destructive";
            ClientRest.line_text := "high" |} ]
     = List.length [Sample.kuttanad].
Proof.
  apply (proj2 (overlay_accounts_for_every_zone [Sample.kuttanad])
           [ {| ClientRest.line_name := "Kuttanad";
                ClientRest.line_variant := "destructive";
                ClientRest.line_text := "high" |} ]
           None).
  reflexivity.
Defined.

(** X22. The map and the analytics page do not paint every risk level
    alike.  The slice of the risk chart has the colour of the circle on
    the map exactly when the risk level is "high", "medium" or "low";
    any other level is gray on the map, where its badge is the outlined
    one, and green in the chart like "low". *)
Theorem risk_colours_of_map_and_chart :
  forall risk,
    (ClientRest.risk_chart_color risk = Client.getRiskColor risk
     <-> risk = "high" \/ risk = "medium" \/ risk = "low")
    /\ (Client.getRiskColor risk = "#6b7280"
        <-> ClientRest.getRiskBadgeVariant risk = "outline")
    /\ (Client.getRiskColor risk = "#6b7280" ->
        ClientRest.risk_chart_color risk = ClientRest.risk_chart_color "low").
Proof.
  intros risk.
  unfold ClientRest.risk_chart_color, Client.getRiskColor,
    ClientRest.getRiskBadgeVariant.
  destruct (String.eqb risk "high") eqn:Eh;
    [apply String.eqb_eq in Eh; subst; cbn; intuition discriminate|].
  destruct (String.eqb risk "medium") eqn:Em;
    [apply String.eqb_eq in Em; subst; cbn; intuition discriminate|].
  destruct (String.eqb risk "low") eqn:El;
    [apply String.eqb_eq in El; subst; cbn; intuition discriminate|].
  apply String.eqb_neq in Eh, Em, El. cbn.
  repeat split; try reflexivity; try (intros H; discriminate H).
  intros [H|[H|H]]; contradiction.
Qed.

Lemma risk_colours_of_map_and_chart_witness :
  ClientRest.risk_chart_color "extreme" = ClientRest.risk_chart_color "low".
Proof.
  apply (risk_colours_of_map_and_chart "extreme"). reflexivity.
Defined.

(** X23. The badge of the header counts what it was sent.  The header
    counts the alerts flagged active among those it fetched; as the
    storage lists active alerts only, the count is the number of alerts
    listed, whatever the database holds. *)
Theorem header_counts_the_listed_alerts :
  forall date db,
    ClientRest.activeAlertsCount (DatabaseStorage.getActiveWeatherAlerts date db)
    = Z.of_nat (List.length (DatabaseStorage.getActiveWeatherAlerts date db)).
Proof.
  intros date db. unfold ClientRest.activeAlertsCount. f_equal. f_equal.
  apply forallb_filter_id. apply forallb_forall. intros a Ha.
  apply getActiveWeatherAlerts_In in Ha. destruct Ha as [_ Hcur].
  unfold Spec.current in Hcur.
  destruct (weatherAlerts.isActive a) as [[|]|]; [reflexivity|discriminate Hcur..].
Qed.

Lemma with_status_cons : forall status p population,
  ClientRest.with_status status (p :: population)
  = (if String.eqb (affectedPopulation.evacuationStatus p) status then 1 else 0)
    + ClientRest.with_status status population.
Proof.
  intros status p population. unfold ClientRest.with_status. cbn [filter].
  destruct (String.eqb (affectedPopulation.evacuationStatus p) status);
    cbn [List.length]; lia.
Qed.

Lemma one_status : forall s,
  ((if String.eqb s "evacuated" then 1 else 0)
   + (if String.eqb s "sheltered" then 1 else 0)
   + (if String.eqb s "at_risk" then 1 else 0)
   + (if String.eqb s "safe" then 1 else 0) = 1
   /\ In s ["evacuated"; "sheltered"; "at_risk"; "safe"])
  \/ ((if String.eqb s "evacuated" then 1 else 0)
      + (if String.eqb s "sheltered" then 1 else 0)
      + (if String.eqb s "at_risk" then 1 else 0)
      + (if String.eqb s "safe" then 1 else 0) = 0
      /\ ~ In s ["evacuated"; "sheltered"; "at_risk"; "safe"]).
Proof.
  intros s.
  destruct (String.eqb s "evacuated") eqn:E1;
    [apply String.eqb_eq in E1; subst; left; cbn; tauto|].
  destruct (String.eqb s "sheltered") eqn:E2;
    [apply String.eqb_eq in E2; subst; left; cbn; tauto|].
  destruct (String.eqb s "at_risk") eqn:E3;
    [apply String.eqb_eq in E3; subst; left; cbn; tauto|].
  destruct (String.eqb s "safe") eqn:E4;
    [apply String.eqb_eq in E4; subst; left; cbn; tauto|].
  apply String.eqb_neq in E1, E2, E3, E4.
  right. split; [reflexivity|]. cbn. intuition congruence.
Qed.

(** X24. The counters of the population page need not add up.  The four
    counters by evacuation status never exceed the total, and they add up
    to it exactly when every person has one of the four listed statuses
    (which the server does not enforce); under a status filter the page
    shows as many rows as the counter of that status says. *)
Theorem status_counters_and_total :
  forall population,
    ClientRest.stats_evacuated population + ClientRest.stats_sheltered population
      + ClientRest.stats_atRisk population + ClientRest.stats_safe population
    <= ClientRest.stats_total population
    /\ (ClientRest.stats_evacuated population + ClientRest.stats_sheltered population
          + ClientRest.stats_atRisk population + ClientRest.stats_safe population
        = ClientRest.stats_total population
        <-> Forall (fun p => In (affectedPopulation.evacuationStatus p)
                                ["evacuated"; "sheltered"; "at_risk"; "safe"])
                   population)
    /\ forall status,
         status <> "all" ->
         Z.of_nat (List.length (ClientRest.filteredPopulation status population))
         = ClientRest.with_status status population.
Proof.
  intros population. unfold ClientRest.stats_evacuated, ClientRest.stats_sheltered,
    ClientRest.stats_atRisk, ClientRest.stats_safe.
  split; [|split].
  - induction population as [|p rest IH]; [cbn; lia|].
    rewrite !with_status_cons. unfold ClientRest.stats_total in *.
    cbn [List.length].
    destruct (one_status (affectedPopulation.evacuationStatus p)) as [[H _]|[H _]]; lia.
  - assert (Hle : forall l,
               ClientRest.with_status "evacuated" l + ClientRest.with_status "sheltered" l
                 + ClientRest.with_status "at_risk" l + ClientRest.with_status "safe" l
               <= ClientRest.stats_total l).
    { induction l as [|p rest IH]; [cbn; lia|].
      rewrite !with_status_cons. unfold ClientRest.stats_total in *.
      cbn [List.length].
      destruct (one_status (affectedPopulation.evacuationStatus p)) as [[H _]|[H _]];
        lia. }
    induction population as [|p rest IH]; [split; [constructor|reflexivity]|].
    specialize (Hle rest).
    rewrite !with_status_cons. unfold ClientRest.stats_total in *.
    cbn [List.length]. rewrite Forall_cons_iff.
    destruct (one_status (affectedPopulation.evacuationStatus p))
      as [[H Hin]|[H Hout]].
    + split.
      * intros Hsum. split; [exact Hin|]. apply IH. lia.
      * intros [_ Hrest]. apply IH in Hrest. lia.
    + split.
      * intros Hsum. exfalso. lia.
      * intros [Hin _]. contradiction.
  - intros status Hall. unfold ClientRest.filteredPopulation, ClientRest.with_status.
    apply String.eqb_neq in Hall. now rewrite Hall.
Qed.

Lemma status_counters_and_total_witness :
  Z.of_nat (List.length (ClientRest.filteredPopulation "safe" []))
  = ClientRest.with_status "safe" [].
Proof.
  apply (status_counters_and_total []). discriminate.
Defined.

(** X25. How the feed shows what the routes log.  An entry a route writes
    to the activity log is shown in the feed with the dot of a relief
    distribution, of a registration or of an alert only when it was
    logged by the route that creates one; every other entry (zones,
    resources and teams created or updated, a person updated, an alert
    deactivated) gets the default dot and the outlined badge, and none
    gets the dot of an evacuation. *)
Theorem logged_activities_in_the_feed :
  forall r env req (W : Type) (o : oracle W) w,
    In r registerRoutes ->
    Forall (fun e =>
              forall entry,
                Calls.logged e = Some entry ->
                (ClientRest.getActivityColor (ial_type entry) = "bg-success"
                 /\ method r = POST /\ path r = "/api/relief-distribution")
                \/ (ClientRest.getActivityColor (ial_type entry) = "bg-primary"
                    /\ method r = POST /\ path r = "/api/population")
                \/ (ClientRest.getActivityColor (ial_type entry) = "bg-warning"
                    /\ method r = POST /\ path r = "/api/weather-alerts")
                \/ (ClientRest.getActivityColor (ial_type entry) = "bg-muted-foreground"
                    /\ ClientRest.getActivityBadgeVariant (ial_type entry) = "outline"))
           (calls (run o (handle r env req) w)).
Proof.
  intros r env req W o w Hin.
  apply (traced_run _ _ o (handle r env req)
           (fun tr _ =>
              Forall (fun e =>
                forall entry,
                  Calls.logged e = Some entry ->
                  (ClientRest.getActivityColor (ial_type entry) = "bg-success"
                   /\ method r = POST /\ path r = "/api/relief-distribution")
                  \/ (ClientRest.getActivityColor (ial_type entry) = "bg-primary"
                      /\ method r = POST /\ path r = "/api/population")
                  \/ (ClientRest.getActivityColor (ial_type entry) = "bg-warning"
                      /\ method r = POST /\ path r = "/api/weather-alerts")
                  \/ (ClientRest.getActivityColor (ial_type entry) = "bg-muted-foreground"
                      /\ ClientRest.getActivityBadgeVariant (ial_type entry) = "outline"))
                tr)).
  each_route Hin; open_handler;
    repeat (apply Forall_cons; [cbn [Calls.logged]; intros entry0 Hentry0|]);
    try apply Forall_nil;
    try discriminate Hentry0;
    injection Hentry0 as <-; cbn; tauto.
Qed.

Lemma logged_activities_in_the_feed_witness :
  Forall (fun e =>
            forall entry,
              Calls.logged e = Some entry ->
              (ClientRest.getActivityColor (ial_type entry) = "bg-success"
               /\ DELETE = POST /\ "/api/weather-alerts/:id" = "/api/relief-distribution")
              \/ (ClientRest.getActivityColor (ial_type entry) = "bg-primary"
                  /\ DELETE = POST /\ "/api/weather-alerts/:id" = "/api/population")
              \/ (ClientRest.getActivityColor (ial_type entry) = "bg-warning"
                  /\ DELETE = POST /\ "/api/weather-alerts/:id" = "/api/weather-alerts")
              \/ (ClientRest.getActivityColor (ial_type entry) = "bg-muted-foreground"
                  /\ ClientRest.getActivityBadgeVariant (ial_type entry) = "outline"))
         (calls (run SampleRest.obliging
                   (handle {| method := DELETE; path := "/api/weather-alerts/:id";
                              try_block := delete_weather_alerts;
                              catch_message := "Failed to deactivate weather alert" |}
                      Sample.no_api_key (Sample.request "a1" JNull)) tt)).
Proof.
  apply (logged_activities_in_the_feed
           {| method := DELETE; path := "/api/weather-alerts/:id";
              try_block := delete_weather_alerts;
              catch_message := "Failed to deactivate weather alert" |}
           Sample.no_api_key (Sample.request "a1" JNull)
           unit SampleRest.obliging tt).
  unfold registerRoutes. simpl. tauto.
Defined.
